(** * jupytext/formats.py: text notebook formats

    A shallow embedding of [jupytext/formats.py] -- the registry of text
    notebook formats, the parser of compact format specifiers, the format
    resolver, the content-based guesser, the version check and the metadata
    rearrangement -- together with the properties of it that are stated in
    the specification.

    Python values are embedded as a small universe [value]; dictionaries are
    association lists in insertion order; a raised exception is the [Raise]
    branch of the [result] type. *)

From Stdlib Require Import List String Ascii Bool Arith ZArith Lia.
Import ListNotations.
Open Scope string_scope.

(** ** Python values, exceptions and builtins *)

Module Py.

(** The values that notebook metadata (a JSON/YAML document) can hold.
    Floating point numbers are left out: in every operation of this file a
    number behaves like [VInt] (it is neither a string, a list nor a dict). *)
#[warnings="-register-all"]
Inductive value : Type :=
| VNone
| VBool (b : bool)
| VInt (n : Z)
| VStr (s : string)
| VList (l : list value)
| VDict (d : list (string * value)).

(** A [dict] with string keys, in insertion order. *)
Definition dict : Type := list (string * value).

(** What a [JupytextFormatError] complains about. *)
Inductive format_error : Type :=
| NotADictionary
| UnknownOption (key : string)
| NotABool (key : string)
| NotAString (key : string)
| MissingExtension
| NotANotebookExtension (ext : value).

(** The exceptions that the functions of formats.py raise, directly or
    through a builtin.  The two [TypeError]s of [get_format_implementation]
    and the [ValueError]s carry what their message is formatted from. *)
Inductive exn : Type :=
| TypeError
| AttributeError
| KeyError
| FormatNotAssociated (format_name : value) (ext : string) (candidates : list string)
| NoFormatForExtension (ext : string)
| BadExtension (ext : string)
| UnsafeVersion (version : value) (current : string)
| JupytextFormatError (why : format_error).

Inductive result (A : Type) : Type :=
| Ok (a : A)
| Raise (e : exn).
Arguments Ok {A} a.
Arguments Raise {A} e.

Definition bind {A B : Type} (c : result A) (k : A -> result B) : result B :=
  match c with
  | Ok a => k a
  | Raise e => Raise e
  end.

Fixpoint mapM {A B : Type} (f : A -> result B) (l : list A) : result (list B) :=
  match l with
  | [] => Ok []
  | a :: l' =>
      bind (f a) (fun b => bind (mapM f l') (fun bs => Ok (b :: bs)))
  end.

(** Truth value of an object ([bool(v)], [if v:], [not v]). *)
Definition truthy (v : value) : bool :=
  match v with
  | VNone => false
  | VBool b => b
  | VInt n => negb (Z.eqb n 0)
  | VStr s => negb (String.eqb s "")
  | VList l => match l with [] => false | _ => true end
  | VDict d => match d with [] => false | _ => true end
  end.

(** [s == v] for a string [s]. *)
Definition str_eq (s : string) (v : value) : bool :=
  match v with
  | VStr s' => String.eqb s s'
  | _ => false
  end.

(** *** Dictionaries *)

Fixpoint dict_get (k : string) (d : dict) : option value :=
  match d with
  | [] => None
  | (k', v) :: d' => if String.eqb k' k then Some v else dict_get k d'
  end.

Definition dict_mem (k : string) (d : dict) : bool :=
  match dict_get k d with Some _ => true | None => false end.

(** [d[k] = v]: the value of an existing key is replaced where it stands, a
    new key goes to the end. *)
Fixpoint dict_set (k : string) (v : value) (d : dict) : dict :=
  match d with
  | [] => [(k, v)]
  | (k', v') :: d' =>
      if String.eqb k' k then (k, v) :: d' else (k', v') :: dict_set k v d'
  end.

(** What is left of [d] after [d.pop(k, ...)]. *)
Definition dict_remove (k : string) (d : dict) : dict :=
  filter (fun kv => negb (String.eqb (fst kv) k)) d.

(** [d.get(k, default)]. *)
Definition get_default (k : string) (default : value) (d : dict) : value :=
  match dict_get k d with Some v => v | None => default end.

(** [o.get(k, default)] for an object [o] that need not be a dict: only a
    dict has the method. *)
Definition value_get (o : value) (k : string) (default : value) : result value :=
  match o with
  | VDict d => Ok (get_default k default d)
  | _ => Raise AttributeError
  end.

(** [o[k] = v] for an object [o] that need not be a dict. *)
Definition value_setitem (o : value) (k : string) (v : value) : result value :=
  match o with
  | VDict d => Ok (VDict (dict_set k v d))
  | _ => Raise TypeError
  end.

(** [o[k]] for a string [k]. *)
Definition value_getitem (o : value) (k : string) : result value :=
  match o with
  | VDict d =>
      match dict_get k d with Some v => Ok v | None => Raise KeyError end
  | _ => Raise TypeError
  end.

(** *** Strings *)

(** [s.startswith(p)]. *)
Fixpoint startswith (p s : string) : bool :=
  match p, s with
  | EmptyString, _ => true
  | String _ _, EmptyString => false
  | String a p', String b s' => Ascii.eqb a b && startswith p' s'
  end.

(** [s.split(sep)] for a one-character separator. *)
Fixpoint split (sep : ascii) (s : string) : list string :=
  match s with
  | EmptyString => [EmptyString]
  | String c s' =>
      if Ascii.eqb c sep then EmptyString :: split sep s'
      else match split sep s' with
           | [] => [String c EmptyString]
           | p :: ps => String c p :: ps
           end
  end.

(** [s.split(sep, 1)] when [sep] occurs in [s]: what is before the first
    [sep] and what is after it; [None] when [sep] does not occur. *)
Fixpoint split_once (sep : ascii) (s : string) : option (string * string) :=
  match s with
  | EmptyString => None
  | String c s' =>
      if Ascii.eqb c sep then Some (EmptyString, s')
      else match split_once sep s' with
           | Some (a, b) => Some (String c a, b)
           | None => None
           end
  end.

(** [s.find(c)], -1 when [c] does not occur. *)
Fixpoint find_from (c : ascii) (s : string) (i : Z) : Z :=
  match s with
  | EmptyString => (-1)%Z
  | String a s' => if Ascii.eqb a c then i else find_from c s' (i + 1)%Z
  end.
Definition find (c : ascii) (s : string) : Z := find_from c s 0%Z.

(** [s.rfind(c)], -1 when [c] does not occur. *)
Fixpoint rfind_from (c : ascii) (s : string) (i acc : Z) : Z :=
  match s with
  | EmptyString => acc
  | String a s' => rfind_from c s' (i + 1)%Z (if Ascii.eqb a c then i else acc)
  end.
Definition rfind (c : ascii) (s : string) : Z := rfind_from c s 0%Z (-1)%Z.


Fixpoint endswith (suffix s : string) : bool :=
  String.eqb s suffix
  || match s with
     | EmptyString => false
     | String _ s' => endswith suffix s'
     end.

(** [sep.join(parts)]. *)
Definition join (sep : string) (parts : list string) : string :=
  String.concat sep parts.

(** The slices [s[:i]] and [s[i:]] for [0 <= i]. *)
Definition slice_to (i : nat) (s : string) : string := String.substring 0 i s.
Definition slice_from (i : nat) (s : string) : string :=
  String.substring i (String.length s - i) s.

Fixpoint all_dots (s : string) : bool :=
  match s with
  | EmptyString => true
  | String c s' => Ascii.eqb c "." && all_dots s'
  end.

(** [os.path.splitext] (posixpath): the extension starts at the last dot of
    the last path component, unless that component has nothing but dots
    before it. *)
Definition splitext (p : string) : string * string :=
  let sepIndex := rfind "/" p in
  let dotIndex := rfind "." p in
  if (sepIndex <? dotIndex)%Z then
    let filenameIndex := Z.to_nat (sepIndex + 1) in
    if all_dots (String.substring filenameIndex (Z.to_nat dotIndex - filenameIndex) p)
    then (p, EmptyString)
    else (slice_to (Z.to_nat dotIndex) p, slice_from (Z.to_nat dotIndex) p)
  else (p, EmptyString).

(** [s.replace(old, new)] for a non-empty [old]: [skip] counts the characters
    of an occurrence of [old] that are still to be passed over. *)
Fixpoint replace_from (old new : string) (skip : nat) (s : string) : string :=
  match s with
  | EmptyString => EmptyString
  | String c s' =>
      match skip with
      | S n => replace_from old new n s'
      | O =>
          if startswith old s
          then new ++ replace_from old new (String.length old - 1) s'
          else String c (replace_from old new 0 s')
      end
  end.
Definition replace (old new s : string) : string := replace_from old new 0 s.

(** [sub in s] for two strings. *)
Fixpoint str_contains (sub s : string) : bool :=
  startswith sub s
  || match s with
     | EmptyString => false
     | String _ s' => str_contains sub s'
     end.

(** [k in o] for a string [k]: a key of a dict, an item of a list, a
    substring of a string; other objects are not containers. *)
Definition value_contains (k : string) (o : value) : result bool :=
  match o with
  | VDict d => Ok (dict_mem k d)
  | VList l => Ok (existsb (str_eq k) l)
  | VStr s => Ok (str_contains k s)
  | _ => Raise TypeError
  end.

(** [o.pop(k, default)]: the value and what is left of [o].  A list has a
    [pop] that takes one argument at most; other objects have none. *)
Definition value_pop (o : value) (k : string) (default : value)
    : result (value * dict) :=
  match o with
  | VDict d => Ok (get_default k default d, dict_remove k d)
  | VList _ => Raise TypeError
  | _ => Raise AttributeError
  end.

(** The strings of a list that [','.join] accepts. *)
Definition as_str (v : value) : result string :=
  match v with
  | VStr s => Ok s
  | _ => Raise TypeError
  end.

(** [x in l] for a list of strings. *)
Definition str_in (x : string) (l : list string) : bool :=
  existsb (String.eqb x) l.

(** [list(dict.fromkeys(l))]: [l] without the later repetitions. *)
Fixpoint fromkeys_from (seen l : list string) : list string :=
  match l with
  | [] => []
  | x :: l' =>
      if str_in x seen then fromkeys_from seen l'
      else x :: fromkeys_from (x :: seen) l'
  end.
Definition fromkeys (l : list string) : list string := fromkeys_from [] l.

End Py.

Import Py.

Declare Scope py_scope.
Delimit Scope py_scope with py.
Notation "x <- c ;; k" := (bind c (fun x => k))
  (at level 61, c at next level, right associativity) : py_scope.
Notation "' pat <- c ;; k" := (bind c (fun x => match x with pat => k end))
  (at level 61, pat pattern, c at next level, right associativity) : py_scope.
Open Scope py_scope.

(** ** The registry of formats *)

(** The cell readers of cell_reader.py and the cell exporters of
    cell_to_text.py: a format description only names them. *)
Inductive cell_reader : Type :=
| MarkdownCellReader | RMarkdownCellReader | LightScriptCellReader
| RScriptCellReader | DoublePercentScriptCellReader | HydrogenCellReader
| SphinxGalleryScriptCellReader.

Inductive cell_exporter : Type :=
| MarkdownCellExporter | RMarkdownCellExporter | LightScriptCellExporter
| RScriptCellExporter | DoublePercentCellExporter | HydrogenCellExporter
| SphinxGalleryCellExporter.

(** Description of a notebook format. *)
Record NotebookFormatDescription : Type := {
  format_name : string;
  extension : string;
  header_prefix : string;
  cell_reader_class : cell_reader;
  cell_exporter_class : cell_exporter;
  current_version_number : string;
  min_readable_version_number : option string
}.

(** An entry of [_SCRIPT_EXTENSIONS] (languages.py): the language of a script
    extension and its comment prefix. *)
Record script_language : Type := {
  language : string;
  comment : string
}.

Definition EXTENSION_PREFIXES : list string :=
  [".lgt"; ".spx"; ".pct"; ".hyd"; ".nb"].

Definition _VALID_FORMAT_OPTIONS : list string :=
  ["extension"; "format_name"; "suffix"; "prefix"; "comment_magics";
   "split_at_heading"; "notebook_metadata_filter"; "cell_metadata_filter"].

Definition _BINARY_FORMAT_OPTIONS : list string :=
  ["comment_magics"; "split_at_heading"].

(** [formats.py] imports [_SCRIPT_EXTENSIONS] from [languages.py], which is
    not part of the sources at hand: the table is a parameter of the
    development, a dict from script extension to its language entry, in
    insertion order.  The keys of a dict are distinct; a lookup takes the
    first entry of a key. *)
Section Formats.

Variable _SCRIPT_EXTENSIONS : list (string * script_language).

(** [_SCRIPT_EXTENSIONS[ext]['comment']], on a key of the table. *)
Fixpoint script_comment_in (t : list (string * script_language)) (ext : string) : string :=
  match t with
  | [] => EmptyString
  | (e, l) :: t' => if String.eqb e ext then comment l else script_comment_in t' ext
  end.
Definition script_comment : string -> string := script_comment_in _SCRIPT_EXTENSIONS.

(** [for ext in _SCRIPT_EXTENSIONS]. *)
Definition script_extensions : list string := map fst _SCRIPT_EXTENSIONS.

Definition JUPYTEXT_FORMATS : list NotebookFormatDescription :=
  [ {| format_name := "markdown"; extension := ".md"; header_prefix := "";
       cell_reader_class := MarkdownCellReader;
       cell_exporter_class := MarkdownCellExporter;
       current_version_number := "1.0";
       min_readable_version_number := None |};
    {| format_name := "rmarkdown"; extension := ".Rmd"; header_prefix := "";
       cell_reader_class := RMarkdownCellReader;
       cell_exporter_class := RMarkdownCellExporter;
       current_version_number := "1.0";
       min_readable_version_number := None |} ]
  ++ map (fun ext =>
       {| format_name := "spin"; extension := ext; header_prefix := "#'";
          cell_reader_class := RScriptCellReader;
          cell_exporter_class := RScriptCellExporter;
          current_version_number := "1.0";
          min_readable_version_number := None |}) [".r"; ".R"]
  ++ map (fun ext =>
       {| format_name := "light"; extension := ext;
          header_prefix := script_comment ext;
          cell_reader_class := LightScriptCellReader;
          cell_exporter_class := LightScriptCellExporter;
          current_version_number := "1.3";
          min_readable_version_number := Some "1.1" |}) script_extensions
  ++ map (fun ext =>
       {| format_name := "percent"; extension := ext;
          header_prefix := script_comment ext;
          cell_reader_class := DoublePercentScriptCellReader;
          cell_exporter_class := DoublePercentCellExporter;
          current_version_number := "1.2";
          min_readable_version_number := Some "1.1" |}) script_extensions
  ++ map (fun ext =>
       {| format_name := "hydrogen"; extension := ext;
          header_prefix := script_comment ext;
          cell_reader_class := HydrogenCellReader;
          cell_exporter_class := HydrogenCellExporter;
          current_version_number := "1.2";
          min_readable_version_number := Some "1.1" |}) script_extensions
  ++ [ {| format_name := "sphinx"; extension := ".py"; header_prefix := "#";
          cell_reader_class := SphinxGalleryScriptCellReader;
          cell_exporter_class := SphinxGalleryCellExporter;
          current_version_number := "1.1";
          min_readable_version_number := None |} ].

Definition NOTEBOOK_EXTENSIONS : list string :=
  fromkeys (".ipynb" :: map extension JUPYTEXT_FORMATS).

(** The loop of [get_format_implementation] over the formats that are left,
    [formats_for_extension] being the names collected so far. *)
Fixpoint find_format (fmts : list NotebookFormatDescription) (ext : string)
    (name : value) (formats_for_extension : list string)
    : result (option NotebookFormatDescription) :=
  match fmts with
  | [] =>
      match formats_for_extension with
      | _ :: _ => Raise (FormatNotAssociated name ext formats_for_extension)
      | [] => Raise (NoFormatForExtension ext)
      end
  | fmt :: fmts' =>
      if String.eqb (extension fmt) ext then
        if str_eq (format_name fmt) name || negb (truthy name)
        then Ok (Some fmt)
        else find_format fmts' ext name (formats_for_extension ++ [format_name fmt])
      else find_format fmts' ext name formats_for_extension
  end.

(** Return the implementation for the desired format. *)
Definition get_format_implementation (ext : string) (name : value)
    : result (option NotebookFormatDescription) :=
  let ext := "." ++ last (split "." ext) EmptyString in
  if endswith ".ipynb" ext then Ok None
  else find_format JUPYTEXT_FORMATS ext name [].


(** ** Compact format specifiers *)

(** The extension and the format name of ["py:percent"]. *)
Definition split_format_name (ext_and_format_name : string) : string * option string :=
  if (0 <=? find ":" ext_and_format_name)%Z then
    match split_once ":" ext_and_format_name with
    | Some (ext, name) => (ext, Some name)
    | None => (ext_and_format_name, None)
    end
  else (ext_and_format_name, None).

(** Parse "py:percent" into (".py", "percent"), etc. *)
Definition parse_one_format (ext_and_format_name : string)
    : result (string * option string) :=
  let '(ext, name) := split_format_name ext_and_format_name in
  let ext := if startswith "." ext then ext else "." ++ ext in
  let legitimate_extensions := (NOTEBOOK_EXTENSIONS ++ [".auto"])%list in
  if str_in ext legitimate_extensions then Ok (ext, name)
  else if (0 <? rfind "." ext)%Z
          && (let '(pre, short_ext) := splitext ext in
              str_in short_ext legitimate_extensions
              && str_in pre EXTENSION_PREFIXES)
  then Ok (ext, name)
  else Raise (BadExtension ext).

(** Parse "md,py:percent" into [(".md", None), (".py", "percent")], etc.
    The argument is what the metadata holds: any value. *)
Definition parse_formats (formats : value) : result (list (string * option string)) :=
  if negb (truthy formats) then Ok []
  else match formats with
       | VStr s => mapM parse_one_format (split "," s)
       | _ => Raise AttributeError
       end.

(** The loop of [update_formats], [found_ext] telling whether an entry for
    [ext] was met already. *)
Fixpoint update_formats_from (found_ext : bool) (formats : list (string * option string))
    (ext : string) (name : option string) : list (string * option string) :=
  match formats with
  | [] => []
  | (org_ext, org_format_name) :: formats' =>
      if negb (String.eqb org_ext ext)
      then (org_ext, org_format_name) :: update_formats_from found_ext formats' ext name
      else if negb found_ext
      then (ext, name) :: update_formats_from true formats' ext name
      else update_formats_from found_ext formats' ext name
  end.

(** Update the format list with the given format name. *)
Definition update_formats (formats : list (string * option string))
    (ext : string) (name : option string) : list (string * option string) :=
  update_formats_from false formats ext name.

(** ('.py', None) to 'py', etc. *)
Definition one_format_as_string (ext : string) (name : option string) : string :=
  let ext := if startswith "." ext then slice_from 1 ext else ext in
  match name with
  | Some n =>
      if negb (String.eqb n "") && negb (str_in n ["markdown"; "rmarkdown"])
      then ext ++ ":" ++ n
      else ext
  | None => ext
  end.

(** Concatenate all formats into a string. *)
Definition formats_as_string (formats : list (string * option string)) : string :=
  join "," (map (fun f => one_format_as_string (fst f) (snd f)) formats).

(** ** The format resolver *)

(** Script extension from kernel information. *)
Definition auto_ext_from_metadata (metadata : dict) : result value :=
  auto_ext <- value_get (get_default "language_info" (VDict []) metadata)
                "file_extension" VNone ;;
  if str_eq ".r" auto_ext then Ok (VStr ".R") else Ok auto_ext.

(** The format name of a parsed entry, as a Python object. *)
Definition name_value (name : option string) : value :=
  match name with
  | Some n => VStr n
  | None => VNone
  end.

(** The loop of [format_name_for_ext] over the parsed formats: [Some v] when
    the loop returns [v], [None] when it runs to its end. *)
Fixpoint format_name_in (formats : list (string * option string)) (ext : string)
    (auto_ext : value) (explicit_default : bool) : result (option value) :=
  match formats with
  | [] => Ok None
  | (fmt_ext, ext_format_name) :: formats' =>
      same_ext <-
        (if endswith ext fmt_ext then Ok true
         else if endswith ".auto" fmt_ext && truthy auto_ext then
           match auto_ext with
           | VStr a => Ok (endswith a ext)
           | _ => Raise TypeError
           end
         else Ok false) ;;
      if same_ext && (negb explicit_default || truthy (name_value ext_format_name))
      then Ok (Some (name_value ext_format_name))
      else format_name_in formats' ext auto_ext explicit_default
  end.

(** Return the format name for that extension. *)
Definition format_name_for_ext (metadata : dict) (ext : string)
    (cm_default_formats : value) (explicit_default : bool) : result value :=
  (* Is the format information available in the text representation? *)
  text_repr <- value_get (get_default "jupytext" (VDict []) metadata)
                 "text_representation" VNone ;;
  declared <-
    (if truthy text_repr then
       e <- value_get text_repr "extension" VNone ;;
       if str_eq ext e then value_get text_repr "format_name" VNone else Ok VNone
     else Ok VNone) ;;
  if truthy declared then Ok declared
  else
    (* Format from jupytext.formats *)
    auto_ext <- auto_ext_from_metadata metadata ;;
    formats <- value_get (get_default "jupytext" (VDict []) metadata)
                 "formats" (VStr "") ;;
    formats <- parse_formats (if truthy formats then formats else cm_default_formats) ;;
    found <- format_name_in formats ext auto_ext explicit_default ;;
    match found with
    | Some name => Ok name
    | None =>
        if negb explicit_default || str_in ext [".Rmd"; ".md"] then Ok VNone
        else
          fmt <- get_format_implementation ext VNone ;;
          match fmt with
          | Some fmt => Ok (VStr (format_name fmt))
          | None => Raise AttributeError
          end
    end.

(** Update the jupytext_format metadata in the Jupyter notebook: the metadata
    of the notebook after the call. *)
Definition update_jupytext_formats_metadata (metadata : dict) (ext : string)
    (name : option string) : result dict :=
  formats <- value_get (get_default "jupytext" (VDict []) metadata)
               "formats" (VStr "") ;;
  formats <- parse_formats formats ;;
  let formats := update_formats formats ext name in
  match formats with
  | [] => Ok metadata
  | _ :: _ =>
      let text := VStr (formats_as_string formats) in
      match dict_get "jupytext" metadata with
      | Some j =>
          j' <- value_setitem j "formats" text ;;
          Ok (dict_set "jupytext" j' metadata)
      | None => Ok (dict_set "jupytext" (VDict [("formats", text)]) metadata)
      end
  end.

(** ** The version check *)

(** [insert_or_test_version_number()] of header.py: whether version numbers
    are tested at all. *)
Variable insert_or_test_version_number : bool.

(** [lo <= version <= current] on strings, in the order of their characters.
    A version that is not a string (None, when no version is recorded) does
    not compare with one: Python 3 raises a [TypeError]. *)
Definition version_between (lo : string) (version : value) (current : string)
    : result bool :=
  match version with
  | VStr v => Ok (String.leb lo v && String.leb v current)
  | _ => Raise TypeError
  end.

(** Raise if file version in source file would override outputs. *)
Definition check_file_version (metadata : dict) (source_path outputs_path : string)
    : result unit :=
  if negb insert_or_test_version_number then Ok tt
  else
    let ext := snd (splitext source_path) in
    if endswith ".ipynb" ext then Ok tt
    else
      text_repr <- value_get (get_default "jupytext" (VDict []) metadata)
                     "text_representation" (VDict []) ;;
      version <- value_get text_repr "format_version" VNone ;;
      name <- format_name_for_ext metadata ext VNone true ;;
      fmt <- get_format_implementation ext name ;;
      match fmt with
      | None => Raise AttributeError
      | Some fmt =>
          let current := current_version_number fmt in
          (* Missing version, still generated by jupytext? *)
          let version :=
            if truthy (VDict metadata) && negb (truthy version)
            then VStr current else version in
          (* Same version? OK *)
          if str_eq (current_version_number fmt) version then Ok tt
          else
            (* Version larger than minimum readable version *)
            let lo := match min_readable_version_number fmt with
                      | Some m => if String.eqb m "" then current else m
                      | None => current
                      end in
            readable <- version_between lo version current ;;
            if readable then Ok tt
            (* Not merging? OK *)
            else if String.eqb source_path outputs_path then Ok tt
            else Raise (UnsafeVersion version current)
      end.

(** ** The metadata rearrangement *)

(** [if key in metadata: metadata[new_key] = metadata.pop(key)]. *)
Definition rename_key (key new_key : string) (metadata : dict) : dict :=
  match dict_get key metadata with
  | Some v => dict_set new_key v (dict_remove key metadata)
  | None => metadata
  end.

(** [if key in metadata: jupytext_metadata[new_key] = wrap(metadata.pop(key))]:
    the metadata and the jupytext metadata after the statement. *)
Definition fold_key (key new_key : string) (wrap : value -> value)
    (st : dict * value) : result (dict * value) :=
  let '(metadata, jupytext_metadata) := st in
  match dict_get key metadata with
  | Some v =>
      j <- value_setitem jupytext_metadata new_key (wrap v) ;;
      Ok (dict_remove key metadata, j)
  | None => Ok st
  end.

(** [if key in filters: jupytext_metadata[new_key] = filters[key]]. *)
Definition fold_filter (key new_key : string) (filters : value) (j : dict)
    : result dict :=
  present <- value_contains key filters ;;
  if present then
    v <- value_getitem filters key ;;
    Ok (dict_set new_key v j)
  else Ok j.

(** The characters of a text, which Python iterates over.  A text is held as
    its UTF-8 bytes: a character is a byte that starts one, with the
    continuation bytes (10xxxxxx) that follow it. *)
Definition is_continuation_byte (c : ascii) : bool :=
  let n := nat_of_ascii c in (128 <=? n)%nat && (n <? 192)%nat.

Fixpoint characters (s : string) : list string :=
  match s with
  | EmptyString => []
  | String c s' =>
      match characters s' with
      | p :: ps =>
          if match s' with
             | String c' _ => is_continuation_byte c'
             | EmptyString => false
             end
          then String c p :: ps
          else String c EmptyString :: p :: ps
      | [] => [String c EmptyString]
      end
  end.

(** The items of [['-' + e for e in excluded]]: the items of a list, the keys
    of a dict, the characters of a string. *)
Definition minus_entries (excluded : value) : result (list value) :=
  match excluded with
  | VList l => mapM (fun e => s <- as_str e ;; Ok (VStr ("-" ++ s))) l
  | VDict d => Ok (map (fun kv => VStr ("-" ++ fst kv)) d)
  | VStr s => Ok (map (fun c => VStr ("-" ++ c)) (characters s))
  | _ => Raise TypeError
  end.

(** The compact form of a filter [{'additional': ..., 'excluded': ...}].
    [entries] is the list [additional] itself when that is not 'all', and it
    is extended in place; the dict that holds it is dropped by the caller,
    which stores the joined string in its place. *)
Definition flatten_filter (filter : dict) : result string :=
  let additional := get_default "additional" (VList []) filter in
  let excluded := get_default "excluded" (VList []) filter in
  entries <-
    (if str_eq "all" additional then Ok [VStr "all"]
     else match additional with
          | VList l => Ok l
          | _ => Raise AttributeError
          end) ;;
  more <- (if str_eq "all" excluded then Ok [VStr "-all"] else minus_entries excluded) ;;
  parts <- mapM as_str (entries ++ more) ;;
  Ok (join "," parts).

(** One round of the loop over the two filter levels. *)
Definition flatten_level (filter_level : string) (j : dict) : result dict :=
  match get_default filter_level VNone j with
  | VDict filter =>
      text <- flatten_filter filter ;;
      Ok (dict_set filter_level (VStr text) j)
  | _ => Ok j
  end.

(** Convert the jupytext_formats metadata entry to jupytext/formats, etc.
    See #91.  The function changes [metadata] in place: the result is the
    metadata after the call. *)
Definition rearrange_jupytext_metadata (metadata : dict) : result dict :=
  (* Backward compatibility with nbrmd *)
  let metadata :=
    fold_left (fun m key => rename_key key (replace "nbrmd" "jupytext" key) m)
      ["nbrmd_formats"; "nbrmd_format_version"] metadata in
  let jupytext_metadata := get_default "jupytext" (VDict []) metadata in
  let metadata := dict_remove "jupytext" metadata in
  st <- fold_key "jupytext_formats" "formats" (fun v => v) (metadata, jupytext_metadata) ;;
  st <- fold_key "jupytext_format_version" "text_representation"
          (fun v => VDict [("format_version", v)]) st ;;
  st <- fold_key "main_language" "main_language" (fun v => v) st ;;
  st <- fold_key "encoding" "encoding" (fun v => v) st ;;
  st <- fold_key "executable" "executable" (fun v => v) st ;;
  let '(metadata, jupytext_metadata) := st in
  popped <- value_pop jupytext_metadata "metadata_filter" (VDict []) ;;
  let '(filters, j) := popped in
  j <- fold_filter "notebook" "notebook_metadata_filter" filters j ;;
  j <- fold_filter "cells" "cell_metadata_filter" filters j ;;
  j <- flatten_level "notebook_metadata_filter" j ;;
  j <- flatten_level "cell_metadata_filter" j ;;
  if truthy (VDict j) then Ok (dict_set "jupytext" (VDict j) metadata)
  else Ok metadata.

(** ** Long form of the formats *)

(** Parse 'sfx.py:percent' into {'suffix':'sfx', 'extension':'py',
    'format_name':'percent'}; what is not a string is returned as it is. *)
Definition long_form_one_format (jupytext_format : value) : value :=
  match jupytext_format with
  | VStr text =>
      let '(ext, fmt) :=
        match split_format_name text with
        | (ext, Some name) => (ext, [("format_name", VStr name)])
        | (ext, None) => (ext, [])
        end in
      let '(ext, fmt) :=
        if (0 <? rfind "." ext)%Z
        then (snd (splitext ext), dict_set "suffix" (VStr (fst (splitext ext))) fmt)
        else (ext, fmt) in
      let ext := if startswith "." ext then ext else "." ++ ext in
      VDict (dict_set "extension" (VStr ext) fmt)
  | _ => jupytext_format
  end.

(** The checks of [validate_one_format] on one option of the format. *)
Definition validate_option (jupytext_format : dict) (key : string) : result unit :=
  if negb (str_in key _VALID_FORMAT_OPTIONS) then
    Raise (JupytextFormatError (UnknownOption key))
  else
    value <- value_getitem (VDict jupytext_format) key ;;
    if str_in key _BINARY_FORMAT_OPTIONS then
      match value with
      | VBool _ => Ok tt
      | _ => Raise (JupytextFormatError (NotABool key))
      end
    else
      match value with
      | VStr _ => Ok tt
      | _ => Raise (JupytextFormatError (NotAString key))
      end.

(** Validate extension and options for the given format. *)
Definition validate_one_format (jupytext_format : value) : result unit :=
  match jupytext_format with
  | VDict d =>
      _ <- mapM (validate_option d) (map fst d) ;;
      match dict_get "extension" d with
      | None => Raise (JupytextFormatError MissingExtension)
      | Some ext =>
          if existsb (fun e => str_eq e ext) (NOTEBOOK_EXTENSIONS ++ [".auto"])%list
          then Ok tt
          else Raise (JupytextFormatError (NotANotebookExtension ext))
      end
  | _ => Raise (JupytextFormatError NotADictionary)
  end.

(** The items that a [for] loop over [o] runs through. *)
Definition iterate (o : value) : result (list value) :=
  match o with
  | VList l => Ok l
  | VDict d => Ok (map (fun kv => VStr (fst kv)) d)
  | VStr s => Ok (map (fun c => VStr (String c EmptyString)) (list_ascii_of_string s))
  | _ => Raise TypeError
  end.

(** Convert a concise encoding of jupytext.formats to a list of formats,
    encoded as dictionaries. *)
Definition long_form_multiple_formats (jupytext_formats : value) : result (list value) :=
  if negb (truthy jupytext_formats) then Ok []
  else
    items <-
      match jupytext_formats with
      | VStr text =>
          Ok (map VStr (filter (fun fmt => negb (String.eqb fmt "")) (split "," text)))
      | _ => iterate jupytext_formats
      end ;;
    let jupytext_formats := map long_form_one_format items in
    _ <- mapM validate_one_format jupytext_formats ;;
    Ok jupytext_formats.

(** ** Guessing the format from the content *)

(** The collaborators of [read_metadata] and [guess_format]: [str.splitlines],
    the header parser of header.py (its first result, the metadata; it may
    raise), the regular expressions of [re], and the [StringParser] of
    stringparser.py, which follows the quotes of the text line by line. *)
Variable splitlines : string -> list string.
Variable header_to_metadata_and_cell : list string -> string -> result dict.
Variable regex : Type.
Variable re_compile : string -> result regex.
Variable re_match : regex -> string -> bool.
Variable StringParser : Type.
Variable new_StringParser : string -> StringParser.
Variable read_line : StringParser -> string -> StringParser.
Variable is_quoted : StringParser -> bool.

(** [_SCRIPT_EXTENSIONS.get(ext, {}).get('comment', '#')]. *)
Fixpoint comment_or_hash (t : list (string * script_language)) (ext : string) : string :=
  match t with
  | [] => "#"
  | (e, l) :: t' => if String.eqb e ext then comment l else comment_or_hash t' ext
  end.

(** Return the header metadata. *)
Definition read_metadata (text ext : string) : result dict :=
  let ext := "." ++ last (split "." ext) EmptyString in
  let lines := splitlines text in
  let comment :=
    if str_in ext [".md"; ".Rmd"] then EmptyString
    else comment_or_hash _SCRIPT_EXTENSIONS ext in
  metadata <- header_to_metadata_and_cell lines comment ;;
  if str_in ext [".r"; ".R"] && negb (truthy (VDict metadata))
  then header_to_metadata_and_cell lines "#'"
  else Ok metadata.

(** [set(o).difference(allowed)] is not empty.  The items of a list go into
    a set only when they are hashable. *)
Definition has_other_items (o : value) (allowed : list string) : result bool :=
  match o with
  | VDict d => Ok (existsb (fun kv => negb (str_in (fst kv) allowed)) d)
  | VStr s =>
      Ok (existsb (fun c => negb (str_in (String c EmptyString) allowed))
            (list_ascii_of_string s))
  | VList l =>
      if existsb (fun v => match v with VList _ | VDict _ => true | _ => false end) l
      then Raise TypeError
      else Ok (existsb (fun v => negb (existsb (fun a => str_eq a v) allowed)) l)
  | _ => Raise TypeError
  end.

(** The test of [guess_format] on the header metadata: whether they say more
    than the encoding, the executable or the main language. *)
Definition explicit_metadata (metadata : dict) : result bool :=
  in_jupytext <-
    (match dict_get "jupytext" metadata with
     | Some j => has_other_items j ["encoding"; "executable"; "main_language"]
     | None => Ok false
     end) ;;
  if in_jupytext then Ok true
  else Ok (existsb (fun kv => negb (str_in (fst kv) ["jupytext"])) metadata).

(** The three counters of [guess_format]. *)
Record marker_counts : Type := {
  twenty_hash_count : nat;
  double_percent_count : nat;
  magic_command_count : nat
}.

(** The loop of [guess_format] over the lines that are left. *)
Fixpoint count_markers (ext : string)
    (magic_re double_percent_re double_percent_and_space_re nbconvert_script_re : regex)
    (parser : StringParser) (lines : list string) (counts : marker_counts)
    : marker_counts :=
  match lines with
  | [] => counts
  | line :: lines' =>
      let parser := read_line parser line in
      let next :=
        count_markers ext magic_re double_percent_re double_percent_and_space_re
          nbconvert_script_re parser lines' in
      if is_quoted parser then next counts
      else
        let twenty_hash := "####################" in
        next
          {| double_percent_count :=
               (if re_match double_percent_re line
                   || re_match double_percent_and_space_re line
                   || re_match nbconvert_script_re line
                then S (double_percent_count counts)
                else double_percent_count counts);
             magic_command_count :=
               (if re_match magic_re line
                then S (magic_command_count counts)
                else magic_command_count counts);
             twenty_hash_count :=
               (if startswith twenty_hash line && String.eqb ext ".py"
                then S (twenty_hash_count counts)
                else twenty_hash_count counts) |}
  end.

(** What [guess_format] returns from the counters, [None] when it goes on to
    the default format. *)
Definition format_of_counts (counts : marker_counts) : option string :=
  if (1 <=? double_percent_count counts)%nat then
    if (0 <? magic_command_count counts)%nat then Some "hydrogen" else Some "percent"
  else if (2 <=? twenty_hash_count counts)%nat then Some "sphinx"
  else None.

(** The counters of a script, for an extension of [_SCRIPT_EXTENSIONS]. *)
Definition scan_script (lines : list string) (ext : string) : result marker_counts :=
  let comment := script_comment ext in
  magic_re <- re_compile "^(%|%%|%%%)[a-zA-Z]" ;;
  double_percent_re <- re_compile ("^" ++ comment ++ "( %%|%%)$") ;;
  double_percent_and_space_re <- re_compile ("^" ++ comment ++ "( %%|%%)\s") ;;
  nbconvert_script_re <-
    re_compile ("^" ++ comment ++ "( <codecell>| In\[[0-9 ]*\]:?)") ;;
  let parser :=
    new_StringParser (if str_in ext [".r"; ".R"] then "R" else "python") in
  Ok (count_markers ext magic_re double_percent_re double_percent_and_space_re
        nbconvert_script_re parser lines
        {| twenty_hash_count := 0; double_percent_count := 0;
           magic_command_count := 0 |}).

(** The default format of [guess_format]. *)
Definition default_format_name (ext : string) : result value :=
  fmt <- get_format_implementation ext VNone ;;
  match fmt with
  | Some fmt => Ok (VStr (format_name fmt))
  | None => Raise AttributeError
  end.

(** Guess the format of the file, given its extension and content. *)
Definition guess_format (text ext : string) : result value :=
  let lines := splitlines text in
  metadata <- read_metadata text ext ;;
  explicit <- explicit_metadata metadata ;;
  if explicit then format_name_for_ext metadata ext VNone true
  else
    (* Is this a Hydrogen-like script?  Or a Sphinx-gallery script? *)
    if str_in ext script_extensions then
      counts <- scan_script lines ext ;;
      match format_of_counts counts with
      | Some name => Ok (VStr name)
      | None => default_format_name ext
      end
    else
      (* Default format *)
      default_format_name ext.

(** ** The other functions of formats.py *)

(** Return the format of the file, when that information is available from
    the metadata. *)
Definition read_format_from_metadata (text ext : string) : result value :=
  metadata <- read_metadata text ext ;;
  metadata <- rearrange_jupytext_metadata metadata ;;
  format_name_for_ext metadata ext VNone false.

(** What a call of [set_auto_ext] ends with: the list of formats, its own
    [ValueError] ('No kernel information found, cannot save to .auto
    extension'), or an exception of the functions that it calls. *)
Inductive auto_ext_result : Type :=
| Resolved (formats : list value)
| NoKernelInformation
| Failed (e : exn).

(** The loop of [set_auto_ext] over the formats that are left. *)
Fixpoint replace_auto_ext (ext : value) (formats : list value) : auto_ext_result :=
  match formats with
  | [] => Resolved []
  | fmt :: formats' =>
      match value_getitem fmt "extension" with
      | Raise e => Failed e
      | Ok fmt_ext =>
          if str_eq ".auto" fmt_ext then
            if negb (truthy ext) then NoKernelInformation
            else
              match value_setitem fmt "extension" ext with
              | Raise e => Failed e
              | Ok fmt' =>
                  match replace_auto_ext ext formats' with
                  | Resolved formats'' => Resolved (fmt' :: formats'')
                  | other => other
                  end
              end
          else
            match replace_auto_ext ext formats' with
            | Resolved formats'' => Resolved (fmt :: formats'')
            | other => other
            end
      end
  end.

(** Expend the format definition, and replaces extension .auto with that
    from the metadata. *)
Definition set_auto_ext (jupytext_formats : value) (metadata : dict) : auto_ext_result :=
  match long_form_multiple_formats jupytext_formats with
  | Raise e => Failed e
  | Ok formats =>
      match auto_ext_from_metadata metadata with
      | Raise e => Failed e
      | Ok ext => replace_auto_ext ext formats
      end
  end.

(** [a == b] on values.  True is 1 and False is 0; lists are equal item by
    item; two dicts are equal when they have the same keys with equal
    values, in any order. *)
Fixpoint value_eqb (a b : value) {struct a} : bool :=
  match a, b with
  | VNone, VNone => true
  | VBool x, VBool y => Bool.eqb x y
  | VBool x, VInt n => Z.eqb (if x then 1 else 0) n
  | VInt n, VBool y => Z.eqb n (if y then 1 else 0)
  | VInt n, VInt m => Z.eqb n m
  | VStr s, VStr t => String.eqb s t
  | VList l, VList l' =>
      (fix items_eqb (l l' : list value) {struct l} : bool :=
         match l, l' with
         | [], [] => true
         | x :: l, y :: l' => value_eqb x y && items_eqb l l'
         | _, _ => false
         end) l l'
  | VDict d, VDict d' =>
      Nat.eqb (List.length d) (List.length d')
      && (fix entries_eqb (d : list (string * value)) {struct d} : bool :=
            match d with
            | [] => true
            | (k, v) :: d =>
                match dict_get k d' with
                | Some v' => value_eqb v v'
                | None => false
                end && entries_eqb d
            end) d
  | _, _ => false
  end.

(** Do the two (long representation) of formats target the same file? *)
Definition identical_format_path (fmt1 fmt2 : value) : result bool :=
  fold_left
    (fun (same : result bool) (key : string) =>
       same <- same ;;
       if same then
         v1 <- value_get fmt1 key VNone ;;
         v2 <- value_get fmt2 key VNone ;;
         Ok (value_eqb v1 v2)
       else Ok false)
    ["extension"; "prefix"; "suffix"] (Ok true).

(** [_fmt_from_ext_and_format_name]: the format of an extension, a format
    name and format options.  [copy] of the options is the options, values
    being immutable here. *)
Definition _fmt_from_ext_and_format_name (ext : string) (name format_options : value)
    : result value :=
  let fmt := if truthy format_options then format_options else VDict [] in
  fmt <- (if truthy name then value_setitem fmt "format_name" name else Ok fmt) ;;
  st <- (if negb (Z.eqb (rfind "." ext) 0) then
           fmt <- value_setitem fmt "suffix" (VStr (fst (splitext ext))) ;;
           Ok (fmt, snd (splitext ext))
         else Ok (fmt, ext)) ;;
  let '(fmt, ext) := st in
  value_setitem fmt "extension" (VStr ext).

(** ** Predicates and functions of the statements *)

(** The descriptions registered for an extension, in the order of the
    registry. *)
Definition formats_of_extension (ext : string) : list NotebookFormatDescription :=
  filter (fun fmt => String.eqb (extension fmt) ext) JUPYTEXT_FORMATS.

(** The character occurs in the string. *)
Fixpoint has_char (c : ascii) (s : string) : bool :=
  match s with
  | EmptyString => false
  | String a s' => Ascii.eqb a c || has_char c s'
  end.

(** An extension with a dot in front of a name that does not start with a
    dot and has neither comma nor colon: what the registry is made of. *)
Definition plain_extension (ext : string) : bool :=
  match ext with
  | String "." (String c rest) =>
      negb (Ascii.eqb c ".")
      && negb (has_char "," (String c rest))
      && negb (has_char ":" (String c rest))
  | _ => false
  end.

(** No format name, or one that the compact form shows: not empty, not the
    name of a markup format, without a comma. *)
Definition plain_format_name (name : option string) : bool :=
  match name with
  | Some n =>
      negb (String.eqb n "")
      && negb (str_in n ["markdown"; "rmarkdown"])
      && negb (has_char "," n)
  | None => true
  end.

(** What [one_format_as_string] adds to the extension. *)
Definition format_name_suffix (name : option string) : string :=
  match name with
  | Some n => ":" ++ n
  | None => EmptyString
  end.

(** An entry of a formats list that the compact form can hold: a registered
    extension or '.auto', in its plain shape, and a plain format name. *)
Definition plain_format (f : string * option string) : bool :=
  str_in (fst f) (NOTEBOOK_EXTENSIONS ++ [".auto"])
  && plain_extension (fst f)
  && plain_format_name (snd f).

(** An option of a record that the validation refuses: a key that is not a
    format option, a binary option that is not a bool, another option that is
    not a string. *)
Definition invalid_option (record : dict) (key : string) : bool :=
  negb (str_in key _VALID_FORMAT_OPTIONS)
  || match dict_get key record with
     | Some (VBool _) => negb (str_in key _BINARY_FORMAT_OPTIONS)
     | Some (VStr _) => str_in key _BINARY_FORMAT_OPTIONS
     | Some _ => true
     | None => false
     end.

(** A call that returns, or raises a [JupytextFormatError]. *)
Definition format_error_only {A : Type} (r : result A) : Prop :=
  (exists a, r = Ok a) \/ (exists why, r = Raise (JupytextFormatError why)).

Definition format_error_raised {A : Type} (r : result A) : Prop :=
  exists why, r = Raise (JupytextFormatError why).

(** The dict has no entry for the key. *)
Definition lacks (k : string) (d : dict) : Prop := dict_get k d = None.

(** The keys of the old layouts, which the rearrangement takes away from the
    top level of the metadata. *)
Definition legacy_keys : list string :=
  ["nbrmd_formats"; "nbrmd_format_version"; "jupytext_formats";
   "jupytext_format_version"; "main_language"; "encoding"; "executable"].

Definition not_a_dict (v : value) : Prop :=
  match v with
  | VDict _ => False
  | _ => True
  end.

(** The jupytext metadata that the rearrangement leaves: not empty, without
    the old 'metadata_filter', the two filters in their compact form. *)
Record rearranged_jupytext (j : dict) : Prop := {
  rearranged_not_empty : j <> [];
  rearranged_no_filters : lacks "metadata_filter" j;
  rearranged_notebook_filter :
    not_a_dict (get_default "notebook_metadata_filter" VNone j);
  rearranged_cell_filter :
    not_a_dict (get_default "cell_metadata_filter" VNone j)
}.

(** The metadata that the rearrangement leaves: no key of the old layouts,
    and the jupytext metadata, when there are some, as the last entry. *)
Inductive rearranged : dict -> Prop :=
| rearranged_plain (rest : dict) :
    Forall (fun k => lacks k rest) legacy_keys ->
    lacks "jupytext" rest ->
    rearranged rest
| rearranged_with_jupytext (rest j : dict) :
    Forall (fun k => lacks k rest) legacy_keys ->
    lacks "jupytext" rest ->
    rearranged_jupytext j ->
    rearranged (rest ++ [("jupytext", VDict j)])%list.

(** [fmt.min_readable_version_number or current]. *)
Definition min_readable_or_current (fmt : NotebookFormatDescription) : string :=
  match min_readable_version_number fmt with
  | Some m => if String.eqb m "" then current_version_number fmt else m
  | None => current_version_number fmt
  end.

(** The versions that the check lets through, as the code compares them: as
    strings, character by character. *)
Definition version_accepted (fmt : NotebookFormatDescription) (v : string) : bool :=
  String.eqb (current_version_number fmt) v
  || (String.leb (min_readable_or_current fmt) v
      && String.leb v (current_version_number fmt)).

(** The specification reads a version as "major.minor" and compares versions
    numerically, component by component.  [parse_version] and
    [numerically_accepted] follow its words. *)
Definition digits : list ascii :=
  ["0"; "1"; "2"; "3"; "4"; "5"; "6"; "7"; "8"; "9"]%char.

Definition is_digit (c : ascii) : bool := existsb (Ascii.eqb c) digits.

Fixpoint decimal_from (acc : nat) (s : string) : option nat :=
  match s with
  | EmptyString => Some acc
  | String c s' =>
      if is_digit c then decimal_from (10 * acc + (nat_of_ascii c - 48)) s'
      else None
  end.

Definition decimal (s : string) : option nat :=
  match s with
  | EmptyString => None
  | _ => decimal_from 0 s
  end.

Definition parse_version (v : string) : option (nat * nat) :=
  match split "." v with
  | [major; minor] =>
      match decimal major, decimal minor with
      | Some a, Some b => Some (a, b)
      | _, _ => None
      end
  | _ => None
  end.

Definition version_le (a b : nat * nat) : bool :=
  (fst a <? fst b)%nat || ((fst a =? fst b)%nat && (snd a <=? snd b)%nat).

Definition version_eq (a b : nat * nat) : bool :=
  (fst a =? fst b)%nat && (snd a =? snd b)%nat.

Definition numerically_accepted (fmt : NotebookFormatDescription) (v : string) : bool :=
  match parse_version (min_readable_or_current fmt), parse_version v,
        parse_version (current_version_number fmt) with
  | Some lo, Some x, Some current =>
      version_eq x current || (version_le lo x && version_le x current)
  | _, _, _ => false
  end.

(** A version of two one-digit numbers. *)
Definition single_digit_version (v : string) : bool :=
  match v with
  | String a (String "." (String b EmptyString)) => is_digit a && is_digit b
  | _ => false
  end.

Definition version_of_digits (a b : ascii) : string :=
  String a (String "." (String b EmptyString)).

(** The lines of a text that are outside of the quoted strings, as the
    parser sees them: it reads every line, and a line counts when the parser
    is not in a quote after it. *)
Fixpoint unquoted_lines (parser : StringParser) (lines : list string) : list string :=
  match lines with
  | [] => []
  | line :: lines' =>
      let parser := read_line parser line in
      if is_quoted parser then unquoted_lines parser lines'
      else line :: unquoted_lines parser lines'
  end.

(** The number of the lines that are markers of one kind. *)
Definition count_lines (marker : string -> bool) (lines : list string) : nat :=
  List.length (filter marker lines).

(** ** Data of the examples *)

(** Modelled from the spec: the table [_SCRIPT_EXTENSIONS] of languages.py is
    not among the sources.  The specification names '.py' as the script
    extension that has the four formats light, percent, hydrogen and sphinx,
    and formats.py itself gives '#' as the header prefix of the sphinx format
    of '.py'.  The examples are stated on the table with this one entry; the
    theorems above hold for every table. *)
Definition script_extensions_py : list (string * script_language) :=
  [(".py", {| language := "python"; comment := "#" |})].

(** The formats of '.py' in the registry of that table. *)
Definition light_py : NotebookFormatDescription :=
  {| format_name := "light"; extension := ".py"; header_prefix := "#";
     cell_reader_class := LightScriptCellReader;
     cell_exporter_class := LightScriptCellExporter;
     current_version_number := "1.3";
     min_readable_version_number := Some "1.1" |}.

Definition percent_py : NotebookFormatDescription :=
  {| format_name := "percent"; extension := ".py"; header_prefix := "#";
     cell_reader_class := DoublePercentScriptCellReader;
     cell_exporter_class := DoublePercentCellExporter;
     current_version_number := "1.2";
     min_readable_version_number := Some "1.1" |}.

Definition hydrogen_py : NotebookFormatDescription :=
  {| format_name := "hydrogen"; extension := ".py"; header_prefix := "#";
     cell_reader_class := HydrogenCellReader;
     cell_exporter_class := HydrogenCellExporter;
     current_version_number := "1.2";
     min_readable_version_number := Some "1.1" |}.

Definition sphinx_py : NotebookFormatDescription :=
  {| format_name := "sphinx"; extension := ".py"; header_prefix := "#";
     cell_reader_class := SphinxGalleryScriptCellReader;
     cell_exporter_class := SphinxGalleryCellExporter;
     current_version_number := "1.1";
     min_readable_version_number := None |}.

Definition markdown_md : NotebookFormatDescription :=
  {| format_name := "markdown"; extension := ".md"; header_prefix := "";
     cell_reader_class := MarkdownCellReader;
     cell_exporter_class := MarkdownCellExporter;
     current_version_number := "1.0";
     min_readable_version_number := None |}.

(** The metadata of a '.py' script in the light format, of a given version. *)
Definition light_script_metadata (version : string) : dict :=
  [("jupytext",
    VDict [("text_representation",
            VDict [("extension", VStr ".py"); ("format_name", VStr "light");
                   ("format_version", VStr version)])])].

(** Stand-ins for the collaborators of [guess_format], enough for a script
    that has no header and no quoted string: the lines are cut at the line
    feeds, no metadata are found, no line is quoted, and a pattern is kept as
    its text, of which [pattern_match] knows the magic commands and the
    double-percent markers after '#'. *)
Definition lines_at_line_feeds (text : string) : list string := split "010" text.

Definition no_header (lines : list string) (comment : string) : result dict := Ok [].

Definition is_letter (c : ascii) : bool :=
  let n := nat_of_ascii c in
  ((65 <=? n)%nat && (n <=? 90)%nat) || ((97 <=? n)%nat && (n <=? 122)%nat).

Definition pattern_match (pattern line : string) : bool :=
  if String.eqb pattern "^(%|%%|%%%)[a-zA-Z]" then
    match line with
    | String "%" (String a rest) =>
        is_letter a
        || (Ascii.eqb a "%"
            && match rest with
               | String b rest' =>
                   is_letter b
                   || (Ascii.eqb b "%"
                       && match rest' with
                          | String c _ => is_letter c
                          | EmptyString => false
                          end)
               | EmptyString => false
               end)
    | _ => false
    end
  else if String.eqb pattern "^#( %%|%%)$" then
    String.eqb line "# %%" || String.eqb line "#%%"
  else false.

(** A cell marker and a magic command, on two lines. *)
Definition hydrogen_script : string :=
  "# %%" ++ String "010" "%matplotlib inline".

(** A cell marker and no magic command. *)
Definition percent_script : string :=
  "# %%" ++ String "010" "x = 1".

(** Two lines of hashes, the section breaks of a Sphinx-gallery script, and
    no cell marker. *)
Definition sphinx_script : string :=
  "########################" ++ String "010"
    ("# A title" ++ String "010"
       ("########################" ++ String "010" "x = 1")).

(** No marker at all. *)
Definition plain_script : string :=
  "x = 1" ++ String "010" "y = 2".

(** ** Predicates and functions of the further statements *)

(** The extension that the registry is looked up with: a dot and the last
    dotted part of the argument. *)
Definition short_extension (ext : string) : string :=
  "." ++ last (split "." ext) EmptyString.

(** The formats of the registry: the two markup formats, the spin format of
    an R extension, the three formats of a script extension, and sphinx. *)
Definition rmarkdown_Rmd : NotebookFormatDescription :=
  {| format_name := "rmarkdown"; extension := ".Rmd"; header_prefix := "";
     cell_reader_class := RMarkdownCellReader;
     cell_exporter_class := RMarkdownCellExporter;
     current_version_number := "1.0";
     min_readable_version_number := None |}.

Definition spin_format (ext : string) : NotebookFormatDescription :=
  {| format_name := "spin"; extension := ext; header_prefix := "#'";
     cell_reader_class := RScriptCellReader;
     cell_exporter_class := RScriptCellExporter;
     current_version_number := "1.0";
     min_readable_version_number := None |}.

Definition light_format (ext : string) : NotebookFormatDescription :=
  {| format_name := "light"; extension := ext;
     header_prefix := script_comment ext;
     cell_reader_class := LightScriptCellReader;
     cell_exporter_class := LightScriptCellExporter;
     current_version_number := "1.3";
     min_readable_version_number := Some "1.1" |}.

Definition percent_format (ext : string) : NotebookFormatDescription :=
  {| format_name := "percent"; extension := ext;
     header_prefix := script_comment ext;
     cell_reader_class := DoublePercentScriptCellReader;
     cell_exporter_class := DoublePercentCellExporter;
     current_version_number := "1.2";
     min_readable_version_number := Some "1.1" |}.

Definition hydrogen_format (ext : string) : NotebookFormatDescription :=
  {| format_name := "hydrogen"; extension := ext;
     header_prefix := script_comment ext;
     cell_reader_class := HydrogenCellReader;
     cell_exporter_class := HydrogenCellExporter;
     current_version_number := "1.2";
     min_readable_version_number := Some "1.1" |}.


(** A format in its long form that the validation accepts: a dict whose
    options are all valid, with a notebook extension or '.auto'. *)
Definition valid_format (fmt : value) : bool :=
  match fmt with
  | VDict d =>
      forallb (fun key => negb (invalid_option d key)) (map fst d)
      && match dict_get "extension" d with
         | Some (VStr ext) => str_in ext (NOTEBOOK_EXTENSIONS ++ [".auto"])
         | _ => false
         end
  | _ => false
  end.

(** The long form of an extension and a format name, without prefix nor
    suffix. *)
Definition plain_long_form (ext : string) (name : option string) : value :=
  VDict (match name with
         | Some n => [("format_name", VStr n)]
         | None => []
         end ++ [("extension", VStr ext)])%list.

(** A format whose extension is '.auto', and the format with the extension
    of the kernel in its place. *)
Definition is_auto (fmt : value) : bool :=
  match fmt with
  | VDict d =>
      match dict_get "extension" d with
      | Some ext => str_eq ".auto" ext
      | None => false
      end
  | _ => false
  end.

Definition with_auto_ext (ext fmt : value) : value :=
  match fmt with
  | VDict d => if is_auto fmt then VDict (dict_set "extension" ext d) else fmt
  | _ => fmt
  end.

(** The three entries of a format that say which file it goes to. *)
Definition format_path (fmt : dict) : list (option value) :=
  map (fun key => dict_get key fmt) ["extension"; "prefix"; "suffix"].

(** An entry that is missing or a string, as in a valid format. *)
Definition text_entry (entry : option value) : bool :=
  match entry with
  | None | Some (VStr _) => true
  | Some _ => false
  end.

(** The options with the format name, when there is one. *)
Definition with_format_name (name : value) (options : dict) : dict :=
  if truthy name then dict_set "format_name" name options else options.

(** An exception other than the refusal of the version check. *)
Definition not_a_refusal (e : exn) : Prop :=
  match e with
  | UnsafeVersion _ _ => False
  | _ => True
  end.

(** A format name that the compact form shows, or none. *)
Definition shown_format_name (name : option string) : bool :=
  match name with
  | Some n => negb (String.eqb n "") && negb (str_in n ["markdown"; "rmarkdown"])
  | None => true
  end.

(** The metadata are in the current layout, whatever the order of their
    entries: no key of the old layouts at the top level, and jupytext
    metadata, when there are some, that are a dict without the old
    'metadata_filter' and with no filter left as a dict. *)
Definition is_dict (v : value) : bool :=
  match v with
  | VDict _ => true
  | _ => false
  end.

Definition current_layout (metadata : dict) : bool :=
  forallb (fun key => negb (dict_mem key metadata)) legacy_keys
  && match dict_get "jupytext" metadata with
     | Some (VDict j) =>
         negb (dict_mem "metadata_filter" j)
         && negb (is_dict (get_default "notebook_metadata_filter" VNone j))
         && negb (is_dict (get_default "cell_metadata_filter" VNone j))
     | Some _ => false
     | None => true
     end.

(** A stand-in for the header parser, for a script whose header names its
    formats, and then the kernel. *)
Definition header_with_formats (lines : list string) (comment : string) : result dict :=
  Ok [("jupytext", VDict [("formats", VStr "ipynb,py:percent")]);
      ("kernelspec",
       VDict [("display_name", VStr "Python 3"); ("language", VStr "python");
              ("name", VStr "python3")])].

(** ** Properties of the registry lookup *)

Lemma split_not_nil (sep : ascii) (s : string) : split sep s <> [].
Proof.
  destruct s as [|c s]; simpl; [discriminate|].
  destruct (Ascii.eqb c sep); [discriminate|].
  destruct (split sep s); discriminate.
Qed.

Lemma split_app_sep (sep : ascii) (p q : string) :
  split sep (p ++ String sep q) = (split sep p ++ split sep q)%list.
Proof.
  induction p as [|c p IH]; simpl.
  - rewrite Ascii.eqb_refl. reflexivity.
  - destruct (Ascii.eqb c sep).
    + rewrite IH. reflexivity.
    + rewrite IH. destruct (split sep p) eqn:E.
      * exfalso. exact (split_not_nil _ _ E).
      * reflexivity.
Qed.

Lemma last_app_not_nil {A : Type} (l1 l2 : list A) (d : A) :
  l2 <> [] -> last (l1 ++ l2) d = last l2 d.
Proof.
  intros H. induction l1 as [|a l1 IH]; simpl; [reflexivity|].
  destruct (l1 ++ l2)%list eqn:E.
  - apply app_eq_nil in E. destruct E as [_ E]. contradiction.
  - exact IH.
Qed.

Lemma last_split_app_sep (sep : ascii) (p q d : string) :
  last (split sep (p ++ String sep q)) d = last (split sep q) d.
Proof.
  rewrite split_app_sep. apply last_app_not_nil. apply split_not_nil.
Qed.

(** The loop of the lookup, when no format name is given: the first
    description of the extension is returned, whatever was collected. *)
Lemma find_format_no_name (fmts : list NotebookFormatDescription) (ext : string)
    (name : value) (acc : list string) :
  truthy name = false ->
  find_format fmts ext name acc =
    match filter (fun fmt => String.eqb (extension fmt) ext) fmts with
    | fmt :: _ => Ok (Some fmt)
    | [] =>
        match acc with
        | _ :: _ => Raise (FormatNotAssociated name ext acc)
        | [] => Raise (NoFormatForExtension ext)
        end
    end.
Proof.
  intros Hname. revert acc. induction fmts as [|fmt fmts IH]; intros acc; simpl.
  - reflexivity.
  - destruct (String.eqb (extension fmt) ext).
    + rewrite Hname. rewrite orb_true_r. reflexivity.
    + apply IH.
Qed.

(** The loop of the lookup, when the name is one that no description of the
    extension has: the names of all of them are collected. *)
Lemma find_format_other_name (fmts : list NotebookFormatDescription) (ext : string)
    (name : value) (acc : list string) :
  truthy name = true ->
  (forall fmt, In fmt fmts -> extension fmt = ext -> str_eq (format_name fmt) name = false) ->
  find_format fmts ext name acc =
    match (acc ++ map format_name
                    (filter (fun fmt => String.eqb (extension fmt) ext) fmts))%list with
    | (_ :: _) as names => Raise (FormatNotAssociated name ext names)
    | [] => Raise (NoFormatForExtension ext)
    end.
Proof.
  intros Hname. revert acc. induction fmts as [|fmt fmts IH]; intros acc Hother; simpl.
  - rewrite app_nil_r. destruct acc; reflexivity.
  - destruct (String.eqb (extension fmt) ext) eqn:E.
    + apply String.eqb_eq in E.
      rewrite (Hother fmt (or_introl eq_refl) E), Hname. simpl.
      rewrite IH.
      * rewrite <- app_assoc. reflexivity.
      * intros f Hf. apply Hother. right. exact Hf.
    + apply IH. intros f Hf. apply Hother. right. exact Hf.
Qed.

(** C10.  '.ipynb' is one of the notebook extensions, and yet for a path that
    ends in '.ipynb' the lookup returns None, whatever the format name: no
    description and no error. *)
Theorem get_format_implementation_ipynb :
  In ".ipynb" NOTEBOOK_EXTENSIONS
  /\ forall (path : string) (name : value),
       get_format_implementation (path ++ ".ipynb") name = Ok None.
Proof.
  split.
  - unfold NOTEBOOK_EXTENSIONS, fromkeys. simpl. left. reflexivity.
  - intros path name. unfold get_format_implementation.
    change (path ++ ".ipynb") with (path ++ String "." "ipynb").
    rewrite last_split_app_sep. reflexivity.
Qed.

(** C1, as the code has it.  For an extension that has descriptions in the
    registry, the lookup without a format name returns the first of them and
    raises nothing; the error that lists the format names of the extension is
    raised when a format name is given that none of them has, and it lists
    them all. *)
Theorem get_format_implementation_first_format
    (ext : string) (fmt : NotebookFormatDescription)
    (others : list NotebookFormatDescription) :
  let short_ext := "." ++ last (split "." ext) EmptyString in
  endswith ".ipynb" short_ext = false ->
  formats_of_extension short_ext = fmt :: others ->
  get_format_implementation ext VNone = Ok (Some fmt)
  /\ forall name : value,
       truthy name = true ->
       (forall f, In f (fmt :: others) -> str_eq (format_name f) name = false) ->
       get_format_implementation ext name =
         Raise (FormatNotAssociated name short_ext (map format_name (fmt :: others))).
Proof.
  intros short_ext Hipynb Hfmts. unfold get_format_implementation.
  fold short_ext. rewrite Hipynb. split.
  - rewrite find_format_no_name by reflexivity.
    unfold formats_of_extension in Hfmts. rewrite Hfmts. reflexivity.
  - intros name Hname Hother. rewrite find_format_other_name.
    + unfold formats_of_extension in Hfmts. rewrite Hfmts. reflexivity.
    + exact Hname.
    + intros f Hf Hext. apply Hother. rewrite <- Hfmts.
      unfold formats_of_extension. apply filter_In. split; [exact Hf|].
      apply String.eqb_eq. exact Hext.
Qed.

(** ** Properties of the formats-list updater *)

Lemma update_formats_from_found (formats : list (string * option string))
    (ext : string) (name : option string) :
  update_formats_from true formats ext name =
    filter (fun f => negb (String.eqb (fst f) ext)) formats.
Proof.
  induction formats as [|[e n] formats IH]; simpl; [reflexivity|].
  destruct (String.eqb e ext); simpl; rewrite IH; reflexivity.
Qed.

Lemma update_formats_from_absent (found : bool) (formats : list (string * option string))
    (ext : string) (name : option string) :
  ~ In ext (map fst formats) ->
  update_formats_from found formats ext name = formats.
Proof.
  induction formats as [|[e n] formats IH]; simpl; intros Habs; [reflexivity|].
  destruct (String.eqb_spec e ext) as [E|E].
  - exfalso. apply Habs. left. exact E.
  - simpl. rewrite IH; [reflexivity|]. intros H. apply Habs. right. exact H.
Qed.

(** C5, as the code has it.  The updater returns the list unchanged when no
    entry has the extension (nothing is appended); otherwise it puts the new
    pair in the place of the first entry of the extension, keeps the entries
    of the other extensions in their order, and drops the later entries of
    the extension. *)
Theorem update_formats_replaces_first (formats : list (string * option string))
    (ext : string) (name : option string) :
  (~ In ext (map fst formats) -> update_formats formats ext name = formats)
  /\ (forall before old after,
        formats = (before ++ (ext, old) :: after)%list ->
        ~ In ext (map fst before) ->
        update_formats formats ext name =
          (before ++ (ext, name)
             :: filter (fun f => negb (String.eqb (fst f) ext)) after)%list).
Proof.
  split.
  - apply update_formats_from_absent.
  - intros before old after -> Habs. unfold update_formats.
    induction before as [|[e n] before IH]; simpl.
    + rewrite String.eqb_refl. simpl. rewrite update_formats_from_found. reflexivity.
    + destruct (String.eqb_spec e ext) as [E|E].
      * exfalso. apply Habs. left. exact E.
      * simpl. rewrite IH; [reflexivity|]. intros H. apply Habs. right. exact H.
Qed.

(** ** Properties of the format resolver *)

Lemma dict_get_some_truthy (k : string) (d : dict) (v : value) :
  dict_get k d = Some v -> truthy (VDict d) = true.
Proof. destruct d; simpl; [discriminate|reflexivity]. Qed.

(** C7.  When the text representation of the metadata names the extension
    that is asked for and a format name, that name is returned, whatever the
    formats of the metadata, the default formats and [explicit_default]
    are. *)
Theorem format_name_for_ext_text_representation
    (metadata jupytext text_repr : dict) (ext name : string)
    (cm_default_formats : value) (explicit_default : bool) :
  dict_get "jupytext" metadata = Some (VDict jupytext) ->
  dict_get "text_representation" jupytext = Some (VDict text_repr) ->
  dict_get "extension" text_repr = Some (VStr ext) ->
  dict_get "format_name" text_repr = Some (VStr name) ->
  name <> EmptyString ->
  format_name_for_ext metadata ext cm_default_formats explicit_default
    = Ok (VStr name).
Proof.
  intros Hj Ht He Hn Hname. unfold format_name_for_ext, get_default.
  rewrite Hj. cbn [value_get bind]. unfold get_default. rewrite Ht.
  rewrite (dict_get_some_truthy _ _ _ He).
  cbn [value_get bind]. unfold get_default. rewrite He.
  cbn [str_eq]. rewrite String.eqb_refl, Hn. cbn [bind truthy].
  destruct (String.eqb_spec name ""); [contradiction|]. reflexivity.
Qed.

(** ** The compact form of the formats, and back *)

Lemma has_char_app (c : ascii) (s t : string) :
  has_char c (s ++ t) = has_char c s || has_char c t.
Proof.
  induction s as [|a s IH]; simpl; [reflexivity|].
  rewrite IH. apply orb_assoc.
Qed.

Lemma split_without_sep (sep : ascii) (s : string) :
  has_char sep s = false -> split sep s = [s].
Proof.
  induction s as [|a s IH]; simpl; [reflexivity|].
  intros H. apply orb_false_elim in H. destruct H as [Ha Hs].
  rewrite Ha, (IH Hs). reflexivity.
Qed.

(** Splitting what was joined gives the parts back. *)
Lemma split_join (sep : ascii) (parts : list string) :
  parts <> [] ->
  Forall (fun p => has_char sep p = false) parts ->
  split sep (join (String sep EmptyString) parts) = parts.
Proof.
  intros Hne Hall. unfold join.
  induction Hall as [|p parts Hp Hall IH]; [contradiction|].
  destruct parts as [|q parts].
  - simpl. apply split_without_sep. exact Hp.
  - change (String.concat (String sep "") (p :: q :: parts))
      with (p ++ String sep (String.concat (String sep "") (q :: parts))).
    rewrite split_app_sep, (split_without_sep _ _ Hp), IH by discriminate.
    reflexivity.
Qed.

Lemma find_from_without (c : ascii) (s : string) (i : Z) :
  has_char c s = false -> find_from c s i = (-1)%Z.
Proof.
  revert i. induction s as [|a s IH]; simpl; intros i H; [reflexivity|].
  apply orb_false_elim in H. destruct H as [Ha Hs]. rewrite Ha. apply IH. exact Hs.
Qed.

Lemma find_from_with (c : ascii) (s t : string) (i : Z) :
  (0 <= i)%Z -> (0 <= find_from c (s ++ String c t) i)%Z.
Proof.
  revert i. induction s as [|a s IH]; simpl; intros i Hi.
  - rewrite Ascii.eqb_refl. exact Hi.
  - destruct (Ascii.eqb a c); [exact Hi|]. apply IH. lia.
Qed.

Lemma split_once_first (c : ascii) (s t : string) :
  has_char c s = false -> split_once c (s ++ String c t) = Some (s, t).
Proof.
  induction s as [|a s IH]; simpl; intros H.
  - rewrite Ascii.eqb_refl. reflexivity.
  - apply orb_false_elim in H. destruct H as [Ha Hs]. rewrite Ha, (IH Hs).
    reflexivity.
Qed.

Lemma substring_all (s : string) : String.substring 0 (String.length s) s = s.
Proof. induction s as [|a s IH]; simpl; [reflexivity|]. rewrite IH. reflexivity. Qed.

Lemma slice_from_1 (c : ascii) (s : string) : slice_from 1 (String c s) = s.
Proof.
  unfold slice_from. simpl. rewrite Nat.sub_0_r. apply substring_all.
Qed.

Lemma one_format_as_string_plain (c : ascii) (rest : string) (name : option string) :
  plain_format_name name = true ->
  one_format_as_string (String "." (String c rest)) name
  = String c rest ++ format_name_suffix name.
Proof.
  intros Hname. unfold one_format_as_string.
  change (startswith "." (String "." (String c rest))) with true.
  cbn iota. rewrite slice_from_1.
  destruct name as [n|]; simpl.
  - simpl in Hname. apply andb_prop in Hname. destruct Hname as [Hname _].
    cbn [str_in existsb] in Hname. rewrite Hname. reflexivity.
  - clear. induction rest as [|a rest IH]; simpl; [reflexivity|].
    injection IH as IH. rewrite <- IH at 1. reflexivity.
Qed.

Lemma split_format_name_plain (body : string) (name : option string) :
  has_char ":" body = false ->
  split_format_name (body ++ format_name_suffix name) = (body, name).
Proof.
  intros Hbody. unfold split_format_name, find. destruct name as [n|]; simpl.
  - pose proof (find_from_with ":" body n 0 (Z.le_refl 0)) as Hfind.
    apply Z.leb_le in Hfind. rewrite Hfind.
    rewrite split_once_first by exact Hbody. reflexivity.
  - assert (E : body ++ "" = body).
    { clear. induction body as [|a body IH]; simpl; [reflexivity|].
      rewrite IH. reflexivity. }
    rewrite E, find_from_without by exact Hbody. reflexivity.
Qed.

(** One format, rendered and parsed. *)
Lemma parse_one_format_as_string (ext : string) (name : option string) :
  str_in ext (NOTEBOOK_EXTENSIONS ++ [".auto"]) = true ->
  plain_extension ext = true ->
  plain_format_name name = true ->
  parse_one_format (one_format_as_string ext name) = Ok (ext, name)
  /\ has_char "," (one_format_as_string ext name) = false
  /\ one_format_as_string ext name <> EmptyString.
Proof.
  intros Hreg Hext Hname.
  destruct ext as [|dot ext]; [discriminate Hext|].
  destruct (Ascii.eqb_spec dot "."%char) as [->|Hdot].
  2:{ exfalso. destruct dot as [[] [] [] [] [] [] [] []];
        first [discriminate Hext | apply Hdot; reflexivity]. }
  destruct ext as [|c rest]; [discriminate Hext|].
  cbn [plain_extension] in Hext.
  apply andb_prop in Hext. destruct Hext as [Hext Hcolon].
  apply andb_prop in Hext. destruct Hext as [Hc Hcomma].
  apply negb_true_iff in Hc, Hcomma, Hcolon.
  rewrite one_format_as_string_plain by exact Hname.
  split; [|split].
  - unfold parse_one_format. rewrite split_format_name_plain by exact Hcolon.
    assert (Hstart : startswith "." (String c rest) = false).
    { cbn [startswith]. rewrite Ascii.eqb_sym, Hc. reflexivity. }
    rewrite Hstart.
    change ("." ++ String c rest) with (String "." (String c rest)).
    rewrite Hreg. reflexivity.
  - rewrite has_char_app, Hcomma. destruct name as [n|]; [|reflexivity].
    simpl in Hname |- *. apply andb_prop in Hname. destruct Hname as [_ Hn].
    apply negb_true_iff in Hn. exact Hn.
  - discriminate.
Qed.

Lemma mapM_parse_one_format (formats : list (string * option string)) :
  Forall (fun f => plain_format f = true) formats ->
  mapM parse_one_format
    (map (fun f => one_format_as_string (fst f) (snd f)) formats) = Ok formats.
Proof.
  induction 1 as [|[ext name] formats Hf _ IH]; simpl; [reflexivity|].
  unfold plain_format in Hf. simpl in Hf.
  apply andb_prop in Hf. destruct Hf as [Hf Hname].
  apply andb_prop in Hf. destruct Hf as [Hreg Hext].
  destruct (parse_one_format_as_string ext name Hreg Hext Hname) as [-> _].
  simpl. rewrite IH. reflexivity.
Qed.

(** C4, as the code has it.  A formats list whose extensions are registered
    (or '.auto') and whose format names, where there is one, are neither
    empty nor 'markdown' nor 'rmarkdown', is parsed back from its compact
    form. *)
Theorem parse_formats_of_formats_as_string (formats : list (string * option string)) :
  Forall (fun f => plain_format f = true) formats ->
  parse_formats (VStr (formats_as_string formats)) = Ok formats.
Proof.
  intros Hall. destruct formats as [|f formats]; [reflexivity|].
  assert (Hparts :
    Forall (fun p => has_char "," p = false /\ p <> EmptyString)
      (map (fun f => one_format_as_string (fst f) (snd f)) (f :: formats))).
  { apply Forall_map. apply Forall_impl with (2 := Hall).
    intros [ext name] Hf. unfold plain_format in Hf. simpl in Hf.
    apply andb_prop in Hf. destruct Hf as [Hf Hname].
    apply andb_prop in Hf. destruct Hf as [Hreg Hext].
    destruct (parse_one_format_as_string ext name Hreg Hext Hname) as [_ [H1 H2]].
    simpl. auto. }
  unfold parse_formats, formats_as_string.
  assert (Htruthy :
    truthy (VStr (join "," (map (fun f => one_format_as_string (fst f) (snd f))
                              (f :: formats)))) = true).
  { cbn [truthy map]. inversion Hparts as [|p ps [_ Hp] _]; subst.
    unfold join. destruct (one_format_as_string (fst f) (snd f)) as [|a s];
      [contradiction|].
    destruct (map _ formats); reflexivity. }
  rewrite Htruthy. cbn [negb].
  rewrite split_join.
  - apply mapM_parse_one_format. exact Hall.
  - discriminate.
  - apply Forall_impl with (2 := Hparts). intros p [Hp _]. exact Hp.
Qed.

(** ** Properties of the validation of formats *)

Lemma dict_get_in (key : string) (d : dict) :
  In key (map fst d) -> exists v, dict_get key d = Some v.
Proof.
  induction d as [|[k v] d IH]; simpl; [contradiction|].
  intros [E|H].
  - subst k. rewrite String.eqb_refl. eauto.
  - destruct (String.eqb k key); eauto.
Qed.

Lemma mapM_format_error_only {A B : Type} (f : A -> result B) (l : list A) :
  (forall x, In x l -> format_error_only (f x)) ->
  format_error_only (mapM f l).
Proof.
  induction l as [|a l IH]; simpl; intros H.
  - left. eauto.
  - destruct (H a (or_introl eq_refl)) as [[b ->]|[why ->]]; simpl.
    + destruct IH as [[bs ->]|[why ->]]; simpl.
      * intros x Hx. apply H. right. exact Hx.
      * left. eauto.
      * right. eauto.
    + right. eauto.
Qed.

Lemma mapM_format_error_raised {A B : Type} (f : A -> result B) (l : list A) (x : A) :
  (forall y, In y l -> format_error_only (f y)) ->
  In x l -> format_error_raised (f x) ->
  format_error_raised (mapM f l).
Proof.
  induction l as [|a l IH]; simpl; intros Hall Hin Hx; [contradiction|].
  destruct (Hall a (or_introl eq_refl)) as [[b Hb]|[why Hw]].
  - rewrite Hb. simpl. destruct Hin as [->|Hin].
    + destruct Hx as [why Hw]. congruence.
    + destruct IH as [why ->]; auto. simpl. exists why. reflexivity.
  - rewrite Hw. simpl. exists why. reflexivity.
Qed.

Lemma validate_option_format_error_only (d : dict) (key : string) :
  In key (map fst d) -> format_error_only (validate_option d key).
Proof.
  intros Hin. unfold validate_option, value_getitem.
  destruct (dict_get_in _ _ Hin) as [v ->].
  destruct (str_in key _VALID_FORMAT_OPTIONS),
    (str_in key _BINARY_FORMAT_OPTIONS), v; cbn [negb bind];
    first [left; eexists; reflexivity | right; eexists; reflexivity].
Qed.

Lemma validate_option_invalid (d : dict) (key : string) :
  In key (map fst d) -> invalid_option d key = true ->
  format_error_raised (validate_option d key).
Proof.
  intros Hin. unfold invalid_option, validate_option, value_getitem.
  destruct (dict_get_in _ _ Hin) as [v ->].
  destruct (str_in key _VALID_FORMAT_OPTIONS),
    (str_in key _BINARY_FORMAT_OPTIONS), v; cbn [negb bind orb];
    intros H; try discriminate H; eexists; reflexivity.
Qed.

Lemma validate_one_format_format_error_only (v : value) :
  format_error_only (validate_one_format v).
Proof.
  destruct v; try (right; eexists; reflexivity).
  unfold validate_one_format.
  destruct (mapM_format_error_only (validate_option d) (map fst d)
              (fun x Hx => validate_option_format_error_only d x Hx))
    as [[u ->]|[why ->]]; simpl; [|right; eauto].
  destruct (dict_get "extension" d); [|right; eauto].
  match goal with |- context [if ?b then _ else _] => destruct b end;
    [left|right]; eauto.
Qed.

Lemma validate_one_format_invalid (record : dict) (key : string) :
  In key (map fst record) -> invalid_option record key = true ->
  format_error_raised (validate_one_format (VDict record)).
Proof.
  intros Hin Hbad. unfold validate_one_format.
  destruct (mapM_format_error_raised (validate_option record) (map fst record) key)
    as [why ->].
  - intros y Hy. apply validate_option_format_error_only. exact Hy.
  - exact Hin.
  - apply validate_option_invalid; assumption.
  - simpl. exists why. reflexivity.
Qed.

(** C9.  When a list of formats holds a record with an option that the
    validation refuses, [long_form_multiple_formats] raises a
    [JupytextFormatError]: it returns no list, whatever the other formats of
    the list are. *)
Theorem long_form_multiple_formats_all_or_nothing
    (formats : list value) (record : dict) (key : string) :
  In (VDict record) formats ->
  In key (map fst record) ->
  invalid_option record key = true ->
  exists why,
    long_form_multiple_formats (VList formats) = Raise (JupytextFormatError why).
Proof.
  intros Hin Hkey Hbad. unfold long_form_multiple_formats.
  destruct formats as [|f formats]; [contradiction|].
  cbn [truthy negb iterate bind].
  destruct (mapM_format_error_raised validate_one_format
              (map long_form_one_format (f :: formats)) (VDict record))
    as [why Hw].
  - intros y _. apply validate_one_format_format_error_only.
  - change (VDict record) with (long_form_one_format (VDict record)).
    apply in_map. exact Hin.
  - apply validate_one_format_invalid with key; assumption.
  - rewrite Hw. exists why. reflexivity.
Qed.

(** ** Properties of the metadata rearrangement *)

Lemma dict_get_remove_same (k : string) (d : dict) : lacks k (dict_remove k d).
Proof.
  unfold lacks, dict_remove. induction d as [|[k' v] d IH]; simpl; [reflexivity|].
  destruct (String.eqb k' k) eqn:E; simpl; [exact IH|]. rewrite E. exact IH.
Qed.

Lemma dict_get_remove_other (k k' : string) (d : dict) :
  k <> k' -> dict_get k (dict_remove k' d) = dict_get k d.
Proof.
  intros Hk. unfold dict_remove. induction d as [|[k0 v] d IH]; simpl; [reflexivity|].
  destruct (String.eqb_spec k0 k') as [E|E]; simpl.
  - subst k0. destruct (String.eqb_spec k' k); [congruence|]. exact IH.
  - destruct (String.eqb k0 k); [reflexivity|exact IH].
Qed.

Lemma lacks_remove (k k' : string) (d : dict) : lacks k d -> lacks k (dict_remove k' d).
Proof.
  unfold lacks, dict_remove. induction d as [|[k0 v] d IH]; simpl; [reflexivity|].
  destruct (String.eqb k0 k) eqn:E; [discriminate|]. intros H.
  destruct (String.eqb k0 k'); simpl; [auto|]. rewrite E. auto.
Qed.

Lemma dict_get_set_same (k : string) (v : value) (d : dict) :
  dict_get k (dict_set k v d) = Some v.
Proof.
  induction d as [|[k0 v0] d IH]; simpl.
  - rewrite String.eqb_refl. reflexivity.
  - destruct (String.eqb k0 k) eqn:E; simpl.
    + rewrite String.eqb_refl. reflexivity.
    + rewrite E. exact IH.
Qed.

Lemma dict_get_set_other (k k' : string) (v : value) (d : dict) :
  k <> k' -> dict_get k (dict_set k' v d) = dict_get k d.
Proof.
  intros Hk. induction d as [|[k0 v0] d IH]; simpl.
  - destruct (String.eqb_spec k' k); [congruence|reflexivity].
  - destruct (String.eqb_spec k0 k') as [E|E]; simpl.
    + subst k0. destruct (String.eqb_spec k' k); [congruence|reflexivity].
    + destruct (String.eqb k0 k); [reflexivity|exact IH].
Qed.

Lemma lacks_set (k k' : string) (v : value) (d : dict) :
  k <> k' -> lacks k d -> lacks k (dict_set k' v d).
Proof. unfold lacks. intros Hk H. rewrite dict_get_set_other; assumption. Qed.

Lemma remove_lacks (k : string) (d : dict) : lacks k d -> dict_remove k d = d.
Proof.
  unfold lacks, dict_remove. induction d as [|[k0 v] d IH]; simpl; [reflexivity|].
  destruct (String.eqb k0 k); [discriminate|]. simpl. intros H. rewrite IH; auto.
Qed.

Lemma set_lacks (k : string) (v : value) (d : dict) :
  lacks k d -> dict_set k v d = (d ++ [(k, v)])%list.
Proof.
  unfold lacks. induction d as [|[k0 v0] d IH]; simpl; [reflexivity|].
  destruct (String.eqb k0 k); [discriminate|]. intros H. rewrite IH; auto.
Qed.

Lemma dict_get_app_last (k k' : string) (v : value) (d : dict) :
  lacks k' d ->
  dict_get k (d ++ [(k', v)])%list = if String.eqb k' k then Some v else dict_get k d.
Proof.
  unfold lacks. induction d as [|[k0 v0] d IH]; simpl.
  - reflexivity.
  - destruct (String.eqb_spec k0 k') as [E|E]; [discriminate|]. intros H.
    destruct (String.eqb_spec k0 k) as [E'|E'].
    + subst k0. destruct (String.eqb_spec k' k); [congruence|reflexivity].
    + apply IH. exact H.
Qed.

Lemma remove_app_last (k : string) (v : value) (d : dict) :
  lacks k d -> dict_remove k (d ++ [(k, v)])%list = d.
Proof.
  intros H. unfold dict_remove. rewrite filter_app. simpl.
  rewrite String.eqb_refl. simpl. rewrite app_nil_r. apply remove_lacks. exact H.
Qed.

Create HintDb dict.
#[local] Hint Resolve dict_get_remove_same lacks_remove lacks_set : dict.
#[local] Hint Extern 1 (_ <> _) => discriminate : dict.

Lemma rename_key_lacks (k k' : string) (m : dict) :
  k <> k' -> lacks k (rename_key k k' m).
Proof.
  intros Hk. unfold rename_key. destruct (dict_get k m) eqn:E; auto with dict.
Qed.

Lemma rename_key_keeps_lacks (k0 k k' : string) (m : dict) :
  k0 <> k' -> lacks k0 m -> lacks k0 (rename_key k k' m).
Proof.
  intros Hk H. unfold rename_key. destruct (dict_get k m); auto with dict.
Qed.

Lemma fold_key_ok (key new_key : string) (wrap : value -> value)
    (m m' : dict) (j j' : value) :
  fold_key key new_key wrap (m, j) = Ok (m', j') -> m' = dict_remove key m.
Proof.
  unfold fold_key. destruct (dict_get key m) eqn:E.
  - destruct (value_setitem j new_key (wrap v)); simpl; [|discriminate].
    intros H. injection H as <- _. reflexivity.
  - intros H. injection H as <- _. symmetry. apply remove_lacks. exact E.
Qed.

Lemma fold_key_absent (key new_key : string) (wrap : value -> value)
    (m : dict) (j : value) :
  lacks key m -> fold_key key new_key wrap (m, j) = Ok (m, j).
Proof. unfold lacks, fold_key. intros ->. reflexivity. Qed.

Lemma value_pop_ok (o filters : value) (k : string) (default : value) (j : dict) :
  value_pop o k default = Ok (filters, j) ->
  exists d, o = VDict d /\ j = dict_remove k d.
Proof.
  destruct o; simpl; try discriminate. intros H. injection H as _ <-. eauto.
Qed.

Lemma fold_filter_ok (key new_key : string) (filters : value) (j j' : dict) :
  fold_filter key new_key filters j = Ok j' ->
  j' = j \/ exists v, j' = dict_set new_key v j.
Proof.
  unfold fold_filter. destruct (value_contains key filters) as [[|]|]; simpl;
    try discriminate.
  - destruct (value_getitem filters key); simpl; [|discriminate].
    intros H. injection H as <-. eauto.
  - intros H. injection H as <-. auto.
Qed.

Lemma flatten_level_ok (filter_level : string) (j j' : dict) :
  flatten_level filter_level j = Ok j' ->
  (j' = j /\ not_a_dict (get_default filter_level VNone j))
  \/ exists text, j' = dict_set filter_level (VStr text) j.
Proof.
  unfold flatten_level. destruct (get_default filter_level VNone j) eqn:E;
    try (intros H; injection H as <-; left; split; [reflexivity|exact I]).
  destruct (flatten_filter d); simpl; [|discriminate].
  intros H. injection H as <-. eauto.
Qed.

Lemma flatten_level_not_a_dict (filter_level : string) (j : dict) :
  not_a_dict (get_default filter_level VNone j) ->
  flatten_level filter_level j = Ok j.
Proof.
  unfold flatten_level. destruct (get_default filter_level VNone j);
    simpl; intros H; try reflexivity. contradiction.
Qed.

Lemma get_default_set_same (k : string) (v default : value) (d : dict) :
  get_default k default (dict_set k v d) = v.
Proof. unfold get_default. rewrite dict_get_set_same. reflexivity. Qed.

Lemma get_default_set_other (k k' : string) (v default : value) (d : dict) :
  k <> k' -> get_default k default (dict_set k' v d) = get_default k default d.
Proof. intros H. unfold get_default. rewrite dict_get_set_other; auto. Qed.
Lemma rename_nbrmd_lacks (m : dict) :
  let m1 := fold_left (fun m key => rename_key key (replace "nbrmd" "jupytext" key) m)
              ["nbrmd_formats"; "nbrmd_format_version"] m in
  lacks "nbrmd_formats" m1 /\ lacks "nbrmd_format_version" m1.
Proof.
  cbn [fold_left].
  change (replace "nbrmd" "jupytext" "nbrmd_formats") with "jupytext_formats".
  change (replace "nbrmd" "jupytext" "nbrmd_format_version")
    with "jupytext_format_version".
  split.
  - apply rename_key_keeps_lacks; [discriminate|].
    apply rename_key_lacks. discriminate.
  - apply rename_key_lacks. discriminate.
Qed.

Lemma rename_nbrmd_rearranged (m : dict) :
  Forall (fun k => lacks k m) legacy_keys ->
  fold_left (fun m key => rename_key key (replace "nbrmd" "jupytext" key) m)
    ["nbrmd_formats"; "nbrmd_format_version"] m = m.
Proof.
  intros H. cbn [fold_left]. unfold legacy_keys in H.
  inversion H as [|? ? H1 H']; subst. inversion H' as [|? ? H2 _]; subst.
  unfold rename_key at 2. rewrite H1. unfold rename_key. rewrite H2. reflexivity.
Qed.

Lemma fold_filter_keeps_lacks (k key new_key : string) (filters : value) (j j' : dict) :
  k <> new_key -> lacks k j ->
  fold_filter key new_key filters j = Ok j' -> lacks k j'.
Proof.
  intros Hk H E. destruct (fold_filter_ok _ _ _ _ _ E) as [->|[v ->]]; auto with dict.
Qed.

Lemma flatten_level_keeps_lacks (k filter_level : string) (j j' : dict) :
  k <> filter_level -> lacks k j ->
  flatten_level filter_level j = Ok j' -> lacks k j'.
Proof.
  intros Hk H E. destruct (flatten_level_ok _ _ _ E) as [[-> _]|[text ->]];
    auto with dict.
Qed.

Lemma flatten_level_flat (filter_level : string) (j j' : dict) :
  flatten_level filter_level j = Ok j' ->
  not_a_dict (get_default filter_level VNone j').
Proof.
  intros E. destruct (flatten_level_ok _ _ _ E) as [[-> H]|[text ->]]; [exact H|].
  rewrite get_default_set_same. exact I.
Qed.

Lemma flatten_level_keeps_flat (k filter_level : string) (j j' : dict) :
  k <> filter_level ->
  not_a_dict (get_default k VNone j) ->
  flatten_level filter_level j = Ok j' ->
  not_a_dict (get_default k VNone j').
Proof.
  intros Hk H E. destruct (flatten_level_ok _ _ _ E) as [[-> _]|[text ->]]; [exact H|].
  rewrite get_default_set_other; assumption.
Qed.

Ltac bind_ok E :=
  match goal with
  | |- bind ?c _ = Ok _ -> _ => destruct c eqn:E; cbn [bind]; [|discriminate]
  end.

(** What the rearrangement returns is rearranged. *)
Lemma rearrange_jupytext_metadata_rearranged (m m' : dict) :
  rearrange_jupytext_metadata m = Ok m' -> rearranged m'.
Proof.
  unfold rearrange_jupytext_metadata.
  destruct (rename_nbrmd_lacks m) as [N1 N2].
  set (m1 := fold_left _ _ m) in *.
  bind_ok E1. destruct a as [m2 j2].
  bind_ok E2. destruct a as [m3 j3].
  bind_ok E3. destruct a as [m4 j4].
  bind_ok E4. destruct a as [m5 j5].
  bind_ok E5. destruct a as [m6 j6].
  bind_ok E6. destruct a as [filters k0].
  bind_ok E7. bind_ok E8. bind_ok E9. bind_ok E10.
  apply fold_key_ok in E1, E2, E3, E4, E5. subst m2 m3 m4 m5 m6.
  apply value_pop_ok in E6. destruct E6 as [d [-> ->]].
  set (rest := dict_remove "executable" _).
  assert (Hlegacy : Forall (fun k => lacks k rest) legacy_keys).
  { unfold rest, legacy_keys. repeat constructor; auto 10 with dict. }
  assert (Hj : lacks "jupytext" rest).
  { unfold rest. auto 10 with dict. }
  destruct (truthy (VDict a2)) eqn:T; intros H; injection H as <-.
  - rewrite set_lacks by exact Hj.
    apply rearranged_with_jupytext; [assumption|assumption|]. split.
    + intros ->. discriminate T.
    + apply flatten_level_keeps_lacks with (3 := E10); [discriminate|].
      apply flatten_level_keeps_lacks with (3 := E9); [discriminate|].
      apply fold_filter_keeps_lacks with (3 := E8); [discriminate|].
      apply fold_filter_keeps_lacks with (3 := E7); [discriminate|].
      apply dict_get_remove_same.
    + apply flatten_level_keeps_flat with (3 := E10); [discriminate|].
      apply flatten_level_flat with (1 := E9).
    + apply flatten_level_flat with (1 := E10).
  - apply rearranged_plain; assumption.
Qed.

(** The rearrangement leaves rearranged metadata as they are. *)
Lemma rearrange_jupytext_metadata_fixed (m : dict) :
  rearranged m -> rearrange_jupytext_metadata m = Ok m.
Proof.
  intros H. unfold rearrange_jupytext_metadata.
  assert (Hfold : forall rest j,
            Forall (fun k => lacks k rest) legacy_keys ->
            forall k : dict * value -> result dict,
            (st <- fold_key "jupytext_formats" "formats" (fun v => v) (rest, j) ;;
             st <- fold_key "jupytext_format_version" "text_representation"
                     (fun v => VDict [("format_version", v)]) st ;;
             st <- fold_key "main_language" "main_language" (fun v => v) st ;;
             st <- fold_key "encoding" "encoding" (fun v => v) st ;;
             st <- fold_key "executable" "executable" (fun v => v) st ;;
             k st) = k (rest, j)).
  { intros rest j Hl k. unfold legacy_keys in Hl.
    repeat match goal with
           | Hl : Forall _ (_ :: _) |- _ => inversion Hl; clear Hl; subst
           end.
    repeat (rewrite fold_key_absent by assumption; cbn [bind]). reflexivity. }
  destruct H as [rest Hl Hj | rest j Hl Hj [Hne Hmf Hnb Hcell]].
  - rewrite rename_nbrmd_rearranged by exact Hl.
    rewrite remove_lacks by exact Hj.
    unfold get_default at 1. rewrite Hj.
    rewrite Hfold by exact Hl. reflexivity.
  - assert (Hl' : Forall (fun k => lacks k (rest ++ [("jupytext", VDict j)])%list)
                    legacy_keys).
    { unfold legacy_keys in *.
      repeat match goal with
             | Hl : Forall _ (_ :: _) |- _ => inversion Hl; clear Hl; subst
             end.
      repeat constructor; unfold lacks; rewrite dict_get_app_last by exact Hj;
        simpl; assumption. }
    rewrite rename_nbrmd_rearranged by exact Hl'.
    rewrite remove_app_last by exact Hj.
    unfold get_default at 1. rewrite dict_get_app_last by exact Hj.
    rewrite String.eqb_refl.
    rewrite Hfold by exact Hl.
    cbn [value_pop bind]. rewrite remove_lacks by exact Hmf.
    assert (Hfilters : get_default "metadata_filter" (VDict []) j = VDict []).
    { unfold get_default. rewrite Hmf. reflexivity. }
    rewrite Hfilters.
    unfold fold_filter. cbn [value_contains dict_mem dict_get bind].
    rewrite (flatten_level_not_a_dict _ _ Hnb). cbn [bind].
    rewrite (flatten_level_not_a_dict _ _ Hcell). cbn [bind].
    destruct j; [contradiction|]. cbn [truthy].
    rewrite set_lacks by exact Hj. reflexivity.
Qed.

(** C8.  The rearrangement is idempotent: running it on its own result
    returns that result; and when it raises, so does the second run, which
    never starts. *)
Theorem rearrange_jupytext_metadata_idempotent (metadata : dict) :
  (m <- rearrange_jupytext_metadata metadata ;; rearrange_jupytext_metadata m)
  = rearrange_jupytext_metadata metadata.
Proof.
  destruct (rearrange_jupytext_metadata metadata) as [m|e] eqn:E; cbn [bind].
  - apply rearrange_jupytext_metadata_fixed.
    apply rearrange_jupytext_metadata_rearranged with metadata. exact E.
  - reflexivity.
Qed.

(** ** Properties of the version check *)

Lemma single_digit_version_inv (v : string) :
  single_digit_version v = true ->
  exists a b, In a digits /\ In b digits /\ v = version_of_digits a b.
Proof.
  destruct v as [|a [|dot [|b [|? ?]]]]; simpl; try discriminate.
  - destruct dot as [[] [] [] [] [] [] [] []]; discriminate.
  - destruct (Ascii.eqb_spec dot "."%char) as [->|Hdot].
    + intros H. apply andb_prop in H. destruct H as [Ha Hb].
      unfold is_digit in Ha, Hb.
      apply existsb_exists in Ha. destruct Ha as [a' [Ha Ea]].
      apply existsb_exists in Hb. destruct Hb as [b' [Hb Eb]].
      apply Ascii.eqb_eq in Ea, Eb. subst a' b'.
      exists a, b. repeat split; assumption.
    + destruct dot as [[] [] [] [] [] [] [] []]; try discriminate.
      exfalso. apply Hdot. reflexivity.
  - destruct dot as [[] [] [] [] [] [] [] []]; discriminate.
Qed.

(** On versions of one-digit numbers the order of the strings is the order
    of the numbers, and so is equality. *)
Lemma string_order_single_digits (u w : string) :
  single_digit_version u = true -> single_digit_version w = true ->
  exists x y, parse_version u = Some x /\ parse_version w = Some y
              /\ String.leb u w = version_le x y
              /\ String.eqb u w = version_eq x y.
Proof.
  intros Hu Hw.
  destruct (single_digit_version_inv u Hu) as [a [b [Ha [Hb ->]]]].
  destruct (single_digit_version_inv w Hw) as [c [d [Hc [Hd ->]]]].
  assert (Hall :
    forallb (fun a => forallb (fun b => forallb (fun c => forallb (fun d =>
      match parse_version (version_of_digits a b),
            parse_version (version_of_digits c d) with
      | Some x, Some y =>
          Bool.eqb (String.leb (version_of_digits a b) (version_of_digits c d))
                   (version_le x y)
          && Bool.eqb (String.eqb (version_of_digits a b) (version_of_digits c d))
                      (version_eq x y)
      | _, _ => false
      end) digits) digits) digits) digits = true) by (vm_compute; reflexivity).
  rewrite forallb_forall in Hall. specialize (Hall a Ha).
  rewrite forallb_forall in Hall. specialize (Hall b Hb).
  rewrite forallb_forall in Hall. specialize (Hall c Hc).
  rewrite forallb_forall in Hall. specialize (Hall d Hd).
  destruct (parse_version (version_of_digits a b)) as [x|]; [|discriminate].
  destruct (parse_version (version_of_digits c d)) as [y|]; [|discriminate].
  apply andb_prop in Hall. destruct Hall as [H1 H2].
  apply Bool.eqb_prop in H1, H2. exists x, y. auto.
Qed.

(** The check, once the format is resolved and a version is recorded. *)
Lemma check_file_version_recorded
    (metadata jupytext text_repr : dict) (source_path outputs_path v : string)
    (name : value) (fmt : NotebookFormatDescription) :
  insert_or_test_version_number = true ->
  endswith ".ipynb" (snd (splitext source_path)) = false ->
  source_path <> outputs_path ->
  dict_get "jupytext" metadata = Some (VDict jupytext) ->
  dict_get "text_representation" jupytext = Some (VDict text_repr) ->
  dict_get "format_version" text_repr = Some (VStr v) ->
  v <> EmptyString ->
  format_name_for_ext metadata (snd (splitext source_path)) VNone true = Ok name ->
  get_format_implementation (snd (splitext source_path)) name = Ok (Some fmt) ->
  check_file_version metadata source_path outputs_path =
    if version_accepted fmt v then Ok tt
    else Raise (UnsafeVersion (VStr v) (current_version_number fmt)).
Proof.
  intros Hguard Hext Hpaths Hj Ht Hv Hne Hname Hfmt.
  assert (Gj : get_default "jupytext" (VDict []) metadata = VDict jupytext)
    by (unfold get_default; rewrite Hj; reflexivity).
  assert (Gt : get_default "text_representation" (VDict []) jupytext = VDict text_repr)
    by (unfold get_default; rewrite Ht; reflexivity).
  assert (Gv : get_default "format_version" VNone text_repr = VStr v)
    by (unfold get_default; rewrite Hv; reflexivity).
  unfold check_file_version. rewrite Hguard, Hext. cbn [negb].
  rewrite Gj. cbn [value_get bind]. rewrite Gt. cbn [value_get bind].
  rewrite !Gv. rewrite Hname. cbn [bind]. rewrite Hfmt. cbn [bind].
  assert (Htruthy : truthy (VStr v) = true).
  { cbn [truthy]. destruct (String.eqb_spec v ""); [contradiction|reflexivity]. }
  rewrite Htruthy. rewrite andb_false_r. cbn [negb str_eq version_between bind].
  unfold version_accepted. fold (min_readable_or_current fmt).
  destruct (String.eqb (current_version_number fmt) v); [reflexivity|].
  cbn [orb].
  destruct (String.leb (min_readable_or_current fmt) v
            && String.leb v (current_version_number fmt)); [reflexivity|].
  destruct (String.eqb_spec source_path outputs_path); [contradiction|reflexivity].
Qed.

(** C2, as the code has it.  With the check enabled and two distinct paths, a
    recorded version is accepted exactly when it is the current version or
    lies between the minimum readable version and the current one in the
    order of strings; on versions of one-digit numbers that is the numeric
    order of the specification; and for current '1.3' and minimum '1.1' the
    versions '1.1', '1.2', '1.3' are accepted, '1.0' and '1.4' are not. *)
Theorem check_file_version_string_order :
  (forall (metadata jupytext text_repr : dict) (source_path outputs_path v : string)
          (name : value) (fmt : NotebookFormatDescription),
      insert_or_test_version_number = true ->
      endswith ".ipynb" (snd (splitext source_path)) = false ->
      source_path <> outputs_path ->
      dict_get "jupytext" metadata = Some (VDict jupytext) ->
      dict_get "text_representation" jupytext = Some (VDict text_repr) ->
      dict_get "format_version" text_repr = Some (VStr v) ->
      v <> EmptyString ->
      format_name_for_ext metadata (snd (splitext source_path)) VNone true = Ok name ->
      get_format_implementation (snd (splitext source_path)) name = Ok (Some fmt) ->
      check_file_version metadata source_path outputs_path =
        if version_accepted fmt v then Ok tt
        else Raise (UnsafeVersion (VStr v) (current_version_number fmt)))
  /\ (forall (fmt : NotebookFormatDescription) (v : string),
        single_digit_version (min_readable_or_current fmt) = true ->
        single_digit_version v = true ->
        single_digit_version (current_version_number fmt) = true ->
        version_accepted fmt v = numerically_accepted fmt v)
  /\ (forall fmt : NotebookFormatDescription,
        current_version_number fmt = "1.3" ->
        min_readable_version_number fmt = Some "1.1" ->
        map (version_accepted fmt) ["1.0"; "1.1"; "1.2"; "1.3"; "1.4"]
        = [false; true; true; true; false]).
Proof.
  split; [|split].
  - exact check_file_version_recorded.
  - intros fmt v Hlo Hv Hcur. unfold version_accepted, numerically_accepted.
    destruct (string_order_single_digits _ _ Hlo Hv) as [lo [x [Plo [Px [L1 _]]]]].
    destruct (string_order_single_digits _ _ Hv Hcur) as [x' [cur [Px' [Pcur [L2 _]]]]].
    destruct (string_order_single_digits _ _ Hcur Hv) as [cur' [x'' [Pcur' [Px'' [_ E]]]]].
    rewrite Px in Px', Px''. injection Px' as <-. injection Px'' as <-.
    rewrite Pcur in Pcur'. injection Pcur' as <-.
    rewrite Plo, Px, Pcur, L1, L2, E. f_equal.
    unfold version_eq. rewrite (Nat.eqb_sym (fst cur)), (Nat.eqb_sym (snd cur)).
    reflexivity.
  - intros fmt Hcur Hmin. unfold version_accepted, min_readable_or_current.
    rewrite Hcur, Hmin. reflexivity.
Qed.

(** C3, as the code has it.  When the metadata are not empty and record no
    version, the check takes the version to be the current one and returns,
    once the format is resolved. *)
Theorem check_file_version_missing_version
    (metadata : dict) (source_path outputs_path : string)
    (text_repr version name : value) (fmt : NotebookFormatDescription) :
  metadata <> [] ->
  value_get (get_default "jupytext" (VDict []) metadata)
    "text_representation" (VDict []) = Ok text_repr ->
  value_get text_repr "format_version" VNone = Ok version ->
  truthy version = false ->
  format_name_for_ext metadata (snd (splitext source_path)) VNone true = Ok name ->
  get_format_implementation (snd (splitext source_path)) name = Ok (Some fmt) ->
  check_file_version metadata source_path outputs_path = Ok tt.
Proof.
  intros Hmeta Ht Hv Hfalsy Hname Hfmt. unfold check_file_version.
  destruct insert_or_test_version_number; [|reflexivity]. cbn [negb].
  destruct (endswith ".ipynb" (snd (splitext source_path))); [reflexivity|].
  rewrite Ht. cbn [bind]. rewrite Hv. cbn [bind].
  rewrite Hname. cbn [bind]. rewrite Hfmt. cbn [bind].
  rewrite Hfalsy. destruct metadata; [contradiction|].
  cbn [truthy negb andb str_eq]. rewrite String.eqb_refl. reflexivity.
Qed.

(** ** Properties of the guess of the format *)

(** The counters of the loop are the numbers of marker lines among the
    unquoted lines, on top of what was counted before. *)
Lemma count_markers_count_lines (ext : string)
    (magic_re double_percent_re double_percent_and_space_re nbconvert_script_re : regex)
    (parser : StringParser) (lines : list string) (counts : marker_counts) :
  count_markers ext magic_re double_percent_re double_percent_and_space_re
    nbconvert_script_re parser lines counts
  = {| twenty_hash_count :=
         twenty_hash_count counts
         + (if String.eqb ext ".py"
            then count_lines (startswith "####################")
                   (unquoted_lines parser lines)
            else 0);
       double_percent_count :=
         double_percent_count counts
         + count_lines (fun line => re_match double_percent_re line
                                    || re_match double_percent_and_space_re line
                                    || re_match nbconvert_script_re line)
             (unquoted_lines parser lines);
       magic_command_count :=
         magic_command_count counts
         + count_lines (re_match magic_re) (unquoted_lines parser lines) |}.
Proof.
  revert parser counts. unfold count_lines.
  induction lines as [|line lines IH]; intros parser counts.
  - cbn [count_markers unquoted_lines filter List.length].
    destruct counts as [t d m]. cbn [twenty_hash_count double_percent_count
      magic_command_count]. destruct (String.eqb ext ".py");
      rewrite !Nat.add_0_r; reflexivity.
  - cbn [count_markers unquoted_lines].
    destruct (is_quoted (read_line parser line)).
    + apply IH.
    + rewrite IH. cbn [twenty_hash_count double_percent_count magic_command_count
        filter].
      destruct (re_match double_percent_re line
                || re_match double_percent_and_space_re line
                || re_match nbconvert_script_re line),
        (re_match magic_re line),
        (startswith "####################" line),
        (String.eqb ext ".py");
        cbn [andb List.length]; f_equal; lia.
Qed.

(** The light formats of the registry, filtered on an extension of the
    table: there is one, and the first is a light format. *)
Lemma filter_light_formats (ext : string) (exts : list string) :
  str_in ext exts = true ->
  exists fmt others,
    filter (fun fmt => String.eqb (extension fmt) ext)
      (map (fun e =>
              {| format_name := "light"; extension := e;
                 header_prefix := script_comment e;
                 cell_reader_class := LightScriptCellReader;
                 cell_exporter_class := LightScriptCellExporter;
                 current_version_number := "1.3";
                 min_readable_version_number := Some "1.1" |}) exts)
    = fmt :: others
    /\ format_name fmt = "light".
Proof.
  unfold str_in. induction exts as [|e exts IH]; cbn [existsb map filter extension];
    [discriminate|].
  rewrite (String.eqb_sym ext e). destruct (String.eqb e ext).
  - intros _. eexists. eexists. split; reflexivity.
  - cbn [orb]. exact IH.
Qed.

(** A script extension has formats in the registry, and the first of them,
    the default format of the extension, is the light format unless the
    extension is one of the markup or R extensions, whose own formats come
    before the light ones. *)
Lemma formats_of_script_extension (ext : string) :
  str_in ext script_extensions = true ->
  exists fmt others,
    formats_of_extension ext = fmt :: others
    /\ (str_in ext [".md"; ".Rmd"; ".r"; ".R"] = false -> format_name fmt = "light").
Proof.
  intros Hext. unfold formats_of_extension, JUPYTEXT_FORMATS.
  cbn [app map filter extension].
  destruct (String.eqb ".md" ext) eqn:Emd.
  { eexists. eexists. split; [reflexivity|]. unfold str_in. cbn [existsb].
    rewrite (String.eqb_sym ext ".md"), Emd. discriminate. }
  destruct (String.eqb ".Rmd" ext) eqn:ERmd.
  { eexists. eexists. split; [reflexivity|]. unfold str_in. cbn [existsb].
    rewrite (String.eqb_sym ext ".Rmd"), ERmd, Bool.orb_true_r. discriminate. }
  destruct (String.eqb ".r" ext) eqn:Er.
  { eexists. eexists. split; [reflexivity|]. unfold str_in. cbn [existsb].
    rewrite (String.eqb_sym ext ".r"), Er, !Bool.orb_true_r. discriminate. }
  destruct (String.eqb ".R" ext) eqn:ER.
  { eexists. eexists. split; [reflexivity|]. unfold str_in. cbn [existsb].
    rewrite (String.eqb_sym ext ".R"), ER, !Bool.orb_true_r. discriminate. }
  rewrite filter_app.
  destruct (filter_light_formats ext script_extensions Hext) as [fmt [others [E Hname]]].
  rewrite E. cbn [app]. exists fmt. eexists. split; [reflexivity|].
  intros _. exact Hname.
Qed.

(** The default format of [guess_format], for an extension that is a dot and
    a name without a dot, '.ipynb' apart: the name of the first format of the
    registry that has the extension. *)
Lemma default_format_name_first (ext : string) (fmt : NotebookFormatDescription)
    (others : list NotebookFormatDescription) :
  "." ++ last (split "." ext) EmptyString = ext ->
  endswith ".ipynb" ext = false ->
  formats_of_extension ext = fmt :: others ->
  default_format_name ext = Ok (VStr (format_name fmt)).
Proof.
  intros Hshort Hipynb Hfmts. unfold default_format_name, get_format_implementation.
  rewrite Hshort, Hipynb. rewrite find_format_no_name by reflexivity.
  unfold formats_of_extension in Hfmts. rewrite Hfmts. reflexivity.
Qed.

(** C6.  For a script extension (a key of the table of the script languages,
    which is a dot and a name without a dot, and not '.ipynb') and header
    metadata that do not name a format, the guess follows the three counts in
    this order: one double-percent marker or more gives 'hydrogen' when there
    is a magic command as well and 'percent' otherwise; else two lines of
    twenty hashes or more (which count in '.py' files only) give 'sphinx';
    else the format is the default one of the extension in the registry, that
    is the first format of [JUPYTEXT_FORMATS] that has the extension -- the
    light format, but for the markup and R extensions. *)
Theorem guess_format_decision (text ext : string) (metadata : dict)
    (magic_re double_percent_re double_percent_and_space_re nbconvert_script_re : regex) :
  str_in ext script_extensions = true ->
  "." ++ last (split "." ext) EmptyString = ext ->
  endswith ".ipynb" ext = false ->
  read_metadata text ext = Ok metadata ->
  explicit_metadata metadata = Ok false ->
  re_compile "^(%|%%|%%%)[a-zA-Z]" = Ok magic_re ->
  re_compile ("^" ++ script_comment ext ++ "( %%|%%)$") = Ok double_percent_re ->
  re_compile ("^" ++ script_comment ext ++ "( %%|%%)\s")
    = Ok double_percent_and_space_re ->
  re_compile ("^" ++ script_comment ext ++ "( <codecell>| In\[[0-9 ]*\]:?)")
    = Ok nbconvert_script_re ->
  let lines :=
    unquoted_lines
      (new_StringParser (if str_in ext [".r"; ".R"] then "R" else "python"))
      (splitlines text) in
  let double_percent :=
    count_lines (fun line => re_match double_percent_re line
                             || re_match double_percent_and_space_re line
                             || re_match nbconvert_script_re line) lines in
  let magic_command := count_lines (re_match magic_re) lines in
  let twenty_hash :=
    if String.eqb ext ".py"
    then count_lines (startswith "####################") lines else 0 in
  exists (fmt : NotebookFormatDescription) (others : list NotebookFormatDescription),
    formats_of_extension ext = fmt :: others
    /\ (str_in ext [".md"; ".Rmd"; ".r"; ".R"] = false -> format_name fmt = "light")
    /\ guess_format text ext =
         if (1 <=? double_percent)%nat then
           if (0 <? magic_command)%nat then Ok (VStr "hydrogen")
           else Ok (VStr "percent")
         else if (2 <=? twenty_hash)%nat then Ok (VStr "sphinx")
         else Ok (VStr (format_name fmt)).
Proof.
  intros Hext Hshort Hipynb Hmeta Hexplicit Hmagic Hdp Hdps Hnb lines double_percent
    magic_command twenty_hash.
  destruct (formats_of_script_extension ext Hext) as [fmt [others [Hfmts Hlight]]].
  exists fmt, others. split; [exact Hfmts|]. split; [exact Hlight|].
  unfold guess_format. rewrite Hmeta. cbn [bind]. rewrite Hexplicit. cbn [bind].
  rewrite Hext. unfold scan_script.
  rewrite Hmagic. cbn [bind]. rewrite Hdp. cbn [bind].
  rewrite Hdps. cbn [bind]. rewrite Hnb. cbn [bind].
  rewrite count_markers_count_lines. unfold format_of_counts.
  cbn [twenty_hash_count double_percent_count magic_command_count Nat.add].
  fold lines. fold double_percent. fold magic_command. fold twenty_hash.
  destruct (1 <=? double_percent)%nat; [|destruct (2 <=? twenty_hash)%nat];
    try reflexivity.
  - destruct (0 <? magic_command)%nat; reflexivity.
  - apply default_format_name_first with others; assumption.
Qed.

(** ** Further properties of the registry *)

Lemma JUPYTEXT_FORMATS_blocks :
  JUPYTEXT_FORMATS =
    ([markdown_md; rmarkdown_Rmd] ++ map spin_format [".r"; ".R"]
     ++ map light_format script_extensions
     ++ map percent_format script_extensions
     ++ map hydrogen_format script_extensions
     ++ [sphinx_py])%list.
Proof. reflexivity. Qed.

(** A format of the registry is one of the seven kinds. *)
Lemma In_JUPYTEXT_FORMATS (fmt : NotebookFormatDescription) :
  In fmt JUPYTEXT_FORMATS ->
  fmt = markdown_md \/ fmt = rmarkdown_Rmd
  \/ (exists ext, In ext [".r"; ".R"] /\ fmt = spin_format ext)
  \/ (exists ext, In ext script_extensions /\ fmt = light_format ext)
  \/ (exists ext, In ext script_extensions /\ fmt = percent_format ext)
  \/ (exists ext, In ext script_extensions /\ fmt = hydrogen_format ext)
  \/ fmt = sphinx_py.
Proof.
  rewrite JUPYTEXT_FORMATS_blocks. rewrite !in_app_iff, !in_map_iff.
  intros [H|[H|[H|[H|[H|H]]]]].
  - destruct H as [<-|[<-|[]]]; auto.
  - destruct H as [e [<- He]]. right. right. left. eauto.
  - destruct H as [e [<- He]]. right. right. right. left. eauto.
  - destruct H as [e [<- He]]. do 4 right. left. eauto.
  - destruct H as [e [<- He]]. do 5 right. left. eauto.
  - destruct H as [<-|[]]. do 6 right. reflexivity.
Qed.

(** X1.  Only the last dotted part of the argument counts in the lookup: what
    stands before the last dot, a file name or a prefix, is dropped. *)
Theorem get_format_implementation_drops_prefix (pre ext : string) (name : value) :
  get_format_implementation (pre ++ String "." ext) name
  = get_format_implementation (String "." ext) name.
Proof.
  unfold get_format_implementation.
  rewrite last_split_app_sep.
  change (String "." ext) with (EmptyString ++ String "." ext).
  rewrite last_split_app_sep. reflexivity.
Qed.

Lemma find_format_sound (fmts : list NotebookFormatDescription) (ext : string)
    (name : value) (acc : list string) (fmt : NotebookFormatDescription) :
  find_format fmts ext name acc = Ok (Some fmt) ->
  In fmt fmts /\ extension fmt = ext
  /\ (str_eq (format_name fmt) name = true \/ truthy name = false).
Proof.
  revert acc. induction fmts as [|f fmts IH]; intros acc; simpl.
  - destruct acc; discriminate.
  - destruct (String.eqb_spec (extension f) ext) as [E|E].
    + destruct (str_eq (format_name f) name) eqn:Hn; simpl.
      * intros H. injection H as <-. auto.
      * destruct (truthy name) eqn:Ht; simpl.
        -- intros H. apply IH in H. destruct H as [H1 [H2 H3]].
           split; [right; exact H1|split; [exact H2|exact H3]].
        -- intros H. injection H as <-. auto.
    + intros H. apply IH in H. destruct H as [H1 [H2 H3]].
      split; [right; exact H1|split; [exact H2|exact H3]].
Qed.

(** X2.  A format that the lookup returns is a format of the registry, for
    the short extension of the argument, and it has the name that was asked
    for when there is one. *)
Theorem get_format_implementation_sound (ext : string) (name : value)
    (fmt : NotebookFormatDescription) :
  get_format_implementation ext name = Ok (Some fmt) ->
  In fmt JUPYTEXT_FORMATS
  /\ extension fmt = short_extension ext
  /\ (truthy name = true -> name = VStr (format_name fmt)).
Proof.
  unfold get_format_implementation. fold (short_extension ext).
  destruct (endswith ".ipynb" (short_extension ext)); [discriminate|].
  intros H. apply find_format_sound in H. destruct H as [Hin [Hext Hname]].
  repeat split; try assumption.
  intros Ht. destruct Hname as [Hn|Hn]; [|congruence].
  destruct name; try discriminate Hn. simpl in Hn.
  apply String.eqb_eq in Hn. congruence.
Qed.

(** X3.  For an extension that has no format in the registry (and is not
    '.ipynb') the lookup raises the error of the unknown extension, with or
    without a format name. *)
Theorem get_format_implementation_unknown_extension (ext : string) (name : value) :
  endswith ".ipynb" (short_extension ext) = false ->
  formats_of_extension (short_extension ext) = [] ->
  get_format_implementation ext name
  = Raise (NoFormatForExtension (short_extension ext)).
Proof.
  intros Hipynb Hnone. unfold get_format_implementation.
  fold (short_extension ext). rewrite Hipynb.
  unfold formats_of_extension in Hnone.
  destruct (truthy name) eqn:Ht.
  - rewrite find_format_other_name.
    + rewrite Hnone. reflexivity.
    + exact Ht.
    + intros f Hf Hext. exfalso.
      assert (Hin : In f (filter (fun fmt => String.eqb (extension fmt)
                                    (short_extension ext)) JUPYTEXT_FORMATS)).
      { apply filter_In. split; [exact Hf|]. apply String.eqb_eq. exact Hext. }
      rewrite Hnone in Hin. exact Hin.
  - rewrite find_format_no_name by exact Ht. rewrite Hnone. reflexivity.
Qed.

(** X4.  An extension and a format name determine the format: no two formats
    of the registry share both. *)
Theorem JUPYTEXT_FORMATS_unambiguous (fmt1 fmt2 : NotebookFormatDescription) :
  In fmt1 JUPYTEXT_FORMATS -> In fmt2 JUPYTEXT_FORMATS ->
  extension fmt1 = extension fmt2 ->
  format_name fmt1 = format_name fmt2 ->
  fmt1 = fmt2.
Proof.
  intros H1 H2 Hext Hname.
  apply In_JUPYTEXT_FORMATS in H1, H2.
  destruct H1 as [->|[->|[[e1 [_ ->]]|[[e1 [_ ->]]|[[e1 [_ ->]]|[[e1 [_ ->]]| -> ]]]]]];
  destruct H2 as [->|[->|[[e2 [_ ->]]|[[e2 [_ ->]]|[[e2 [_ ->]]|[[e2 [_ ->]]| -> ]]]]]];
    simpl in Hext, Hname; try discriminate Hname; try reflexivity;
    subst; reflexivity.
Qed.

(** X5.  The versions of the registry are versions of one-digit numbers, and
    the minimum readable version of a format is not above its current
    version: in the registry the order of the strings is the order of the
    numbers, and a format accepts its own current version and its minimum
    readable version. *)
Theorem JUPYTEXT_FORMATS_versions (fmt : NotebookFormatDescription) :
  In fmt JUPYTEXT_FORMATS ->
  single_digit_version (current_version_number fmt) = true
  /\ single_digit_version (min_readable_or_current fmt) = true
  /\ String.leb (min_readable_or_current fmt) (current_version_number fmt) = true
  /\ version_accepted fmt (current_version_number fmt) = true
  /\ version_accepted fmt (min_readable_or_current fmt) = true.
Proof.
  intros H. apply In_JUPYTEXT_FORMATS in H.
  destruct H as [->|[->|[[e [_ ->]]|[[e [_ ->]]|[[e [_ ->]]|[[e [_ ->]]| -> ]]]]]];
    repeat split; reflexivity.
Qed.

Lemma str_in_In (x : string) (l : list string) : str_in x l = true <-> In x l.
Proof.
  unfold str_in. rewrite existsb_exists. split.
  - intros [y [Hy E]]. apply String.eqb_eq in E. subst y. exact Hy.
  - intros H. exists x. split; [exact H|apply String.eqb_refl].
Qed.

Lemma fromkeys_from_In (seen l : list string) (x : string) :
  In x (fromkeys_from seen l) <-> In x l /\ ~ In x seen.
Proof.
  revert seen. induction l as [|y l IH]; intros seen; cbn [fromkeys_from In].
  - split; [intros []|intros [[] _]].
  - destruct (str_in y seen) eqn:E.
    + apply str_in_In in E. rewrite IH. split.
      * intros [H Hs]. split; [right; exact H|exact Hs].
      * intros [[->|H] Hs]; [contradiction|]. split; [exact H|exact Hs].
    + assert (Hy : ~ In y seen).
      { intros Hy. apply str_in_In in Hy. congruence. }
      cbn [In]. rewrite IH. cbn [In]. split.
      * intros [->|[H Hs]].
        -- split; [left; reflexivity|exact Hy].
        -- split; [right; exact H|]. intros Hx. apply Hs. right. exact Hx.
      * intros [[->|H] Hs]; [left; reflexivity|].
        destruct (String.eqb_spec y x) as [->|N]; [left; reflexivity|].
        right. split; [exact H|]. intros [->|Hx]; [congruence|contradiction].
Qed.

Lemma fromkeys_from_NoDup (seen l : list string) : NoDup (fromkeys_from seen l).
Proof.
  revert seen. induction l as [|y l IH]; intros seen; simpl; [constructor|].
  destruct (str_in y seen); [apply IH|]. constructor; [|apply IH].
  rewrite fromkeys_from_In. intros [_ H]. apply H. left. reflexivity.
Qed.

(** X6.  The notebook extensions are '.ipynb' and the extensions of the
    formats of the registry, each of them once. *)
Theorem NOTEBOOK_EXTENSIONS_registry :
  NoDup NOTEBOOK_EXTENSIONS
  /\ forall ext : string,
       In ext NOTEBOOK_EXTENSIONS
       <-> ext = ".ipynb" \/ exists fmt, In fmt JUPYTEXT_FORMATS /\ extension fmt = ext.
Proof.
  unfold NOTEBOOK_EXTENSIONS, fromkeys. split.
  - apply fromkeys_from_NoDup.
  - intros ext. rewrite fromkeys_from_In. cbn [In]. rewrite in_map_iff.
    split.
    + intros [[<-|[fmt [<- Hf]]] _]; [left; reflexivity|].
      right. exists fmt. split; [exact Hf|reflexivity].
    + intros [->|[fmt [Hf <-]]]; (split; [|intros []]); [left; reflexivity|].
      right. exists fmt. auto.
Qed.

(** ** Further properties of the compact format specifiers *)

Lemma substring_split (n : nat) (s : string) :
  String.substring 0 n s ++ String.substring n (String.length s - n) s = s.
Proof.
  revert n. induction s as [|c s IH]; intros n.
  - destruct n; reflexivity.
  - destruct n as [|n]; simpl.
    + rewrite substring_all. reflexivity.
    + rewrite IH. reflexivity.
Qed.

(** [os.path.splitext] cuts the path in two. *)
Lemma splitext_app (p : string) : fst (splitext p) ++ snd (splitext p) = p.
Proof.
  assert (E : forall s : string, s ++ "" = s).
  { induction s as [|c s IH]; simpl; [reflexivity|]. rewrite IH. reflexivity. }
  unfold splitext.
  destruct (rfind "/" p <? rfind "." p)%Z; [|apply E].
  destruct (all_dots _); [apply E|].
  cbn [fst snd]. unfold slice_to, slice_from. apply substring_split.
Qed.

Lemma find_from_has_char (c : ascii) (s : string) (i : Z) :
  (0 <= i)%Z -> (0 <=? find_from c s i)%Z = has_char c s.
Proof.
  revert i. induction s as [|a s IH]; intros i Hi; simpl; [reflexivity|].
  destruct (Ascii.eqb a c); simpl.
  - apply Z.leb_le. exact Hi.
  - apply IH. lia.
Qed.

Lemma split_format_name_dot (s : string) :
  split_format_name (String "." s)
  = (String "." (fst (split_format_name s)), snd (split_format_name s)).
Proof.
  unfold split_format_name, find. cbn [find_from split_once].
  change (Ascii.eqb "." ":") with false. cbn iota.
  rewrite !find_from_has_char by lia.
  destruct (has_char ":" s); [|reflexivity].
  destruct (split_once ":" s) as [[a b]|]; reflexivity.
Qed.

Lemma split_format_name_start (s : string) :
  startswith "." s = false ->
  startswith "." (fst (split_format_name s)) = false.
Proof.
  unfold split_format_name, find. intros Hs.
  destruct (0 <=? find_from ":" s 0)%Z; [|exact Hs].
  destruct s as [|c s]; [reflexivity|]. cbn [split_once].
  destruct (Ascii.eqb c ":"); [reflexivity|].
  destruct (split_once ":" s) as [[a b]|]; exact Hs.
Qed.

(** X7.  The dot in front of the extension is optional in a compact
    specifier: 'py:percent' and '.py:percent' are parsed alike, into a pair
    or into the same error. *)
Theorem parse_one_format_optional_dot (ext_and_format_name : string) :
  startswith "." ext_and_format_name = false ->
  parse_one_format (String "." ext_and_format_name)
  = parse_one_format ext_and_format_name.
Proof.
  intros Hs. unfold parse_one_format. rewrite split_format_name_dot.
  pose proof (split_format_name_start _ Hs) as He.
  destruct (split_format_name ext_and_format_name) as [e n]. cbn [fst snd] in *.
  rewrite He. reflexivity.
Qed.

(** X8.  What [parse_one_format] returns is an extension that starts with a
    dot and is a notebook extension or '.auto', possibly after one of the
    known prefixes; and its only error is the one of the bad extension, for
    an extension that is neither a notebook extension nor '.auto'. *)
Theorem parse_one_format_result (ext_and_format_name : string) :
  match parse_one_format ext_and_format_name with
  | Ok (ext, name) =>
      startswith "." ext = true
      /\ (str_in ext (NOTEBOOK_EXTENSIONS ++ [".auto"]) = true
          \/ exists pre short_ext,
               ext = pre ++ short_ext
               /\ str_in pre EXTENSION_PREFIXES = true
               /\ str_in short_ext (NOTEBOOK_EXTENSIONS ++ [".auto"]) = true)
  | Raise e =>
      exists ext, e = BadExtension ext
                  /\ startswith "." ext = true
                  /\ str_in ext (NOTEBOOK_EXTENSIONS ++ [".auto"]) = false
  end.
Proof.
  unfold parse_one_format.
  destruct (split_format_name ext_and_format_name) as [e n].
  set (ext := if startswith "." e then e else "." ++ e).
  assert (Hdot : startswith "." ext = true).
  { unfold ext. destruct (startswith "." e) eqn:E; [exact E|reflexivity]. }
  destruct (str_in ext (NOTEBOOK_EXTENSIONS ++ [".auto"])) eqn:Hreg.
  - split; [exact Hdot|]. left. exact Hreg.
  - pose proof (splitext_app ext) as Happ.
    destruct (splitext ext) as [pre short_ext]. cbn [fst snd] in Happ.
    destruct (0 <? rfind "." ext)%Z; cbn [andb].
    + destruct (str_in short_ext (NOTEBOOK_EXTENSIONS ++ [".auto"])) eqn:Hshort;
        cbn [andb].
      * destruct (str_in pre EXTENSION_PREFIXES) eqn:Hpre.
        -- split; [exact Hdot|]. right. exists pre, short_ext. auto.
        -- exists ext. auto.
      * exists ext. auto.
    + exists ext. auto.
Qed.

Lemma parse_one_format_empty :
  str_in "." (NOTEBOOK_EXTENSIONS ++ [".auto"]) = false ->
  parse_one_format EmptyString = Raise (BadExtension ".").
Proof.
  intros Hdot. unfold parse_one_format.
  change (split_format_name "") with ("", @None string).
  cbn beta iota. change (startswith "." "") with false. cbn iota.
  change ("." ++ "") with ".". rewrite Hdot. reflexivity.
Qed.

Lemma mapM_bad_extension (parts : list string) :
  str_in "." (NOTEBOOK_EXTENSIONS ++ [".auto"]) = false ->
  In EmptyString parts ->
  exists ext, mapM parse_one_format parts = Raise (BadExtension ext).
Proof.
  intros Hdot. induction parts as [|p parts IH]; [contradiction|].
  intros Hin. cbn [mapM].
  pose proof (parse_one_format_result p) as Hp.
  destruct (parse_one_format p) as [[ext name]|e] eqn:E.
  - cbn [bind]. destruct Hin as [->|Hin].
    + rewrite (parse_one_format_empty Hdot) in E. discriminate E.
    + destruct (IH Hin) as [ext' ->]. cbn [bind]. eauto.
  - cbn [bind]. destruct Hp as [ext [-> _]]. eauto.
Qed.

(** X9.  An empty entry in a list of formats -- a comma at an end of the
    text, or two commas in a row -- is not skipped by [parse_formats]: the
    parse raises the error of the bad extension (the lone dot is no notebook
    extension). *)
Theorem parse_formats_empty_entry (text : string) :
  str_in "." (NOTEBOOK_EXTENSIONS ++ [".auto"]) = false ->
  text <> EmptyString ->
  In EmptyString (split "," text) ->
  exists ext, parse_formats (VStr text) = Raise (BadExtension ext).
Proof.
  intros Hdot Hne Hin. unfold parse_formats. cbn [truthy].
  destruct (String.eqb_spec text ""); [contradiction|]. cbn [negb].
  apply mapM_bad_extension; assumption.
Qed.

(** ** Further properties of the formats-list updater *)

Lemma filter_filter_other (ext : string) (formats : list (string * option string)) :
  filter (fun f => negb (String.eqb (fst f) ext))
    (filter (fun f => negb (String.eqb (fst f) ext)) formats)
  = filter (fun f => negb (String.eqb (fst f) ext)) formats.
Proof.
  induction formats as [|f formats IH]; simpl; [reflexivity|].
  destruct (negb (String.eqb (fst f) ext)) eqn:E; simpl; [rewrite E|];
    rewrite IH; reflexivity.
Qed.

(** X10.  Updating the list twice for the same extension is updating it once,
    with the last format name. *)
Theorem update_formats_twice (formats : list (string * option string))
    (ext : string) (name name' : option string) :
  update_formats (update_formats formats ext name) ext name'
  = update_formats formats ext name'.
Proof.
  unfold update_formats.
  induction formats as [|[e n] formats IH]; simpl; [reflexivity|].
  destruct (String.eqb_spec e ext) as [->|E]; simpl.
  - rewrite String.eqb_refl. simpl.
    rewrite !update_formats_from_found, filter_filter_other. reflexivity.
  - destruct (String.eqb_spec e ext); [contradiction|]. simpl.
    rewrite IH. reflexivity.
Qed.

Lemma update_formats_from_other (found : bool) (formats : list (string * option string))
    (ext : string) (name : option string) :
  filter (fun f => negb (String.eqb (fst f) ext))
    (update_formats_from found formats ext name)
  = filter (fun f => negb (String.eqb (fst f) ext)) formats.
Proof.
  revert found. induction formats as [|[e n] formats IH]; intros found; simpl;
    [reflexivity|].
  destruct (String.eqb e ext) eqn:E; simpl.
  - destruct found; simpl.
    + apply IH.
    + rewrite String.eqb_refl. simpl. apply IH.
  - rewrite E. simpl. rewrite IH. reflexivity.
Qed.

Lemma update_formats_from_entries (found : bool) (formats : list (string * option string))
    (ext : string) (name : option string) :
  filter (fun f => String.eqb (fst f) ext) (update_formats_from found formats ext name)
  = if negb found && existsb (fun f => String.eqb (fst f) ext) formats
    then [(ext, name)] else [].
Proof.
  revert found. induction formats as [|[e n] formats IH]; intros found; simpl.
  - rewrite andb_false_r. reflexivity.
  - destruct (String.eqb e ext) eqn:E; simpl.
    + destruct found; simpl.
      * apply IH.
      * rewrite String.eqb_refl. rewrite IH. reflexivity.
    + rewrite E. apply IH.
Qed.

(** The updater touches the entries of its extension only: the entries of
    the other extensions stay as they are, in their order, and of the
    extension there is one entry afterwards, with the new name, when there
    was one or more, and none when there was none. *)
Lemma update_formats_entries (formats : list (string * option string))
    (ext : string) (name : option string) :
  filter (fun f => negb (String.eqb (fst f) ext)) (update_formats formats ext name)
  = filter (fun f => negb (String.eqb (fst f) ext)) formats
  /\ filter (fun f => String.eqb (fst f) ext) (update_formats formats ext name)
     = if existsb (fun f => String.eqb (fst f) ext) formats
       then [(ext, name)] else [].
Proof.
  split.
  - apply update_formats_from_other.
  - apply update_formats_from_entries.
Qed.

Lemma update_formats_from_commute (found1 found2 : bool)
    (formats : list (string * option string))
    (ext1 ext2 : string) (name1 name2 : option string) :
  ext1 <> ext2 ->
  update_formats_from found2 (update_formats_from found1 formats ext1 name1) ext2 name2
  = update_formats_from found1 (update_formats_from found2 formats ext2 name2) ext1 name1.
Proof.
  intros Hne. revert found1 found2.
  induction formats as [|[e n] formats IH]; intros found1 found2; simpl;
    [reflexivity|].
  destruct (String.eqb_spec e ext1) as [E1|E1];
    destruct (String.eqb_spec e ext2) as [E2|E2]; simpl.
  - congruence.
  - subst e. destruct found1; simpl.
    + destruct (String.eqb_spec ext1 ext2); [contradiction|]. simpl.
      rewrite String.eqb_refl. simpl. apply IH.
    + destruct (String.eqb_spec ext1 ext2); [contradiction|]. simpl.
      rewrite String.eqb_refl. simpl. rewrite IH. reflexivity.
  - subst e. destruct found2; simpl.
    + destruct (String.eqb_spec ext2 ext1); [congruence|]. simpl.
      rewrite String.eqb_refl. simpl. apply IH.
    + destruct (String.eqb_spec ext2 ext1); [congruence|]. simpl.
      rewrite String.eqb_refl. simpl. rewrite IH. reflexivity.
  - destruct (String.eqb_spec e ext2); [contradiction|].
    destruct (String.eqb_spec e ext1); [contradiction|]. simpl.
    rewrite IH. reflexivity.
Qed.

(** X11.  Updates for two different extensions can be made in either
    order. *)
Theorem update_formats_commute (formats : list (string * option string))
    (ext1 ext2 : string) (name1 name2 : option string) :
  ext1 <> ext2 ->
  update_formats (update_formats formats ext1 name1) ext2 name2
  = update_formats (update_formats formats ext2 name2) ext1 name1.
Proof. apply update_formats_from_commute. Qed.

(** ** Further properties of the resolver and of the recorded formats *)

Lemma parse_formats_falsy (formats : value) :
  truthy formats = false -> parse_formats formats = Ok [].
Proof. intros H. unfold parse_formats. rewrite H. reflexivity. Qed.

(** X12.  Recording a format in the metadata leaves every entry but
    'jupytext' as it is, and without a list of formats in the metadata it
    leaves the metadata as they are: nothing is recorded. *)
Theorem update_jupytext_formats_metadata_frame (metadata : dict) (ext : string)
    (name : option string) :
  (forall formats,
      value_get (get_default "jupytext" (VDict []) metadata) "formats" (VStr "")
        = Ok formats ->
      truthy formats = false ->
      update_jupytext_formats_metadata metadata ext name = Ok metadata)
  /\ (forall metadata' key,
        update_jupytext_formats_metadata metadata ext name = Ok metadata' ->
        key <> "jupytext" ->
        dict_get key metadata' = dict_get key metadata).
Proof.
  unfold update_jupytext_formats_metadata. split.
  - intros formats -> Hfalsy. cbn [bind].
    rewrite (parse_formats_falsy _ Hfalsy). reflexivity.
  - intros metadata' key.
    destruct (value_get _ "formats" (VStr "")) as [formats|]; [|discriminate].
    cbn [bind]. destruct (parse_formats formats) as [l|]; [|discriminate].
    cbn [bind]. destruct (update_formats l ext name) as [|f l'].
    + intros H Hk. injection H as <-. reflexivity.
    + destruct (dict_get "jupytext" metadata) as [j|].
      * destruct (value_setitem j "formats" _) as [j'|]; [|discriminate].
        cbn [bind]. intros H Hk. injection H as <-.
        apply dict_get_set_other. exact Hk.
      * intros H Hk. injection H as <-. apply dict_get_set_other. exact Hk.
Qed.

Lemma JUPYTEXT_FORMATS_names (fmt : NotebookFormatDescription) :
  In fmt JUPYTEXT_FORMATS -> truthy (VStr (format_name fmt)) = true.
Proof.
  intros H. apply In_JUPYTEXT_FORMATS in H.
  destruct H as [->|[->|[[e [_ ->]]|[[e [_ ->]]|[[e [_ ->]]|[[e [_ ->]]| -> ]]]]]];
    reflexivity.
Qed.

Lemma format_name_in_explicit (formats : list (string * option string)) (ext : string)
    (auto_ext name : value) :
  format_name_in formats ext auto_ext true = Ok (Some name) -> truthy name = true.
Proof.
  induction formats as [|[fmt_ext n] formats IH]; cbn [format_name_in];
    [discriminate|].
  match goal with |- bind ?c _ = _ -> _ => destruct c as [same|]; [|discriminate] end.
  cbn [bind negb orb].
  destruct (same && truthy (name_value n)) eqn:E.
  - intros H. injection H as <-. apply andb_prop in E. destruct E as [_ E]. exact E.
  - exact IH.
Qed.

(** X13.  With [explicit_default], the resolver names a format for every
    extension but '.md' and '.Rmd': what it returns is never None nor an
    empty name. *)
Theorem format_name_for_ext_explicit (metadata : dict) (ext : string)
    (cm_default_formats name : value) :
  str_in ext [".Rmd"; ".md"] = false ->
  format_name_for_ext metadata ext cm_default_formats true = Ok name ->
  truthy name = true.
Proof.
  intros Hmarkup. unfold format_name_for_ext.
  destruct (value_get _ "text_representation" VNone) as [text_repr|]; [|discriminate].
  cbn [bind].
  match goal with |- bind ?c _ = _ -> _ => destruct c as [declared|]; [|discriminate] end.
  cbn [bind]. destruct (truthy declared) eqn:Hd.
  - intros H. injection H as <-. exact Hd.
  - destruct (auto_ext_from_metadata metadata) as [auto_ext|]; [|discriminate].
    cbn [bind].
    destruct (value_get _ "formats" (VStr "")) as [formats|]; [|discriminate].
    cbn [bind].
    destruct (parse_formats _) as [l|]; [|discriminate]. cbn [bind].
    destruct (format_name_in l ext auto_ext true) as [[found|]|] eqn:Hin;
      [| |discriminate]; cbn [bind].
    + intros H. injection H as <-. apply format_name_in_explicit in Hin. exact Hin.
    + rewrite Hmarkup. cbn [negb orb].
      unfold get_format_implementation.
      destruct (endswith ".ipynb" _); cbn [bind]; [discriminate|].
      destruct (find_format _ _ VNone []) as [[fmt|]|] eqn:Hf; cbn [bind];
        try discriminate.
      intros H. injection H as <-. apply find_format_sound in Hf.
      apply JUPYTEXT_FORMATS_names. destruct Hf as [Hf _]. exact Hf.
Qed.

(** ** Further properties of the metadata rearrangement *)




Lemma rename_key_get_other (k key new_key : string) (m : dict) :
  k <> key -> k <> new_key ->
  dict_get k (rename_key key new_key m) = dict_get k m.
Proof.
  intros H1 H2. unfold rename_key. destruct (dict_get key m); [|reflexivity].
  rewrite dict_get_set_other, dict_get_remove_other by assumption. reflexivity.
Qed.

(** What [fold_key] does to the jupytext metadata. *)
Lemma fold_key_jupytext (key new_key : string) (wrap : value -> value)
    (m m' : dict) (j j' : value) :
  fold_key key new_key wrap (m, j) = Ok (m', j') ->
  match dict_get key m with
  | Some v => exists d, j = VDict d /\ j' = VDict (dict_set new_key (wrap v) d)
  | None => j' = j
  end.
Proof.
  unfold fold_key. destruct (dict_get key m) as [v|].
  - destruct j; cbn [value_setitem bind]; try discriminate.
    intros H. injection H as _ <-. eauto.
  - intros H. injection H as _ <-. reflexivity.
Qed.

(** A key of the jupytext metadata that the later steps do not write. *)
Lemma fold_key_keeps (k key new_key : string) (wrap : value -> value)
    (m m' : dict) (d : dict) (j' : value) (v : value) :
  k <> new_key ->
  dict_get k d = Some v ->
  fold_key key new_key wrap (m, VDict d) = Ok (m', j') ->
  exists d', j' = VDict d' /\ dict_get k d' = Some v.
Proof.
  intros Hk Hv H. apply fold_key_jupytext in H.
  destruct (dict_get key m) as [w|].
  - destruct H as [d0 [E ->]]. injection E as <-. eexists. split; [reflexivity|].
    rewrite dict_get_set_other by exact Hk. exact Hv.
  - subst j'. eauto.
Qed.

Lemma fold_filter_keeps (k key new_key : string) (filters : value) (j j' : dict)
    (v : value) :
  k <> new_key -> dict_get k j = Some v ->
  fold_filter key new_key filters j = Ok j' -> dict_get k j' = Some v.
Proof.
  intros Hk Hv E. destruct (fold_filter_ok _ _ _ _ _ E) as [->|[w ->]]; [exact Hv|].
  rewrite dict_get_set_other by exact Hk. exact Hv.
Qed.

Lemma flatten_level_keeps (k filter_level : string) (j j' : dict) (v : value) :
  k <> filter_level -> dict_get k j = Some v ->
  flatten_level filter_level j = Ok j' -> dict_get k j' = Some v.
Proof.
  intros Hk Hv E. destruct (flatten_level_ok _ _ _ E) as [[-> _]|[text ->]];
    [exact Hv|].
  rewrite dict_get_set_other by exact Hk. exact Hv.
Qed.

(** X15.  The rearrangement leaves the other entries of the metadata alone:
    an entry whose key is neither 'jupytext' nor one of the keys of the old
    layouts is the same before and after. *)
Theorem rearrange_jupytext_metadata_other_keys (metadata metadata' : dict)
    (key : string) :
  rearrange_jupytext_metadata metadata = Ok metadata' ->
  key <> "jupytext" -> ~ In key legacy_keys ->
  dict_get key metadata' = dict_get key metadata.
Proof.
  unfold rearrange_jupytext_metadata. intros H Hj Hlegacy.
  assert (Hk : forall k, In k legacy_keys -> key <> k).
  { intros k Hin ->. contradiction. }
  unfold legacy_keys in Hk. cbn [In] in Hk.
  revert H. cbn [fold_left].
  change (replace "nbrmd" "jupytext" "nbrmd_formats") with "jupytext_formats".
  change (replace "nbrmd" "jupytext" "nbrmd_format_version")
    with "jupytext_format_version".
  set (m1 := rename_key "nbrmd_format_version" _ _).
  assert (Hm1 : dict_get key m1 = dict_get key metadata).
  { unfold m1. rewrite !rename_key_get_other by (apply Hk; auto 10). reflexivity. }
  bind_ok E1. destruct a as [m2 j2].
  bind_ok E2. destruct a as [m3 j3].
  bind_ok E3. destruct a as [m4 j4].
  bind_ok E4. destruct a as [m5 j5].
  bind_ok E5. destruct a as [m6 j6].
  bind_ok E6. destruct a as [filters k0].
  bind_ok E7. bind_ok E8. bind_ok E9. bind_ok E10.
  apply fold_key_ok in E1, E2, E3, E4, E5. subst m2 m3 m4 m5 m6.
  assert (Hrest :
    dict_get key
      (dict_remove "executable"
         (dict_remove "encoding"
            (dict_remove "main_language"
               (dict_remove "jupytext_format_version"
                  (dict_remove "jupytext_formats" (dict_remove "jupytext" m1))))))
    = dict_get key metadata).
  { rewrite !dict_get_remove_other by first [exact Hj | apply Hk; auto 10].
    exact Hm1. }
  destruct (truthy (VDict a2)); intros H; injection H as <-.
  - rewrite dict_get_set_other by exact Hj. exact Hrest.
  - exact Hrest.
Qed.

Ltac other_key Hkey :=
  let K := fresh "K" in
  cbn [In] in Hkey; destruct Hkey as [K|[K|[K|[K|[]]]]];
  injection K as <- <-; discriminate.

(** X16.  The rearrangement carries the values of the old flat keys over to
    the jupytext metadata: 'jupytext_formats' to 'formats', and the main
    language, the encoding and the executable under their own names
    (metadata without the older 'nbrmd' keys). *)
Theorem rearrange_jupytext_metadata_folds (metadata metadata' : dict)
    (key new_key : string) (v : value) :
  In (key, new_key)
     [("jupytext_formats", "formats"); ("main_language", "main_language");
      ("encoding", "encoding"); ("executable", "executable")] ->
  lacks "nbrmd_formats" metadata -> lacks "nbrmd_format_version" metadata ->
  dict_get key metadata = Some v ->
  rearrange_jupytext_metadata metadata = Ok metadata' ->
  exists jupytext,
    dict_get "jupytext" metadata' = Some (VDict jupytext)
    /\ dict_get new_key jupytext = Some v.
Proof.
  intros Hkey N1 N2 Hv. unfold rearrange_jupytext_metadata. cbn [fold_left].
  change (replace "nbrmd" "jupytext" "nbrmd_formats") with "jupytext_formats".
  change (replace "nbrmd" "jupytext" "nbrmd_format_version")
    with "jupytext_format_version".
  unfold rename_key at 2. rewrite N1. unfold rename_key. rewrite N2.
  bind_ok E1. destruct a as [m2 j2].
  bind_ok E2. destruct a as [m3 j3].
  bind_ok E3. destruct a as [m4 j4].
  bind_ok E4. destruct a as [m5 j5].
  bind_ok E5. destruct a as [m6 j6].
  bind_ok E6. destruct a as [filters k0].
  bind_ok E7. bind_ok E8. bind_ok E9. bind_ok E10.
  pose proof (fold_key_ok _ _ _ _ _ _ _ E1) as M2.
  pose proof (fold_key_ok _ _ _ _ _ _ _ E2) as M3.
  pose proof (fold_key_ok _ _ _ _ _ _ _ E3) as M4.
  pose proof (fold_key_ok _ _ _ _ _ _ _ E4) as M5.
  pose proof (fold_key_ok _ _ _ _ _ _ _ E5) as M6.
  assert (Hfinal : dict_get new_key a2 = Some v).
  { apply flatten_level_keeps with (3 := E10);
      [other_key Hkey|].
    apply flatten_level_keeps with (3 := E9);
      [other_key Hkey|].
    apply fold_filter_keeps with (3 := E8);
      [other_key Hkey|].
    apply fold_filter_keeps with (3 := E7);
      [other_key Hkey|].
    apply value_pop_ok in E6. destruct E6 as [d [-> ->]].
    rewrite dict_get_remove_other by (other_key Hkey).
    cbn [In] in Hkey.
    destruct Hkey as [K|[K|[K|[K|[]]]]]; injection K as <- <-.
    - (* formats: written by the first step *)
      apply fold_key_jupytext in E1.
      rewrite dict_get_remove_other, Hv in E1 by discriminate.
      destruct E1 as [d1 [_ ->]].
      destruct (fold_key_keeps "formats" _ "text_representation" _ _ _ _ _ _ ltac:(discriminate)
                  (dict_get_set_same _ _ _) E2) as [d2 [-> H2]].
      destruct (fold_key_keeps "formats" _ "main_language" _ _ _ _ _ _ ltac:(discriminate)
                  H2 E3) as [d3 [-> H3]].
      destruct (fold_key_keeps "formats" _ "encoding" _ _ _ _ _ _ ltac:(discriminate)
                  H3 E4) as [d4 [-> H4]].
      destruct (fold_key_keeps "formats" _ "executable" _ _ _ _ _ _ ltac:(discriminate)
                  H4 E5) as [d5 [E H5]].
      injection E as <-. exact H5.
    - (* main_language: written by the third step *)
      apply fold_key_jupytext in E3. subst m2 m3.
      rewrite !dict_get_remove_other, Hv in E3 by discriminate.
      destruct E3 as [d3 [_ ->]].
      destruct (fold_key_keeps "main_language" _ "encoding" _ _ _ _ _ _ ltac:(discriminate)
                  (dict_get_set_same _ _ _) E4) as [d4 [-> H4]].
      destruct (fold_key_keeps "main_language" _ "executable" _ _ _ _ _ _ ltac:(discriminate)
                  H4 E5) as [d5 [E H5]].
      injection E as <-. exact H5.
    - (* encoding: written by the fourth step *)
      apply fold_key_jupytext in E4. subst m2 m3 m4.
      rewrite !dict_get_remove_other, Hv in E4 by discriminate.
      destruct E4 as [d4 [_ ->]].
      destruct (fold_key_keeps "encoding" _ "executable" _ _ _ _ _ _ ltac:(discriminate)
                  (dict_get_set_same _ _ _) E5) as [d5 [E H5]].
      injection E as <-. exact H5.
    - (* executable: written by the last step *)
      apply fold_key_jupytext in E5. subst m2 m3 m4 m5.
      rewrite !dict_get_remove_other, Hv in E5 by discriminate.
      destruct E5 as [d5 [_ E]]. injection E as ->.
      apply dict_get_set_same. }
  rewrite (dict_get_some_truthy _ _ _ Hfinal).
  intros H. injection H as <-. exists a2. split; [|exact Hfinal].
  apply dict_get_set_same.
Qed.

(** ** Further properties of the long form of the formats *)

Lemma mapM_unit_ok {A : Type} (f : A -> result unit) (l : list A) :
  (exists us, mapM f l = Ok us) <-> Forall (fun x => f x = Ok tt) l.
Proof.
  induction l as [|a l IH]; cbn [mapM].
  - split; [constructor|eauto].
  - split.
    + intros [us H]. destruct (f a) as [[]|] eqn:Ea; [|discriminate].
      cbn [bind] in H.
      destruct (mapM f l) as [us'|]; [|discriminate].
      constructor; [exact Ea|]. apply IH. eauto.
    + intros H. inversion H as [|? ? Ha Hl]; subst. rewrite Ha. cbn [bind].
      apply IH in Hl. destruct Hl as [us ->]. cbn [bind]. eauto.
Qed.

Lemma validate_option_ok (d : dict) (key : string) :
  In key (map fst d) ->
  validate_option d key = Ok tt <-> invalid_option d key = false.
Proof.
  intros Hin. unfold invalid_option, validate_option, value_getitem.
  destruct (dict_get_in _ _ Hin) as [v ->].
  destruct (str_in key _VALID_FORMAT_OPTIONS),
    (str_in key _BINARY_FORMAT_OPTIONS), v; cbn [negb bind orb];
    split; intros H; first [reflexivity | discriminate H].
Qed.

Lemma dict_get_some_in (key : string) (v : value) (d : dict) :
  dict_get key d = Some v -> In key (map fst d).
Proof.
  induction d as [|[k w] d IH]; simpl; [discriminate|].
  destruct (String.eqb_spec k key); [left; assumption|].
  intros H. right. apply IH. exact H.
Qed.

Lemma str_in_str_eq (ext : string) (l : list string) :
  existsb (fun e => str_eq e (VStr ext)) l = str_in ext l.
Proof.
  unfold str_in. induction l as [|e l IH]; [reflexivity|].
  cbn [existsb]. rewrite IH. cbn [str_eq]. rewrite String.eqb_sym. reflexivity.
Qed.

Lemma validate_one_format_valid_iff (fmt : value) :
  validate_one_format fmt = Ok tt <-> valid_format fmt = true.
Proof.
  destruct fmt as [| | | | |d]; try (split; discriminate).
  unfold validate_one_format, valid_format.
  assert (Hopts :
    (exists us, mapM (validate_option d) (map fst d) = Ok us)
    <-> forallb (fun key => negb (invalid_option d key)) (map fst d) = true).
  { rewrite mapM_unit_ok, forallb_forall, Forall_forall.
    split; intros H key Hin; specialize (H key Hin).
    - apply negb_true_iff. apply validate_option_ok; assumption.
    - apply negb_true_iff in H. apply validate_option_ok; assumption. }
  destruct (mapM (validate_option d) (map fst d)) as [us|e] eqn:Em; cbn [bind].
  - assert (Hall : forallb (fun key => negb (invalid_option d key)) (map fst d) = true)
      by (apply Hopts; eauto).
    rewrite Hall. cbn [andb].
    destruct (dict_get "extension" d) as [ext|] eqn:Eext; [|split; discriminate].
    assert (Hin : In "extension" (map fst d))
      by (apply dict_get_some_in with ext; exact Eext).
    rewrite forallb_forall in Hall. specialize (Hall _ Hin).
    unfold invalid_option in Hall. rewrite Eext in Hall.
    destruct ext; try discriminate Hall.
    rewrite str_in_str_eq.
    destruct (str_in s (NOTEBOOK_EXTENSIONS ++ [".auto"])); split;
      first [reflexivity | discriminate].
  - split; [discriminate|]. intros H. apply andb_prop in H. destruct H as [H _].
    apply Hopts in H. destruct H as [us H]. discriminate H.
Qed.

(** X17.  The validation accepts a format exactly when it is a dict whose
    keys are all format options with values of the right types (a bool for
    the two binary options, a string for the others) and whose extension is a
    notebook extension or '.auto'. *)
Theorem validate_one_format_valid (fmt : value) :
  validate_one_format fmt = Ok tt <-> valid_format fmt = true.
Proof. apply validate_one_format_valid_iff. Qed.

Lemma mapM_validate_valid (formats : list value) (us : list unit) :
  mapM validate_one_format formats = Ok us ->
  Forall (fun fmt => valid_format fmt = true) formats.
Proof.
  intros H. assert (Hex : exists us, mapM validate_one_format formats = Ok us)
    by eauto.
  apply mapM_unit_ok in Hex. apply Forall_impl with (2 := Hex).
  intros fmt. apply validate_one_format_valid_iff.
Qed.

Lemma long_form_multiple_formats_ok (jupytext_formats : value) (formats : list value) :
  long_form_multiple_formats jupytext_formats = Ok formats ->
  Forall (fun fmt => valid_format fmt = true) formats.
Proof.
  unfold long_form_multiple_formats.
  destruct (truthy jupytext_formats); cbn [negb].
  - match goal with |- bind ?c _ = _ -> _ => destruct c as [items|]; [|discriminate] end.
    cbn [bind].
    destruct (mapM validate_one_format (map long_form_one_format items)) as [us|]
      eqn:E; [|discriminate].
    cbn [bind]. intros H. injection H as <-.
    apply mapM_validate_valid with us. exact E.
  - intros H. injection H as <-. constructor.
Qed.

(** X18.  What [long_form_multiple_formats] returns are valid formats: each
    one a dict of valid options with a notebook extension or '.auto'. *)
Theorem long_form_multiple_formats_valid (jupytext_formats : value)
    (formats : list value) :
  long_form_multiple_formats jupytext_formats = Ok formats ->
  Forall (fun fmt => valid_format fmt = true) formats.
Proof. apply long_form_multiple_formats_ok. Qed.

Lemma valid_format_long_form (fmt : value) :
  valid_format fmt = true -> long_form_one_format fmt = fmt.
Proof. destruct fmt; try discriminate. reflexivity. Qed.

(** X19.  The long form of a list of formats in their long form is the list
    itself: converting twice is converting once. *)
Theorem long_form_multiple_formats_idempotent (jupytext_formats : value)
    (formats : list value) :
  long_form_multiple_formats jupytext_formats = Ok formats ->
  long_form_multiple_formats (VList formats) = Ok formats.
Proof.
  intros H. apply long_form_multiple_formats_ok in H.
  unfold long_form_multiple_formats.
  destruct formats as [|fmt formats]; [reflexivity|].
  cbn [truthy negb iterate bind].
  assert (Hmap : map long_form_one_format (fmt :: formats) = fmt :: formats).
  { clear - H. induction H as [|f l Hf _ IH]; [reflexivity|].
    cbn [map]. rewrite (valid_format_long_form _ Hf), IH. reflexivity. }
  rewrite Hmap.
  assert (Hok : exists us, mapM validate_one_format (fmt :: formats) = Ok us).
  { apply mapM_unit_ok. apply Forall_impl with (2 := H).
    intros f. apply validate_one_format_valid_iff. }
  destruct Hok as [us ->]. reflexivity.
Qed.

Lemma split_sep_first (sep : ascii) (s : string) :
  split sep (String sep s) = EmptyString :: split sep s.
Proof. cbn [split]. rewrite Ascii.eqb_refl. reflexivity. Qed.

Lemma app_not_empty (a : string) (c : ascii) (b : string) :
  String.eqb (a ++ String c b) "" = false.
Proof. destruct a; reflexivity. Qed.

(** X20.  In a text of formats the empty entries are skipped by
    [long_form_multiple_formats]: two commas in a row count as one, and a
    comma at the end of the text as none. *)
Theorem long_form_multiple_formats_empty_entries (a b : string) :
  long_form_multiple_formats (VStr (a ++ String "," (String "," b)))
  = long_form_multiple_formats (VStr (a ++ String "," b))
  /\ (a <> EmptyString ->
      long_form_multiple_formats (VStr (a ++ ","))
      = long_form_multiple_formats (VStr a)).
Proof.
  unfold long_form_multiple_formats. cbn [truthy]. split.
  - rewrite !app_not_empty. cbn [negb bind].
    rewrite !split_app_sep, split_sep_first, !filter_app. reflexivity.
  - intros Ha. rewrite app_not_empty.
    destruct (String.eqb_spec a ""); [contradiction|]. cbn [negb bind].
    change (a ++ ",") with (a ++ String "," "").
    rewrite split_app_sep, filter_app. cbn [split filter String.eqb negb].
    rewrite app_nil_r. reflexivity.
Qed.

Lemma rfind_from_without (c : ascii) (s : string) (i acc : Z) :
  has_char c s = false -> rfind_from c s i acc = acc.
Proof.
  revert i acc. induction s as [|a s IH]; intros i acc; simpl; [reflexivity|].
  intros H. apply orb_false_elim in H. destruct H as [Ha Hs].
  rewrite Ha. apply IH. exact Hs.
Qed.

Lemma rfind_from_with (c : ascii) (s : string) (i acc : Z) :
  has_char c s = true -> (i <= rfind_from c s i acc)%Z.
Proof.
  revert i acc. induction s as [|a s IH]; intros i acc; simpl; [discriminate|].
  destruct (Ascii.eqb a c); simpl.
  - intros _. destruct (has_char c s) eqn:E.
    + specialize (IH (i + 1)%Z i eq_refl). lia.
    + rewrite rfind_from_without by exact E. lia.
  - intros H. specialize (IH (i + 1)%Z acc H). lia.
Qed.

(** The extension of a specifier has no dot after its first character when
    the extension with its dot in front has none. *)
Lemma rfind_dotted (e : string) :
  (0 <? rfind "." (if startswith "." e then e else "." ++ e))%Z = false ->
  (0 <? rfind "." e)%Z = false.
Proof.
  destruct (startswith "." e); [intros H; exact H|].
  unfold rfind. cbn [append rfind_from]. change (Ascii.eqb "." ".") with true.
  cbn iota. intros H. destruct (has_char "." e) eqn:E.
  - pose proof (rfind_from_with "." e (0 + 1) 0 E). apply Z.ltb_ge in H. lia.
  - rewrite rfind_from_without by exact E. reflexivity.
Qed.

(** X21.  The long form of a text is a dict of well-typed options, whatever
    the text: the validation can only refuse its extension. *)
Theorem long_form_one_format_of_text (text : string) :
  validate_one_format (long_form_one_format (VStr text)) = Ok tt
  \/ exists ext,
       validate_one_format (long_form_one_format (VStr text))
       = Raise (JupytextFormatError (NotANotebookExtension (VStr ext))).
Proof.
  unfold long_form_one_format.
  destruct (split_format_name text) as [e [n|]];
    destruct (0 <? rfind "." e)%Z;
    cbn [dict_set String.eqb Ascii.eqb Bool.eqb fst snd];
    unfold validate_one_format;
    cbn [map fst mapM validate_option str_in existsb String.eqb Ascii.eqb Bool.eqb
         _VALID_FORMAT_OPTIONS _BINARY_FORMAT_OPTIONS negb orb value_getitem
         dict_get bind];
    match goal with
    | |- context [if ?b then Ok tt else _] => destruct b; eauto
    end.
Qed.

(** X22.  The two parsers agree on a specifier without prefix: when
    [parse_one_format] returns an extension with no dot but the first and a
    format name, the long form of the specifier is the dict of that extension
    and that name, and the validation accepts it. *)
Theorem long_form_one_format_agrees (text ext : string) (name : option string) :
  parse_one_format text = Ok (ext, name) ->
  (0 <? rfind "." ext)%Z = false ->
  long_form_one_format (VStr text) = plain_long_form ext name
  /\ valid_format (plain_long_form ext name) = true.
Proof.
  unfold parse_one_format, long_form_one_format.
  destruct (split_format_name text) as [e n].
  set (ext0 := if startswith "." e then e else "." ++ e).
  destruct (str_in ext0 (NOTEBOOK_EXTENSIONS ++ [".auto"])) eqn:Hreg.
  - intros H Hdot. injection H as <- <-.
    pose proof (rfind_dotted e Hdot) as He.
    unfold plain_long_form, valid_format.
    destruct n as [n|]; cbn beta iota zeta; rewrite He; fold ext0;
      cbn [dict_set String.eqb Ascii.eqb Bool.eqb app map fst forallb
           invalid_option str_in existsb _VALID_FORMAT_OPTIONS
           _BINARY_FORMAT_OPTIONS negb orb andb dict_get];
      rewrite Hreg; split; reflexivity.
  - destruct (0 <? rfind "." ext0)%Z eqn:Hr; cbn [andb].
    + destruct (splitext ext0) as [pre short_ext].
      destruct (_ && _); [|discriminate].
      intros H Hdot. injection H as <- <-. congruence.
    + discriminate.
Qed.

(** ** Properties of the resolution of the '.auto' extension *)

Lemma valid_format_extension (fmt : value) :
  valid_format fmt = true ->
  exists d ext, fmt = VDict d /\ dict_get "extension" d = Some (VStr ext).
Proof.
  destruct fmt as [| | | | |d]; try discriminate. cbn [valid_format].
  intros H. apply andb_prop in H. destruct H as [_ H].
  destruct (dict_get "extension" d) as [[| | |ext| |]|] eqn:E; try discriminate H.
  exists d, ext. auto.
Qed.

Lemma replace_auto_ext_valid (ext : value) (formats : list value) :
  Forall (fun fmt => valid_format fmt = true) formats ->
  replace_auto_ext ext formats
  = if existsb is_auto formats && negb (truthy ext) then NoKernelInformation
    else Resolved (map (with_auto_ext ext) formats).
Proof.
  induction 1 as [|fmt formats Hfmt _ IH]; cbn [replace_auto_ext existsb map].
  - reflexivity.
  - destruct (valid_format_extension _ Hfmt) as [d [e [-> He]]].
    cbn [value_getitem with_auto_ext is_auto]. rewrite He. rewrite IH.
    cbn [str_eq]. destruct (String.eqb ".auto" e); cbn [orb andb].
    + destruct (truthy ext); cbn [negb value_setitem].
      * rewrite andb_false_r. reflexivity.
      * reflexivity.
    + destruct (existsb is_auto formats && negb (truthy ext)); reflexivity.
Qed.

(** X23.  Once the formats are in their long form and the extension of the
    kernel is read from the metadata, [set_auto_ext] puts that extension in
    the place of every '.auto' and leaves the other formats as they are; it
    raises its error when there is an '.auto' format and no extension of the
    kernel, and only then. *)
Theorem set_auto_ext_resolves (jupytext_formats : value) (metadata : dict)
    (formats : list value) (ext : value) :
  long_form_multiple_formats jupytext_formats = Ok formats ->
  auto_ext_from_metadata metadata = Ok ext ->
  set_auto_ext jupytext_formats metadata
  = if existsb is_auto formats && negb (truthy ext) then NoKernelInformation
    else Resolved (map (with_auto_ext ext) formats).
Proof.
  intros Hlong Hext. unfold set_auto_ext. rewrite Hlong, Hext.
  apply replace_auto_ext_valid. apply long_form_multiple_formats_ok with (1 := Hlong).
Qed.

(** ** Properties of [identical_format_path] *)

(** X24.  Two formats go to the same file whatever their other options are:
    the answer of [identical_format_path] does not change when an option
    other than the extension, the prefix and the suffix is set in one of
    them. *)
Theorem identical_format_path_other_options (fmt : dict) (other : value)
    (key : string) (v : value) :
  ~ In key ["extension"; "prefix"; "suffix"] ->
  identical_format_path (VDict (dict_set key v fmt)) other
  = identical_format_path (VDict fmt) other
  /\ identical_format_path other (VDict (dict_set key v fmt))
     = identical_format_path other (VDict fmt).
Proof.
  intros Hkey. unfold identical_format_path. cbn [fold_left value_get bind].
  rewrite !get_default_set_other by (intros <-; apply Hkey; cbn [In]; auto).
  split; reflexivity.
Qed.

Lemma value_eqb_text_entries (o1 o2 : option value) :
  text_entry o1 = true -> text_entry o2 = true ->
  value_eqb match o1 with Some v => v | None => VNone end
            match o2 with Some v => v | None => VNone end = true
  <-> o1 = o2.
Proof.
  destruct o1 as [[]|], o2 as [[]|]; try discriminate; intros _ _;
    cbn [value_eqb]; try (split; [discriminate|congruence]);
    try (split; reflexivity).
  rewrite String.eqb_eq. split; congruence.
Qed.

(** X25.  For two formats whose extension, prefix and suffix are strings or
    missing, as the validation has them, [identical_format_path] tells
    whether the three are the same in both. *)
Theorem identical_format_path_same_path (fmt1 fmt2 : dict) :
  forallb text_entry (format_path fmt1) = true ->
  forallb text_entry (format_path fmt2) = true ->
  exists same,
    identical_format_path (VDict fmt1) (VDict fmt2) = Ok same
    /\ (same = true <-> format_path fmt1 = format_path fmt2).
Proof.
  unfold format_path. cbn [map forallb]. rewrite !andb_true_r.
  intros H1 H2.
  apply andb_prop in H1. destruct H1 as [He1 H1].
  apply andb_prop in H1. destruct H1 as [Hp1 Hs1].
  apply andb_prop in H2. destruct H2 as [He2 H2].
  apply andb_prop in H2. destruct H2 as [Hp2 Hs2].
  pose proof (value_eqb_text_entries _ _ He1 He2) as Ee.
  pose proof (value_eqb_text_entries _ _ Hp1 Hp2) as Ep.
  pose proof (value_eqb_text_entries _ _ Hs1 Hs2) as Es.
  unfold identical_format_path. cbn [fold_left value_get bind]. unfold get_default.
  destruct (value_eqb _ _) eqn:B1 in Ee |- *; cbn [bind].
  - destruct (value_eqb _ _) eqn:B2 in Ep |- *; cbn [bind].
    + eexists. split; [reflexivity|].
      rewrite Es. split.
      * intros E. f_equal; [apply Ee; reflexivity|].
        f_equal; [apply Ep; reflexivity|]. f_equal. exact E.
      * intros E. injection E as _ _ E. exact E.
    + exists false. split; [reflexivity|]. split; [discriminate|].
      intros E. injection E as _ E _. apply Ep in E. discriminate E.
  - exists false. split; [reflexivity|]. split; [discriminate|].
    intros E. injection E as E _ _. apply Ee in E. discriminate E.
Qed.

(** ** Properties of [_fmt_from_ext_and_format_name] *)

Lemma rfind_from_lower (c : ascii) (s : string) (i acc : Z) :
  (-1 <= acc)%Z -> (0 <= i)%Z -> (-1 <= rfind_from c s i acc)%Z.
Proof.
  revert i acc. induction s as [|a s IH]; intros i acc Hacc Hi; simpl; [exact Hacc|].
  apply IH; [|lia]. destruct (Ascii.eqb a c); lia.
Qed.

Lemma splitext_without_dot (p : string) :
  has_char "." p = false -> splitext p = (p, EmptyString).
Proof.
  intros H. unfold splitext, rfind. rewrite (rfind_from_without "." p 0 (-1) H).
  pose proof (rfind_from_lower "/" p 0 (-1) ltac:(lia) ltac:(lia)) as Hsep.
  destruct (Z.ltb_spec (rfind_from "/" p 0 (-1)) (-1)); [lia|reflexivity].
Qed.

(** X26.  [_fmt_from_ext_and_format_name] tests [ext.rfind('.')] for its
    truth: an extension with its dot in front and no other dot is stored as
    the extension, next to the options and the format name; an extension
    without any dot is taken for a file name, stored as the suffix, and the
    extension is left empty. *)
Theorem _fmt_from_ext_and_format_name_dots (ext : string) (name : value)
    (options : dict) :
  has_char "." ext = false ->
  _fmt_from_ext_and_format_name (String "." ext) name (VDict options)
  = Ok (VDict (dict_set "extension" (VStr (String "." ext))
                 (with_format_name name options)))
  /\ _fmt_from_ext_and_format_name ext name (VDict options)
     = Ok (VDict (dict_set "extension" (VStr "")
                    (dict_set "suffix" (VStr ext)
                       (with_format_name name options)))).
Proof.
  intros Hdot. unfold _fmt_from_ext_and_format_name, with_format_name.
  assert (Hopt : (if truthy (VDict options) then VDict options else VDict [])
                 = VDict options) by (destruct options; reflexivity).
  rewrite Hopt. split.
  - assert (Hr : rfind "." (String "." ext) = 0%Z).
    { unfold rfind. cbn [rfind_from]. change (Ascii.eqb "." ".") with true.
      cbn iota. apply rfind_from_without. exact Hdot. }
    rewrite Hr. destruct (truthy name); reflexivity.
  - assert (Hr : rfind "." ext = (-1)%Z).
    { unfold rfind. apply rfind_from_without. exact Hdot. }
    rewrite Hr, (splitext_without_dot _ Hdot).
    destruct (truthy name); reflexivity.
Qed.

(** ** Further properties of the version check *)

Lemma value_get_raise (o : value) (key : string) (default : value) (e : exn) :
  value_get o key default = Raise e -> not_a_refusal e.
Proof. destruct o; cbn [value_get]; intros H; inversion H; exact I. Qed.

Lemma mapM_raise {A B : Type} (f : A -> result B) (l : list A) (e : exn) :
  mapM f l = Raise e -> exists x, In x l /\ f x = Raise e.
Proof.
  induction l as [|a l IH]; cbn [mapM]; [discriminate|].
  destruct (f a) as [b|e'] eqn:Ea; cbn [bind].
  - destruct (mapM f l) as [bs|e'']; cbn [bind]; [discriminate|].
    intros H. injection H as <-. destruct (IH eq_refl) as [x [Hx Hf]].
    exists x. split; [right; exact Hx|exact Hf].
  - intros H. injection H as <-. exists a. split; [left; reflexivity|exact Ea].
Qed.

Lemma parse_formats_raise (formats : value) (e : exn) :
  parse_formats formats = Raise e -> not_a_refusal e.
Proof.
  unfold parse_formats. destruct (truthy formats); cbn [negb]; [|discriminate].
  destruct formats; try (intros H; inversion H; exact I).
  intros H. apply mapM_raise in H. destruct H as [x [_ Hx]].
  pose proof (parse_one_format_result x) as Hr. rewrite Hx in Hr.
  destruct Hr as [ext [-> _]]. exact I.
Qed.

Lemma format_name_in_raise (formats : list (string * option string)) (ext : string)
    (auto_ext : value) (explicit_default : bool) (e : exn) :
  format_name_in formats ext auto_ext explicit_default = Raise e -> not_a_refusal e.
Proof.
  induction formats as [|[fmt_ext n] formats IH]; cbn [format_name_in];
    [discriminate|].
  destruct (endswith ext fmt_ext); cbn [bind].
  - destruct (_ && _); [discriminate|exact IH].
  - destruct (endswith ".auto" fmt_ext && truthy auto_ext).
    + destruct auto_ext; cbn [bind];
        try (intros H; inversion H; exact I);
        destruct (_ && _); first [discriminate | exact IH].
    + cbn [bind andb]. exact IH.
Qed.

Lemma find_format_raise (fmts : list NotebookFormatDescription) (ext : string)
    (name : value) (acc : list string) (e : exn) :
  find_format fmts ext name acc = Raise e -> not_a_refusal e.
Proof.
  revert acc. induction fmts as [|fmt fmts IH]; intros acc; cbn [find_format].
  - destruct acc; intros H; inversion H; exact I.
  - destruct (String.eqb (extension fmt) ext); [|apply IH].
    destruct (_ || _); [discriminate|apply IH].
Qed.

Lemma get_format_implementation_raise (ext : string) (name : value) (e : exn) :
  get_format_implementation ext name = Raise e -> not_a_refusal e.
Proof.
  unfold get_format_implementation. destruct (endswith ".ipynb" _); [discriminate|].
  apply find_format_raise.
Qed.

Lemma auto_ext_from_metadata_raise (metadata : dict) (e : exn) :
  auto_ext_from_metadata metadata = Raise e -> not_a_refusal e.
Proof.
  unfold auto_ext_from_metadata.
  destruct (value_get _ "file_extension" VNone) as [auto_ext|e'] eqn:E; cbn [bind].
  - destruct (str_eq ".r" auto_ext); discriminate.
  - intros H. injection H as <-. apply value_get_raise in E. exact E.
Qed.

Ltac raise_or_ok lemma :=
  match goal with
  | |- bind ?c _ = Raise _ -> _ =>
      let E := fresh "E" in
      destruct c eqn:E; cbn [bind];
      [ | let H := fresh in intros H; injection H as <-; revert E; apply lemma ]
  end.

Lemma format_name_for_ext_raise (metadata : dict) (ext : string)
    (cm_default_formats : value) (explicit_default : bool) (e : exn) :
  format_name_for_ext metadata ext cm_default_formats explicit_default = Raise e ->
  not_a_refusal e.
Proof.
  unfold format_name_for_ext.
  raise_or_ok value_get_raise.
  match goal with
  | |- bind ?c _ = Raise _ -> _ => destruct c as [declared|e'] eqn:Ed; cbn [bind]
  end.
  2:{ intros H. injection H as <-. revert Ed.
      destruct (truthy a); [|discriminate].
      raise_or_ok value_get_raise.
      destruct (str_eq ext a0); [apply value_get_raise|discriminate]. }
  destruct (truthy declared); [discriminate|].
  raise_or_ok auto_ext_from_metadata_raise.
  raise_or_ok value_get_raise.
  raise_or_ok parse_formats_raise.
  raise_or_ok format_name_in_raise.
  destruct a3 as [found|]; [discriminate|].
  destruct (_ || _); [discriminate|].
  raise_or_ok get_format_implementation_raise.
  destruct a3; intros H; inversion H; exact I.
Qed.

(** X27.  The version check refuses a file only for its version: when it
    raises its [ValueError], the check is enabled, the two paths are distinct,
    the source is not an '.ipynb' file, and the recorded version is a string
    that the format of the registry found for the file does not accept. *)
Theorem check_file_version_refusal (metadata : dict)
    (source_path outputs_path : string) (version : value) (current : string) :
  check_file_version metadata source_path outputs_path
    = Raise (UnsafeVersion version current) ->
  insert_or_test_version_number = true
  /\ source_path <> outputs_path
  /\ endswith ".ipynb" (snd (splitext source_path)) = false
  /\ exists fmt v,
       In fmt JUPYTEXT_FORMATS
       /\ current = current_version_number fmt
       /\ version = VStr v
       /\ version_accepted fmt v = false.
Proof.
  unfold check_file_version.
  destruct (Bool.bool_dec insert_or_test_version_number true) as [Hguard|Hguard];
    [rewrite Hguard|apply Bool.not_true_is_false in Hguard; rewrite Hguard];
    cbn [negb]; [|discriminate].
  destruct (endswith ".ipynb" (snd (splitext source_path))); [discriminate|].
  assert (Hno : forall e, @Raise unit e = Raise (UnsafeVersion version current) ->
                  not_a_refusal e -> False).
  { intros e H. injection H as ->. exact (fun F => F). }
  match goal with
  | |- bind ?c _ = _ -> _ => destruct c as [text_repr|e] eqn:E1; cbn [bind]
  end.
  2:{ intros H. exfalso. apply (Hno _ H). apply value_get_raise in E1. exact E1. }
  destruct (value_get text_repr "format_version" VNone) as [recorded|e] eqn:E2;
    cbn [bind].
  2:{ intros H. exfalso. apply (Hno _ H). apply value_get_raise in E2. exact E2. }
  destruct (format_name_for_ext metadata _ VNone true) as [name|e] eqn:E3;
    cbn [bind].
  2:{ intros H. exfalso. apply (Hno _ H).
      apply format_name_for_ext_raise in E3. exact E3. }
  destruct (get_format_implementation _ name) as [[fmt|]|e] eqn:E4; cbn [bind].
  3:{ intros H. exfalso. apply (Hno _ H).
      apply get_format_implementation_raise in E4. exact E4. }
  2:{ discriminate. }
  assert (Hin : In fmt JUPYTEXT_FORMATS).
  { revert E4. unfold get_format_implementation.
    destruct (endswith ".ipynb" _); [discriminate|].
    intros H. apply find_format_sound in H. destruct H as [H _]. exact H. }
  set (ver := if truthy (VDict metadata) && negb (truthy recorded)
              then VStr (current_version_number fmt) else recorded).
  destruct (str_eq (current_version_number fmt) ver) eqn:Heq; [discriminate|].
  fold (min_readable_or_current fmt).
  destruct ver as [| | |v| |] eqn:Ever; cbn [version_between bind];
    try discriminate.
  destruct (String.leb (min_readable_or_current fmt) v
            && String.leb v (current_version_number fmt)) eqn:Hrange;
    [discriminate|].
  destruct (String.eqb_spec source_path outputs_path); [discriminate|].
  intros H. injection H as <- <-.
  repeat split; try assumption.
  exists fmt, v. repeat split; try assumption.
  unfold version_accepted. cbn [str_eq] in Heq. rewrite Heq, Hrange. reflexivity.
Qed.

(** ** From the text to the formats and back *)

Lemma format_name_in_explicit_same (formats : list (string * option string))
    (ext : string) (auto_ext name : value) :
  format_name_in formats ext auto_ext false = Ok (Some name) ->
  truthy name = true ->
  format_name_in formats ext auto_ext true = Ok (Some name).
Proof.
  induction formats as [|[fmt_ext n] formats IH]; cbn [format_name_in];
    [discriminate|].
  match goal with |- bind ?c _ = _ -> _ => destruct c as [[|]|]; cbn [bind] end;
    try discriminate.
  - cbn [negb orb andb]. intros H Ht. injection H as <-. rewrite Ht. reflexivity.
  - cbn [andb]. exact IH.
Qed.

Lemma format_name_in_not_explicit (formats : list (string * option string))
    (ext : string) (auto_ext : value) :
  format_name_in formats ext auto_ext false = Ok None ->
  format_name_in formats ext auto_ext true = Ok None.
Proof.
  induction formats as [|[fmt_ext n] formats IH]; cbn [format_name_in];
    [reflexivity|].
  match goal with |- bind ?c _ = _ -> _ => destruct c as [[|]|]; cbn [bind] end;
    try discriminate.
  cbn [andb]. exact IH.
Qed.

Lemma format_name_for_ext_found (metadata : dict) (ext : string)
    (cm_default_formats name : value) :
  format_name_for_ext metadata ext cm_default_formats false = Ok name ->
  truthy name = true ->
  format_name_for_ext metadata ext cm_default_formats true = Ok name.
Proof.
  unfold format_name_for_ext.
  destruct (value_get _ "text_representation" VNone) as [text_repr|]; [|discriminate].
  cbn [bind].
  match goal with |- bind ?c _ = _ -> _ => destruct c as [declared|]; [|discriminate] end.
  cbn [bind]. destruct (truthy declared); [intros H _; exact H|].
  destruct (auto_ext_from_metadata metadata) as [auto_ext|]; [|discriminate].
  cbn [bind].
  destruct (value_get _ "formats" (VStr "")) as [formats|]; [|discriminate].
  cbn [bind].
  destruct (parse_formats _) as [l|]; [|discriminate]. cbn [bind].
  destruct (format_name_in l ext auto_ext false) as [[found|]|] eqn:Hin;
    [| |discriminate]; cbn [bind negb orb].
  - intros H Ht. injection H as <-.
    rewrite (format_name_in_explicit_same _ _ _ _ Hin Ht). reflexivity.
  - intros H Ht. injection H as <-. discriminate Ht.
Qed.

(** X28.  [explicit_default] only adds defaults: a format name that the
    resolver finds in the metadata without it is the name that it returns
    with it. *)
Theorem format_name_for_ext_explicit_same (metadata : dict) (ext : string)
    (cm_default_formats name : value) :
  format_name_for_ext metadata ext cm_default_formats false = Ok name ->
  truthy name = true ->
  format_name_for_ext metadata ext cm_default_formats true = Ok name.
Proof. apply format_name_for_ext_found. Qed.

(** On metadata in the current layout the rearrangement only moves the
    jupytext metadata to the end, or drops them when they are empty. *)
Lemma rearrange_current_layout (metadata : dict) :
  current_layout metadata = true ->
  rearrange_jupytext_metadata metadata
  = Ok (match dict_get "jupytext" metadata with
        | Some (VDict (item :: j)) =>
            dict_set "jupytext" (VDict (item :: j)) (dict_remove "jupytext" metadata)
        | _ => dict_remove "jupytext" metadata
        end).
Proof.
  unfold current_layout. intros H. apply andb_prop in H. destruct H as [Hl Hj].
  assert (Hlacks : Forall (fun k => lacks k metadata) legacy_keys).
  { apply Forall_forall. intros k Hk.
    pose proof (proj1 (forallb_forall _ _) Hl k Hk) as Hm.
    unfold dict_mem in Hm. unfold lacks.
    destruct (dict_get k metadata); [discriminate Hm|reflexivity]. }
  assert (Hlacks' : Forall (fun k => lacks k (dict_remove "jupytext" metadata))
                      legacy_keys).
  { apply Forall_forall. intros k Hk. apply lacks_remove.
    exact (proj1 (Forall_forall _ _) Hlacks k Hk). }
  unfold rearrange_jupytext_metadata.
  rewrite rename_nbrmd_rearranged by exact Hlacks.
  unfold legacy_keys in Hlacks'.
  repeat match goal with
         | Hl : Forall _ (_ :: _) |- _ => inversion Hl; clear Hl; subst
         end.
  repeat (rewrite fold_key_absent by assumption; cbn [bind]).
  unfold get_default at 1.
  destruct (dict_get "jupytext" metadata) as [[| | | | |j]|]; try discriminate Hj.
  - apply andb_prop in Hj. destruct Hj as [Hj Hcell].
    apply andb_prop in Hj. destruct Hj as [Hmf Hnb].
    assert (Hmf' : lacks "metadata_filter" j).
    { unfold lacks. unfold dict_mem in Hmf.
      destruct (dict_get "metadata_filter" j); [discriminate Hmf|reflexivity]. }
    cbn [value_pop bind]. rewrite remove_lacks by exact Hmf'.
    assert (Hfilters : get_default "metadata_filter" (VDict []) j = VDict [])
      by (unfold get_default; rewrite Hmf'; reflexivity).
    rewrite !Hfilters.
    unfold fold_filter. cbn [value_contains dict_mem dict_get bind].
    rewrite flatten_level_not_a_dict
      by (destruct (get_default "notebook_metadata_filter" VNone j);
          try exact I; discriminate Hnb).
    cbn [bind].
    rewrite flatten_level_not_a_dict
      by (destruct (get_default "cell_metadata_filter" VNone j);
          try exact I; discriminate Hcell).
    cbn [bind]. destruct j; reflexivity.
  - reflexivity.
Qed.

(** What the resolver reads in the metadata, the jupytext metadata and the
    information on the language, is the same before and after the
    rearrangement of metadata in the current layout. *)
Lemma rearrange_current_layout_get (metadata metadata' : dict) (key : string) :
  current_layout metadata = true ->
  rearrange_jupytext_metadata metadata = Ok metadata' ->
  get_default key (VDict []) metadata' = get_default key (VDict []) metadata.
Proof.
  intros Hc H. rewrite (rearrange_current_layout _ Hc) in H. injection H as <-.
  unfold get_default. destruct (String.eqb_spec key "jupytext") as [->|N].
  - destruct (dict_get "jupytext" metadata) as [[| | | | |[|item j]]|] eqn:E;
      try (rewrite dict_get_set_same; reflexivity);
      try (rewrite (dict_get_remove_same "jupytext" metadata); reflexivity);
      unfold current_layout in Hc; rewrite E in Hc;
      rewrite Bool.andb_false_r in Hc; discriminate Hc.
  - destruct (dict_get "jupytext" metadata) as [[| | | | |[|item j]]|];
      try rewrite dict_get_set_other by exact N;
      rewrite dict_get_remove_other by exact N; reflexivity.
Qed.

(** The resolver reads the metadata through two of their entries. *)
Lemma format_name_for_ext_entries (metadata metadata' : dict) (ext : string)
    (cm_default_formats : value) (explicit_default : bool) :
  (forall key, get_default key (VDict []) metadata'
               = get_default key (VDict []) metadata) ->
  format_name_for_ext metadata' ext cm_default_formats explicit_default
  = format_name_for_ext metadata ext cm_default_formats explicit_default.
Proof.
  intros H. unfold format_name_for_ext, auto_ext_from_metadata.
  rewrite !H. reflexivity.
Qed.

(** X29.  The two readers of the format agree: when the header metadata are
    in the current layout (no key of the old layouts, no filter left as a
    dict; the entries in any order, the jupytext metadata before the kernel
    for instance) and say more than the encoding, the executable or the main
    language, a format name that [read_format_from_metadata] finds in them is
    the format that [guess_format] returns, whatever the content of the
    file. *)
Theorem guess_format_follows_metadata (text ext : string) (metadata : dict)
    (name : value) :
  read_metadata text ext = Ok metadata ->
  current_layout metadata = true ->
  explicit_metadata metadata = Ok true ->
  read_format_from_metadata text ext = Ok name ->
  truthy name = true ->
  guess_format text ext = Ok name.
Proof.
  intros Hread Hlayout Hexplicit. unfold read_format_from_metadata, guess_format.
  rewrite Hread. cbn [bind]. rewrite Hexplicit.
  destruct (rearrange_jupytext_metadata metadata) as [metadata'|] eqn:E;
    [|discriminate].
  cbn [bind].
  rewrite (format_name_for_ext_entries metadata metadata')
    by (intros key; apply rearrange_current_layout_get; assumption).
  apply format_name_for_ext_found.
Qed.

Lemma split_once_app (c : ascii) (s a b : string) :
  split_once c s = Some (a, b) -> s = a ++ String c b.
Proof.
  revert a. induction s as [|x s IH]; intros a; cbn [split_once]; [discriminate|].
  destruct (Ascii.eqb_spec x c) as [->|N].
  - intros H. injection H as <- <-. reflexivity.
  - destruct (split_once c s) as [[a' b']|]; [|discriminate].
    intros H. injection H as <- <-. cbn [append]. rewrite <- (IH a' eq_refl).
    reflexivity.
Qed.

Lemma append_empty (t : string) : t ++ "" = t.
Proof. induction t as [|c t IH]; simpl; [reflexivity|]. rewrite IH. reflexivity. Qed.

Lemma split_format_name_app (s : string) :
  s = fst (split_format_name s) ++ format_name_suffix (snd (split_format_name s)).
Proof.
  assert (E : forall t : string, t = t ++ "")
    by (intros t; symmetry; apply append_empty).
  unfold split_format_name. destruct (0 <=? find ":" s)%Z; [|apply E].
  destruct (split_once ":" s) as [[a b]|] eqn:Es; [|apply E].
  apply split_once_app in Es. exact Es.
Qed.

Lemma join_split (sep : ascii) (s : string) :
  join (String sep EmptyString) (split sep s) = s.
Proof.
  unfold join. induction s as [|c s IH]; [reflexivity|]. cbn [split].
  destruct (Ascii.eqb_spec c sep) as [->|N].
  - destruct (split sep s) as [|p ps] eqn:E; [exfalso; exact (split_not_nil _ _ E)|].
    cbn [String.concat append] in *. rewrite IH. reflexivity.
  - destruct (split sep s) as [|p ps] eqn:E; [exfalso; exact (split_not_nil _ _ E)|].
    destruct ps as [|q ps]; cbn [String.concat append] in *; rewrite IH; reflexivity.
Qed.

(** One specifier, parsed and rendered. *)
Lemma one_format_as_string_parsed (text ext : string) (name : option string) :
  startswith "." text = false ->
  parse_one_format text = Ok (ext, name) ->
  shown_format_name name = true ->
  one_format_as_string ext name = text.
Proof.
  intros Hdot Hparse Hname.
  pose proof (split_format_name_start _ Hdot) as He.
  pose proof (split_format_name_app text) as Happ.
  unfold parse_one_format in Hparse.
  destruct (split_format_name text) as [e n]. cbn [fst snd] in He, Happ.
  rewrite He in Hparse.
  assert (Hext : ext = String "." e /\ name = n).
  { destruct (str_in _ _); [injection Hparse as <- <-; auto|].
    destruct (_ && _); [injection Hparse as <- <-; auto|discriminate]. }
  destruct Hext as [-> ->].
  unfold one_format_as_string. change (startswith "." (String "." e)) with true.
  cbn iota. rewrite slice_from_1, Happ.
  destruct n as [n|]; [|symmetry; apply append_empty].
  cbn [shown_format_name] in Hname. rewrite Hname. reflexivity.
Qed.

(** X30.  A text of formats that is parsed comes back when the formats are
    rendered, provided that its entries are written without the dot in front
    and that the format names in it are names that the compact form shows
    (not empty, not 'markdown' nor 'rmarkdown'). *)
Theorem formats_as_string_of_parse_formats (text : string)
    (formats : list (string * option string)) :
  Forall (fun entry => startswith "." entry = false) (split "," text) ->
  parse_formats (VStr text) = Ok formats ->
  Forall (fun f => shown_format_name (snd f) = true) formats ->
  formats_as_string formats = text.
Proof.
  intros Hdots Hparse Hnames. unfold parse_formats in Hparse.
  cbn [truthy] in Hparse. destruct (String.eqb_spec text "") as [->|Hne].
  - injection Hparse as <-. reflexivity.
  - cbn [negb] in Hparse. rewrite <- (join_split "," text).
    unfold formats_as_string. f_equal.
    revert formats Hparse Hnames.
    induction Hdots as [|p parts Hp _ IH]; intros formats Hparse Hnames.
    + injection Hparse as <-. reflexivity.
    + cbn [mapM] in Hparse.
      destruct (parse_one_format p) as [[ext name]|] eqn:Ep; [|discriminate].
      cbn [bind] in Hparse.
      destruct (mapM parse_one_format parts) as [fs|]; [|discriminate].
      cbn [bind] in Hparse. injection Hparse as <-.
      inversion Hnames as [|? ? Hn Hns]; subst. cbn [map fst snd] in *.
      rewrite (one_format_as_string_parsed _ _ _ Hp Ep Hn), (IH fs eq_refl Hns).
      reflexivity.
Qed.

End Formats.

(** ** The properties on examples *)

(** C1: '.py' has four formats, and the lookup without a format name returns
    the first of them, the light format, instead of raising the error that
    lists the four. *)
Lemma get_format_implementation_py_returns_light :
  map format_name (formats_of_extension script_extensions_py ".py")
    = ["light"; "percent"; "hydrogen"; "sphinx"]
  /\ get_format_implementation script_extensions_py ".py" VNone = Ok (Some light_py).
Proof. split; reflexivity. Qed.

Lemma get_format_implementation_first_format_witness :
  get_format_implementation script_extensions_py ".py" VNone = Ok (Some light_py)
  /\ get_format_implementation script_extensions_py ".py" (VStr "markdown")
     = Raise (FormatNotAssociated (VStr "markdown") ".py"
                ["light"; "percent"; "hydrogen"; "sphinx"]).
Proof.
  destruct (get_format_implementation_first_format script_extensions_py ".py"
              light_py [percent_py; hydrogen_py; sphinx_py] eq_refl eq_refl)
    as [Hnone Hname].
  split; [exact Hnone|].
  apply (Hname (VStr "markdown")); [reflexivity|].
  intros f [<-|[<-|[<-|[<-|[]]]]]; reflexivity.
Defined.

(** C2: the version '1.10' of the light format is accepted, between '1.1'
    and '1.3' as a string, although 1.10 is not between 1.1 and 1.3 as a pair
    of numbers. *)
Lemma check_file_version_accepts_1_10 :
  check_file_version script_extensions_py true (light_script_metadata "1.10")
    "notebook.py" "notebook.ipynb" = Ok tt
  /\ numerically_accepted light_py "1.10" = false.
Proof. split; reflexivity. Qed.

Lemma check_file_version_string_order_witness :
  check_file_version script_extensions_py true (light_script_metadata "1.2")
    "notebook.py" "notebook.ipynb" = Ok tt
  /\ check_file_version script_extensions_py true (light_script_metadata "1.4")
       "notebook.py" "notebook.ipynb" = Raise (UnsafeVersion (VStr "1.4") "1.3").
Proof.
  split.
  - apply (proj1 (check_file_version_string_order script_extensions_py true)
             (light_script_metadata "1.2")
             [("text_representation",
               VDict [("extension", VStr ".py"); ("format_name", VStr "light");
                      ("format_version", VStr "1.2")])]
             [("extension", VStr ".py"); ("format_name", VStr "light");
              ("format_version", VStr "1.2")]
             "notebook.py" "notebook.ipynb" "1.2"
             (VStr "light") light_py);
      try reflexivity; discriminate.
  - apply (proj1 (check_file_version_string_order script_extensions_py true)
             (light_script_metadata "1.4")
             [("text_representation",
               VDict [("extension", VStr ".py"); ("format_name", VStr "light");
                      ("format_version", VStr "1.4")])]
             [("extension", VStr ".py"); ("format_name", VStr "light");
              ("format_version", VStr "1.4")]
             "notebook.py" "notebook.ipynb" "1.4"
             (VStr "light") light_py);
      try reflexivity; discriminate.
Defined.

(** C3: with no metadata at all the check does not return: the missing
    version is compared with the minimum readable version, a string. *)
Lemma check_file_version_empty_metadata_raises :
  check_file_version script_extensions_py true [] "notebook.md" "notebook.ipynb"
  = Raise TypeError.
Proof. reflexivity. Qed.

Lemma check_file_version_missing_version_witness :
  check_file_version script_extensions_py true [("kernelspec", VDict [])]
    "notebook.py" "notebook.ipynb" = Ok tt.
Proof.
  apply (check_file_version_missing_version script_extensions_py true
           [("kernelspec", VDict [])] "notebook.py" "notebook.ipynb"
           (VDict []) VNone (VStr "light") light_py);
    try reflexivity; discriminate.
Defined.

(** C4: 'markdown' is the format of '.md' in the registry, and the pair
    ('.md', 'markdown') comes back from its compact form 'md' without its
    format name. *)
Lemma parse_formats_loses_markdown :
  get_format_implementation script_extensions_py ".md" (VStr "markdown")
    = Ok (Some markdown_md)
  /\ formats_as_string [(".md", Some "markdown")] = "md"
  /\ parse_formats script_extensions_py
       (VStr (formats_as_string [(".md", Some "markdown")])) = Ok [(".md", None)].
Proof. repeat split; reflexivity. Qed.

Lemma parse_formats_of_formats_as_string_witness :
  parse_formats script_extensions_py
    (VStr (formats_as_string [(".ipynb", None); (".py", Some "percent"); (".md", None)]))
  = Ok [(".ipynb", None); (".py", Some "percent"); (".md", None)].
Proof.
  apply (parse_formats_of_formats_as_string script_extensions_py).
  repeat (constructor; [reflexivity|]). constructor.
Defined.

(** C5: an extension that the list does not have is not appended. *)
Lemma update_formats_does_not_append :
  update_formats [(".md", None)] ".py" (Some "percent") = [(".md", None)].
Proof. reflexivity. Qed.

Lemma update_formats_replaces_first_witness :
  update_formats [(".ipynb", None); (".py", Some "light"); (".py", Some "sphinx")]
    ".py" (Some "percent")
  = [(".ipynb", None); (".py", Some "percent")]
  /\ update_formats [(".md", None)] ".py" (Some "percent") = [(".md", None)].
Proof.
  split.
  - apply (proj2 (update_formats_replaces_first
                    [(".ipynb", None); (".py", Some "light"); (".py", Some "sphinx")]
                    ".py" (Some "percent"))
             [(".ipynb", None)] (Some "light") [(".py", Some "sphinx")]).
    + reflexivity.
    + simpl. intros [H|[]]. discriminate H.
  - apply (proj1 (update_formats_replaces_first [(".md", None)] ".py" (Some "percent"))).
    simpl. intros [H|[]]. discriminate H.
Defined.

Lemma guess_format_decision_witness :
  guess_format script_extensions_py lines_at_line_feeds no_header string
    (fun pattern => Ok pattern) pattern_match unit (fun _ => tt)
    (fun parser _ => parser) (fun _ => false) hydrogen_script ".py"
  = Ok (VStr "hydrogen")
  /\ guess_format script_extensions_py lines_at_line_feeds no_header string
       (fun pattern => Ok pattern) pattern_match unit (fun _ => tt)
       (fun parser _ => parser) (fun _ => false) percent_script ".py"
     = Ok (VStr "percent")
  /\ guess_format script_extensions_py lines_at_line_feeds no_header string
       (fun pattern => Ok pattern) pattern_match unit (fun _ => tt)
       (fun parser _ => parser) (fun _ => false) sphinx_script ".py"
     = Ok (VStr "sphinx")
  /\ guess_format script_extensions_py lines_at_line_feeds no_header string
       (fun pattern => Ok pattern) pattern_match unit (fun _ => tt)
       (fun parser _ => parser) (fun _ => false) plain_script ".py"
     = Ok (VStr "light").
Proof.
  pose (decision := fun text =>
    guess_format_decision script_extensions_py lines_at_line_feeds no_header
      string (fun pattern => Ok pattern) pattern_match unit (fun _ => tt)
      (fun parser _ => parser) (fun _ => false) text ".py" []
      "^(%|%%|%%%)[a-zA-Z]" "^#( %%|%%)$" "^#( %%|%%)\s"
      "^#( <codecell>| In\[[0-9 ]*\]:?)"
      eq_refl eq_refl eq_refl eq_refl eq_refl eq_refl eq_refl eq_refl eq_refl).
  split; [|split; [|split]].
  - destruct (decision hydrogen_script) as [fmt [others [_ [_ H]]]].
    rewrite H. reflexivity.
  - destruct (decision percent_script) as [fmt [others [_ [_ H]]]].
    rewrite H. reflexivity.
  - destruct (decision sphinx_script) as [fmt [others [_ [_ H]]]].
    rewrite H. reflexivity.
  - destruct (decision plain_script) as [fmt [others [_ [Hlight H]]]].
    rewrite H. cbv zeta. cbn. rewrite (Hlight eq_refl). reflexivity.
Defined.

Lemma format_name_for_ext_text_representation_witness :
  format_name_for_ext script_extensions_py
    [("jupytext",
      VDict [("formats", VStr "ipynb,py:percent");
             ("text_representation",
              VDict [("extension", VStr ".py"); ("format_name", VStr "light")])])]
    ".py" (VStr "py:sphinx") true
  = Ok (VStr "light").
Proof.
  apply (format_name_for_ext_text_representation script_extensions_py) with
    (jupytext := [("formats", VStr "ipynb,py:percent");
                  ("text_representation",
                   VDict [("extension", VStr ".py"); ("format_name", VStr "light")])])
    (text_repr := [("extension", VStr ".py"); ("format_name", VStr "light")]);
    try reflexivity; discriminate.
Defined.

Lemma long_form_multiple_formats_all_or_nothing_witness :
  exists why,
    long_form_multiple_formats script_extensions_py
      (VList [VStr "ipynb";
              VDict [("extension", VStr ".py"); ("comment_magics", VStr "true")]])
    = Raise (JupytextFormatError why).
Proof.
  apply (long_form_multiple_formats_all_or_nothing script_extensions_py
           [VStr "ipynb";
            VDict [("extension", VStr ".py"); ("comment_magics", VStr "true")]]
           [("extension", VStr ".py"); ("comment_magics", VStr "true")]
           "comment_magics").
  - right. left. reflexivity.
  - right. left. reflexivity.
  - reflexivity.
Defined.

(** ** The further properties on examples *)

Lemma get_format_implementation_sound_witness :
  In light_py (JUPYTEXT_FORMATS script_extensions_py)
  /\ extension light_py = short_extension "notebook.py"
  /\ (truthy (VStr "light") = true -> VStr "light" = VStr (format_name light_py)).
Proof.
  exact (get_format_implementation_sound script_extensions_py "notebook.py"
           (VStr "light") light_py eq_refl).
Defined.

Lemma get_format_implementation_unknown_extension_witness :
  get_format_implementation script_extensions_py "notes.txt" (VStr "light")
  = Raise (NoFormatForExtension ".txt").
Proof.
  exact (get_format_implementation_unknown_extension script_extensions_py
           "notes.txt" (VStr "light") eq_refl eq_refl).
Defined.

Lemma JUPYTEXT_FORMATS_unambiguous_witness :
  light_format script_extensions_py ".py" = light_py.
Proof.
  apply (JUPYTEXT_FORMATS_unambiguous script_extensions_py).
  - simpl. auto 10.
  - simpl. auto 10.
  - reflexivity.
  - reflexivity.
Defined.

Lemma JUPYTEXT_FORMATS_versions_witness :
  single_digit_version (current_version_number light_py) = true
  /\ single_digit_version (min_readable_or_current light_py) = true
  /\ String.leb (min_readable_or_current light_py) (current_version_number light_py)
     = true
  /\ version_accepted light_py (current_version_number light_py) = true
  /\ version_accepted light_py (min_readable_or_current light_py) = true.
Proof.
  apply (JUPYTEXT_FORMATS_versions script_extensions_py). simpl. auto 10.
Defined.

Lemma parse_one_format_optional_dot_witness :
  parse_one_format script_extensions_py ".py:percent"
  = parse_one_format script_extensions_py "py:percent".
Proof.
  exact (parse_one_format_optional_dot script_extensions_py "py:percent" eq_refl).
Defined.

Lemma parse_formats_empty_entry_witness :
  exists ext,
    parse_formats script_extensions_py (VStr "ipynb,py,") = Raise (BadExtension ext).
Proof.
  apply (parse_formats_empty_entry script_extensions_py "ipynb,py,").
  - reflexivity.
  - discriminate.
  - simpl. auto.
Defined.

Lemma update_formats_commute_witness :
  update_formats (update_formats [(".md", None); (".py", Some "light")]
                    ".py" (Some "percent")) ".md" (Some "markdown")
  = update_formats (update_formats [(".md", None); (".py", Some "light")]
                      ".md" (Some "markdown")) ".py" (Some "percent").
Proof.
  apply (update_formats_commute [(".md", None); (".py", Some "light")]
           ".py" ".md" (Some "percent") (Some "markdown")).
  discriminate.
Defined.

Lemma update_jupytext_formats_metadata_frame_witness :
  update_jupytext_formats_metadata script_extensions_py [("kernelspec", VDict [])]
    ".py" (Some "percent")
  = Ok [("kernelspec", VDict [])].
Proof.
  apply (proj1 (update_jupytext_formats_metadata_frame script_extensions_py
                  [("kernelspec", VDict [])] ".py" (Some "percent")) (VStr ""));
    reflexivity.
Defined.

Lemma format_name_for_ext_explicit_witness : truthy (VStr "light") = true.
Proof.
  apply (format_name_for_ext_explicit script_extensions_py [] ".py" VNone
           (VStr "light")); reflexivity.
Defined.


Lemma rearrange_jupytext_metadata_other_keys_witness :
  dict_get "kernelspec"
    [("kernelspec", VDict []); ("jupytext", VDict [("formats", VStr "ipynb,py")])]
  = dict_get "kernelspec"
      [("kernelspec", VDict []); ("jupytext_formats", VStr "ipynb,py")].
Proof.
  apply (rearrange_jupytext_metadata_other_keys
           [("kernelspec", VDict []); ("jupytext_formats", VStr "ipynb,py")]).
  - reflexivity.
  - discriminate.
  - simpl. intuition discriminate.
Defined.

Lemma rearrange_jupytext_metadata_folds_witness :
  exists jupytext,
    dict_get "jupytext"
      [("kernelspec", VDict []); ("jupytext", VDict [("formats", VStr "ipynb,py")])]
    = Some (VDict jupytext)
    /\ dict_get "formats" jupytext = Some (VStr "ipynb,py").
Proof.
  apply (rearrange_jupytext_metadata_folds
           [("kernelspec", VDict []); ("jupytext_formats", VStr "ipynb,py")]
           _ "jupytext_formats" "formats" (VStr "ipynb,py")).
  - left. reflexivity.
  - reflexivity.
  - reflexivity.
  - reflexivity.
  - reflexivity.
Defined.

Lemma long_form_multiple_formats_valid_witness :
  Forall (fun fmt => valid_format script_extensions_py fmt = true)
    [VDict [("extension", VStr ".ipynb")];
     VDict [("format_name", VStr "percent"); ("extension", VStr ".py")]].
Proof.
  apply (long_form_multiple_formats_valid script_extensions_py
           (VStr "ipynb,py:percent")).
  reflexivity.
Defined.

Lemma long_form_multiple_formats_idempotent_witness :
  long_form_multiple_formats script_extensions_py
    (VList [VDict [("extension", VStr ".ipynb")];
            VDict [("format_name", VStr "percent"); ("extension", VStr ".py")]])
  = Ok [VDict [("extension", VStr ".ipynb")];
        VDict [("format_name", VStr "percent"); ("extension", VStr ".py")]].
Proof.
  apply (long_form_multiple_formats_idempotent script_extensions_py
           (VStr "ipynb,py:percent")).
  reflexivity.
Defined.

Lemma long_form_multiple_formats_empty_entries_witness :
  long_form_multiple_formats script_extensions_py (VStr "ipynb,py,")
  = long_form_multiple_formats script_extensions_py (VStr "ipynb,py").
Proof.
  apply (proj2 (long_form_multiple_formats_empty_entries script_extensions_py
                  "ipynb,py" "")).
  discriminate.
Defined.

Lemma long_form_one_format_agrees_witness :
  long_form_one_format (VStr "py:percent") = plain_long_form ".py" (Some "percent")
  /\ valid_format script_extensions_py (plain_long_form ".py" (Some "percent")) = true.
Proof.
  exact (long_form_one_format_agrees script_extensions_py "py:percent" ".py"
           (Some "percent") eq_refl eq_refl).
Defined.

Lemma set_auto_ext_resolves_witness :
  set_auto_ext script_extensions_py (VStr "ipynb,auto:percent")
    [("language_info", VDict [("file_extension", VStr ".r")])]
  = Resolved [VDict [("extension", VStr ".ipynb")];
              VDict [("format_name", VStr "percent"); ("extension", VStr ".R")]]
  /\ set_auto_ext script_extensions_py (VStr "ipynb,auto:percent") []
     = NoKernelInformation.
Proof.
  split.
  - exact (set_auto_ext_resolves script_extensions_py (VStr "ipynb,auto:percent")
             [("language_info", VDict [("file_extension", VStr ".r")])]
             _ _ eq_refl eq_refl).
  - exact (set_auto_ext_resolves script_extensions_py (VStr "ipynb,auto:percent")
             [] _ _ eq_refl eq_refl).
Defined.

Lemma identical_format_path_other_options_witness :
  identical_format_path
    (VDict (dict_set "format_name" (VStr "percent") [("extension", VStr ".py")]))
    (VDict [("extension", VStr ".py")])
  = identical_format_path (VDict [("extension", VStr ".py")])
      (VDict [("extension", VStr ".py")]).
Proof.
  apply (proj1 (identical_format_path_other_options [("extension", VStr ".py")]
                  (VDict [("extension", VStr ".py")]) "format_name" (VStr "percent")
                  ltac:(simpl; intuition discriminate))).
Defined.

Lemma identical_format_path_same_path_witness :
  exists same,
    identical_format_path
      (VDict [("extension", VStr ".py"); ("format_name", VStr "light")])
      (VDict [("suffix", VStr ".lgt"); ("extension", VStr ".py")]) = Ok same
    /\ (same = true
        <-> format_path [("extension", VStr ".py"); ("format_name", VStr "light")]
            = format_path [("suffix", VStr ".lgt"); ("extension", VStr ".py")]).
Proof.
  apply identical_format_path_same_path; reflexivity.
Defined.

Lemma _fmt_from_ext_and_format_name_dots_witness :
  _fmt_from_ext_and_format_name ".py" (VStr "light") (VDict [])
  = Ok (VDict [("format_name", VStr "light"); ("extension", VStr ".py")])
  /\ _fmt_from_ext_and_format_name "py" (VStr "light") (VDict [])
     = Ok (VDict [("format_name", VStr "light"); ("suffix", VStr "py");
                  ("extension", VStr "")]).
Proof.
  exact (_fmt_from_ext_and_format_name_dots "py" (VStr "light") [] eq_refl).
Defined.

Lemma check_file_version_refusal_witness :
  true = true
  /\ "notebook.py" <> "notebook.ipynb"
  /\ endswith ".ipynb" (snd (splitext "notebook.py")) = false
  /\ exists fmt v,
       In fmt (JUPYTEXT_FORMATS script_extensions_py)
       /\ "1.3" = current_version_number fmt
       /\ VStr "1.4" = VStr v
       /\ version_accepted fmt v = false.
Proof.
  exact (check_file_version_refusal script_extensions_py true
           (light_script_metadata "1.4") "notebook.py" "notebook.ipynb"
           (VStr "1.4") "1.3" eq_refl).
Defined.

Lemma format_name_for_ext_explicit_same_witness :
  format_name_for_ext script_extensions_py
    [("jupytext", VDict [("formats", VStr "ipynb,py:percent")])] ".py" VNone true
  = Ok (VStr "percent").
Proof.
  apply (format_name_for_ext_explicit_same script_extensions_py); reflexivity.
Defined.

Lemma formats_as_string_of_parse_formats_witness :
  formats_as_string [(".ipynb", None); (".py", Some "percent")] = "ipynb,py:percent".
Proof.
  apply (formats_as_string_of_parse_formats script_extensions_py).
  - repeat (constructor; [reflexivity|]). constructor.
  - reflexivity.
  - repeat (constructor; [reflexivity|]). constructor.
Defined.

Lemma guess_format_follows_metadata_witness :
  guess_format script_extensions_py lines_at_line_feeds header_with_formats string
    (fun pattern => Ok pattern) pattern_match unit (fun _ => tt) (fun parser _ => parser)
    (fun _ => false) "x = 1" ".py"
  = Ok (VStr "percent").
Proof.
  exact (guess_format_follows_metadata script_extensions_py lines_at_line_feeds
           header_with_formats string (fun pattern => Ok pattern) pattern_match unit
           (fun _ => tt) (fun parser _ => parser) (fun _ => false) "x = 1" ".py"
           [("jupytext", VDict [("formats", VStr "ipynb,py:percent")]);
            ("kernelspec",
             VDict [("display_name", VStr "Python 3"); ("language", VStr "python");
                    ("name", VStr "python3")])]
           (VStr "percent") eq_refl eq_refl eq_refl eq_refl eq_refl).
Defined.
